(** * Spotify ETL pipelines: a shallow embedding and its checked properties

    The repository holds three Airflow tasks:
    - [spotify_etl.py]:  artist search, top tracks, CSV sink;
    - [spotify_etl2.py]: recently played history, pandas frame, SQLite sink;
    - [new.py]:          recently played through a spotipy client, CSV sink.

    Python objects decoded from JSON are modelled by [pyval]; exceptions by
    [exn]; a function that logs, calls the network or writes to a sink is a
    state-and-error computation [Eff] over the trace of [event]s it emits.
    The outside world (Variable store, process environment, HTTP answers,
    sink outcomes, clock) is the record [World]; library functions that the
    tasks call but whose text is not part of the repository and whose result
    no property below depends on are the record [Lib]. *)

From stdpp Require Import gmap strings list.

From Stdlib Require Import QArith_base.

#[local] Set Warnings "-register-all".
Open Scope Z_scope.

(** ** Python values and exceptions *)

(** A Python object as [json.loads] builds it.  Numbers are integers (the
    fields the tasks read, [duration_ms] and [popularity], are integral);
    numbers with a fractional part are left out, floating point being
    outside this embedding.  A dict keeps its members in document order,
    which is the order in which Python iterates over it. *)
Inductive pyval : Type :=
  | PNone
  | PBool (b : bool)
  | PInt (n : Z)
  | PStr (s : string)
  | PList (l : list pyval)
  | PDict (kvs : list (string * pyval)).

Inductive exn : Type :=
  | AttributeError
  | KeyError
  | IndexError
  | TypeError
  | ZeroDivisionError
  | OverflowError
  | ImportError
  | RequestException
  | ValueError (msg : string)
  | Exception (msg : string).

Inductive res (A : Type) : Type :=
  | Ok (a : A)
  | Raise (e : exn).
Arguments Ok {A} a.
Arguments Raise {A} e.

#[global] Instance res_ret : MRet res := fun A a => Ok a.
#[global] Instance res_bind : MBind res := fun A B f r =>
  match r with Ok a => f a | Raise e => Raise e end.

(** State-and-error computations: the state reached when an exception is
    raised is kept, as the side effects of a Python block are. *)
Definition Eff (S A : Type) : Type := S -> S * res A.

#[global] Instance eff_ret {S} : MRet (Eff S) := fun A a s => (s, Ok a).
#[global] Instance eff_bind {S} : MBind (Eff S) := fun A B f m s =>
  match m s with
  | (s', Ok a) => f a s'
  | (s', Raise e) => (s', Raise e)
  end.

Definition lift {S A} (r : res A) : Eff S A := fun s => (s, r).
Definition raise {S A} (e : exn) : Eff S A := fun s => (s, Raise e).
Definition modify {S} (f : S -> S) : Eff S unit := fun s => (f s, Ok tt).
Definition pass {S} : Eff S unit := fun s => (s, Ok tt).

(** [try: m except Exception as e: h e] *)
Definition try_except {S A} (m : Eff S A) (h : exn -> Eff S A) : Eff S A :=
  fun s => match m s with
           | (s', Raise e) => h e s'
           | r => r
           end.

(** ** Primitive operations on Python values *)

Fixpoint assoc (k : string) (kvs : list (string * pyval)) : option pyval :=
  match kvs with
  | [] => None
  | (k', v) :: rest => if decide (k = k') then Some v else assoc k rest
  end.

(** [bool(v)] *)
Definition truthy (v : pyval) : bool :=
  match v with
  | PNone => false
  | PBool b => b
  | PInt n => negb (n =? 0)%Z
  | PStr s => negb (String.eqb s "")
  | PList l => match l with [] => false | _ => true end
  | PDict kvs => match kvs with [] => false | _ => true end
  end.

(** [v.get(k, d)]: only a dict has the method. *)
Definition py_get (v : pyval) (k : string) (d : pyval) : res pyval :=
  match v with
  | PDict kvs => Ok (default d (assoc k kvs))
  | _ => Raise AttributeError
  end.

(** [v[k]] with a string key. *)
Definition py_getitem (v : pyval) (k : string) : res pyval :=
  match v with
  | PDict kvs => match assoc k kvs with Some x => Ok x | None => Raise KeyError end
  | _ => Raise TypeError
  end.

(** [v[0]]: first element of a list, first character of a string; a dict
    decoded from JSON has no integer key. *)
Definition py_first (v : pyval) : res pyval :=
  match v with
  | PList (x :: _) => Ok x
  | PList [] => Raise IndexError
  | PStr (String c _) => Ok (PStr (String c ""))
  | PStr EmptyString => Raise IndexError
  | PDict _ => Raise KeyError
  | _ => Raise TypeError
  end.

(** [v[:10]] *)
Definition py_slice10 (v : pyval) : res pyval :=
  match v with
  | PStr s => Ok (PStr (String.substring 0 10 s))
  | PList l => Ok (PList (take 10 l))
  | _ => Raise TypeError
  end.

Fixpoint chars (s : string) : list pyval :=
  match s with
  | EmptyString => []
  | String c rest => PStr (String c "") :: chars rest
  end.

(** [iter(v)]: the elements of a list, the characters of a string, the keys
    of a dict. *)
Definition py_iter (v : pyval) : res (list pyval) :=
  match v with
  | PList l => Ok l
  | PStr s => Ok (chars s)
  | PDict kvs => Ok (map (fun kv => PStr (fst kv)) kvs)
  | _ => Raise TypeError
  end.

(** [len(v)] *)
Definition py_len (v : pyval) : res nat :=
  match v with
  | PList l => Ok (length l)
  | PStr s => Ok (String.length s)
  | PDict kvs => Ok (length kvs)
  | _ => Raise TypeError
  end.

(** The number a value stands for in arithmetic ([bool] is a subclass of
    [int]); anything else makes [+] and [//] raise [TypeError]. *)
Definition py_number (v : pyval) : res Z :=
  match v with
  | PInt n => Ok n
  | PBool b => Ok (if b then 1 else 0)
  | _ => Raise TypeError
  end.

(** Hashing, as [set(...)] and the pandas hash tables use it: a list or a
    dict cannot be hashed; [True] and [1], [False] and [0] are equal and hash
    alike. *)
Inductive hkey : Type :=
  | KNone
  | KNum (n : Z)
  | KStr (s : string).

#[global] Instance hkey_eq_dec : EqDecision hkey.
Proof. solve_decision. Defined.

Definition py_hash_key (v : pyval) : res hkey :=
  match v with
  | PNone => Ok KNone
  | PBool b => Ok (KNum (if b then 1 else 0))
  | PInt n => Ok (KNum n)
  | PStr s => Ok (KStr s)
  | PList _ | PDict _ => Raise TypeError
  end.

(** The values that can be hashed. *)
Definition scalar (v : pyval) : bool :=
  match v with
  | PList _ | PDict _ => false
  | _ => true
  end.

Fixpoint hash_keys (l : list pyval) : res (list hkey) :=
  match l with
  | [] => Ok []
  | v :: rest =>
      k ← py_hash_key v; ks ← hash_keys rest; mret (k :: ks)
  end.

(** Truthiness of an [Optional[str]]. *)
Definition nonempty (o : option string) : bool :=
  match o with
  | Some s => negb (String.eqb s "")
  | None => false
  end.

(** ** Traces, the outside world, library functions *)

Inductive level : Type := INFO | WARNING | ERROR.

(** A value interpolated into a message.  A log record keeps the text of the
    source's f-string and the values of its fields, in order. *)
Inductive arg : Type :=
  | AStr (s : string)
  | ANat (n : nat)
  | AInt (n : Z)
  | AVal (v : pyval)
  | AMean (m : option Q)
  | AExn (e : exn).

(** A pandas frame: its columns in order, each with its cells. *)
Definition DataFrame : Type := list (string * list pyval).

Inductive event : Type :=
  | Log (lvl : level) (text : string) (args : list arg)
  | Stdout (text : string) (args : list arg)
  | HttpGet (url : string) (headers : list (string * string))
      (params : list (string * Z))
  | HttpPost (url : string) (headers : list (string * string))
      (data : list (string * string))
  | RecentlyPlayedCall (limit : Z)
  | SqlAppend (db_path table : string) (df : DataFrame)
  | CsvWrite (path : string) (df : DataFrame).

Definition trace : Type := list event.

Definition emit (e : event) : Eff trace unit := modify (fun t => t ++ [e]).
Definition log (lvl : level) (text : string) (args : list arg) : Eff trace unit :=
  emit (Log lvl text args).

(** A task starts with nothing logged. *)
Definition exec {A} (m : Eff trace A) : trace * res A := m [].

(** The events by which a sink is written. *)
Definition is_sink_event (e : event) : bool :=
  match e with
  | SqlAppend _ _ _ | CsvWrite _ _ => true
  | _ => false
  end.

(** A spotipy client, by the answers of the two calls the task makes. *)
Record SpotifyClient : Type := {
  current_user : res pyval;
  current_user_recently_played : Z -> res pyval
}.

Record World : Type := {
  (** Airflow's Variable store and [os.environ] *)
  variables : gmap string string;
  environ : gmap string string;
  (** [requests.get(...)], [raise_for_status()], [.json()] *)
  http_get : string -> list (string * string) -> list (string * Z) -> res pyval;
  (** [requests.post(...)], [raise_for_status()], [.json()] *)
  http_post : string -> list (string * string) -> list (string * string) -> res pyval;
  (** [spotipy.Spotify(auth_manager=SpotifyOAuth(client_id, client_secret,
      redirect_uri, scope, cache_path))] *)
  spotify_oauth : string -> string -> string -> string -> res SpotifyClient;
  (** [sqlite3.connect(path)], [df.to_sql(table, conn, if_exists="append")],
      [conn.close()] *)
  to_sql : string -> string -> DataFrame -> res unit;
  (** [df.to_csv(path, index=False)] *)
  to_csv : string -> DataFrame -> res unit;
  (** [import pandas as pd] inside a function: [ImportError] when pandas is
      not installed *)
  import_pandas : res unit;
  (** [int((datetime.now() - timedelta(days=1)).timestamp())] *)
  yesterday_timestamp : Z;
  (** [str(datetime.now().date())] *)
  today : string;
  (** how many entries of a column [pd.to_datetime] dates before
      [datetime.now() - timedelta(days=7)]; an exception when it cannot
      parse the column *)
  stale_timestamps : list pyval -> res nat
}.

Record Lib : Type := {
  (** [int(s)]; [None] stands for its [ValueError] *)
  int_of_str : string -> option Z;
  (** [s.lower()] *)
  str_lower : string -> string;
  (** [str(base64.b64encode(s.encode("utf-8")), "utf-8")] *)
  b64encode : string -> string;
  (** [requests.utils.quote(s)] *)
  url_quote : string -> string;
  (** [Series.min()] and [Series.max()]; [None] stands for the [TypeError]
      of a column whose cells cannot be ordered *)
  series_min : list pyval -> option pyval;
  series_max : list pyval -> option pyval;
  (** [round(x, 2)] *)
  round2 : Q -> Q;
  (** [str(v)] for a value that is not text *)
  str_of : pyval -> string
}.

(** [f"{v}"] *)
Definition py_str (lib : Lib) (v : pyval) : string :=
  match v with
  | PStr s => s
  | _ => str_of lib v
  end.

(** [sum(...)] over numbers, from 0. *)
Fixpoint py_sum (l : list pyval) : res Z :=
  match l with
  | [] => Ok 0
  | v :: rest => n ← py_number v; total ← py_sum rest; mret (n + total)
  end.

(** The least size of a quotient that Python cannot round to a double: the
    midpoint between the largest double, [2^1024 - 2^971], and [2^1024]. *)
Definition double_overflow : Z := 2 ^ 1024 - 2 ^ 970.

(** [a / n] for an integer [a] and a length [n].  Python rounds the quotient
    to the nearest double and raises [OverflowError] when that is beyond the
    doubles.  The quotient is kept exact here: the tasks only pass it on to
    [round(x, 2)], and the rounding to a double is taken as part of that
    library function ([round2] of [Lib]). *)
Definition py_truediv (a : Z) (n : nat) : res Q :=
  match n with
  | O => Raise ZeroDivisionError
  | S _ =>
      if double_overflow * Z.of_nat n <=? Z.abs a
      then Raise OverflowError
      else Ok (Qmake a (Pos.of_nat n))
  end.


(** [Variable.get(key, default_var=None)] *)
Definition Variable_get (w : World) (key : string) : option string :=
  variables w !! key.

(** [Variable.get(key, default_var=d)] with a text default *)
Definition Variable_get_default (w : World) (key d : string) : string :=
  default d (variables w !! key).

(** [os.getenv(key)] *)
Definition getenv (w : World) (key : string) : option string :=
  environ w !! key.

(** The store first, then the environment when the stored value is
    falsy: [v = Variable.get(key, default_var=None)], then
    [if not v: v = os.getenv(key)]. *)
Definition Variable_or_getenv (w : World) (key : string) : option string :=
  let v := Variable_get w key in
  if nonempty v then v else getenv w key.

(** [int(s)] *)
Definition py_int (lib : Lib) (s : string) : res Z :=
  match int_of_str lib s with
  | Some n => Ok n
  | None => Raise (ValueError "invalid literal for int() with base 10")
  end.

(** [context.get('ds') if context else str(datetime.now().date())] *)
Definition execution_date (w : World) (context : gmap string string) : option string :=
  if decide (context = ∅) then Some (today w) else context !! "ds".

(** A returned summary dict: its entries in order. *)
Inductive sval : Type :=
  | SNone
  | SNat (n : nat)
  | SStr (s : string)
  | SRatio (q : Q)
  | SMean (m : option Q)
  | SFormat (text : string) (args : list arg).

Definition summary : Type := list (string * sval).

Definition opt_str (o : option string) : sval :=
  match o with Some s => SStr s | None => SNone end.

Fixpoint summary_get (k : string) (s : summary) : option sval :=
  match s with
  | [] => None
  | (k', v) :: rest => if decide (k = k') then Some v else summary_get k rest
  end.

(** ** pandas *)

(** [df.empty]: an axis of length 0. *)
Definition df_empty (df : DataFrame) : bool :=
  match df with
  | [] => true
  | (_, []) :: _ => true
  | _ => false
  end.

(** [len(df)] *)
Definition df_len (df : DataFrame) : nat :=
  match df with
  | [] => 0%nat
  | (_, c) :: _ => length c
  end.

(** [name in df.columns] and [df[name]] *)
Fixpoint df_column (name : string) (df : DataFrame) : option (list pyval) :=
  match df with
  | [] => None
  | (n, c) :: rest => if decide (name = n) then Some c else df_column name rest
  end.

Definition df_getitem (df : DataFrame) (name : string) : res (list pyval) :=
  match df_column name df with
  | Some c => Ok c
  | None => Raise KeyError
  end.

(** [pd.DataFrame(d)] for a dict of lists. *)
Definition DataFrame_of_dict (d : list (string * list pyval)) : res DataFrame :=
  match d with
  | [] => Ok []
  | (_, c) :: rest =>
      if forallb (fun kc => (length (snd kc) =? length c)%nat) rest
      then Ok d
      else Raise (ValueError "All arrays must be of the same length")
  end.

(** [Series.is_unique]: no value occurs twice; the hash table behind it
    raises on a cell that cannot be hashed. *)
Definition is_unique (col : list pyval) : res bool :=
  ks ← hash_keys col; mret (bool_decide (NoDup ks)).

(** [Series.nunique()]: the number of distinct values, nulls left out. *)
Definition nunique (col : list pyval) : res nat :=
  ks ← hash_keys col;
  mret (length (remove_dups (filter (fun k => k <> KNone) ks))).

Definition is_null (v : pyval) : bool :=
  match v with PNone => true | _ => false end.

(** [df.isnull().values.any()] *)
Definition isnull_any (df : DataFrame) : bool :=
  existsb (fun kc => existsb is_null (snd kc)) df.

(** [s.replace(old, new)] for a non-empty [old]; [skip] counts the
    characters of a match still to be passed over. *)
Fixpoint replace_from (old new : string) (skip : nat) (s : string) : string :=
  match s with
  | EmptyString => EmptyString
  | String c rest =>
      match skip with
      | S k => replace_from old new k rest
      | O =>
          if String.prefix old s
          then new +:+ replace_from old new (String.length old - 1) rest
          else String c (replace_from old new 0 rest)
      end
  end.

Definition str_replace (s old new : string) : string := replace_from old new 0 s.

(** ** spotify_etl2.py: recently played history into SQLite *)

Module spotify_etl2.

Definition DATABASE_LOCATION : string := "sqlite:///my_played_tracks.sqlite".

Definition token_not_found : string :=
  "Spotify user token not found. Please set SPOTIFY_USER_TOKEN. Get your token from: https://developer.spotify.com/console/get-recently-played/".

Definition get_spotify_user_token (w : World) : res string :=
  let token := Variable_or_getenv w "SPOTIFY_USER_TOKEN" in
  match token with
  | Some t => if String.eqb t "" then Raise (ValueError token_not_found) else Ok t
  | None => Raise (ValueError token_not_found)
  end.

Definition primary_key_violation : exn :=
  Exception "Primary Key check is violated - duplicate played_at timestamps found".

Definition check_if_valid_data (w : World) (df : DataFrame) : Eff trace bool :=
  if df_empty df then
    log WARNING "No songs downloaded. Finishing execution" [];;
    mret false
  else
    (match df_column "played_at" df with
     | Some col =>
         is_uniq ← lift (is_unique col);
         if (is_uniq : bool) then pass else raise primary_key_violation
     | None => pass
     end : Eff trace unit);;
    (if isnull_any df then log WARNING "Null values found in data" [] else pass);;
    (match df_column "timestamp" df with
     | Some col =>
         try_except
           (old_tracks ← lift (stale_timestamps w col);
            if (0 <? old_tracks)%nat
            then log WARNING "Found {old_tracks.sum()} tracks older than 7 days"
                   [ANat old_tracks]
            else pass)
           (fun e => log ERROR "Error validating timestamps: {e}" [AExn e])
     | None => pass
     end : Eff trace unit);;
    mret true.

Definition recently_played_url : string :=
  "https://api.spotify.com/v1/me/player/recently-played".

Definition request_headers (token : string) : list (string * string) :=
  [("Accept", "application/json");
   ("Content-Type", "application/json");
   ("Authorization", "Bearer " +:+ token)].

Definition get_recently_played_tracks (w : World) (token : string) (limit : Z)
  : Eff trace (option pyval) :=
  try_except
    (let yesterday_unix_timestamp := yesterday_timestamp w * 1000 in
     let headers := request_headers token in
     let params := [("after", yesterday_unix_timestamp);
                    ("limit", Z.min limit 50)] in
     emit (HttpGet recently_played_url headers params);;
     data ← lift (http_get w recently_played_url headers params);
     n ← lift (items ← py_get data "items" (PList []); py_len items);
     log INFO "Successfully retrieved {len(data.get('items', []))} recently played tracks"
       [ANat n];;
     mret (Some data))
    (fun e =>
       match e with
       | RequestException =>
           log ERROR "HTTP error getting recently played tracks: {e}" [AExn e]
       | _ =>
           log ERROR "Unexpected error getting recently played tracks: {e}" [AExn e]
       end;;
       mret None).

(** The eight lists [process_tracks_data] fills. *)
Record columns : Type := {
  song_names : list pyval;
  artist_names : list pyval;
  played_at_list : list pyval;
  timestamps : list pyval;
  track_ids : list pyval;
  album_names : list pyval;
  durations : list pyval;
  popularities : list pyval
}.

Definition no_columns : columns :=
  {| song_names := []; artist_names := []; played_at_list := [];
     timestamps := []; track_ids := []; album_names := [];
     durations := []; popularities := [] |}.

Definition append_song_name (v : pyval) (c : columns) : columns :=
  {| song_names := song_names c ++ [v]; artist_names := artist_names c;
     played_at_list := played_at_list c; timestamps := timestamps c;
     track_ids := track_ids c; album_names := album_names c;
     durations := durations c; popularities := popularities c |}.

Definition append_artist_name (v : pyval) (c : columns) : columns :=
  {| song_names := song_names c; artist_names := artist_names c ++ [v];
     played_at_list := played_at_list c; timestamps := timestamps c;
     track_ids := track_ids c; album_names := album_names c;
     durations := durations c; popularities := popularities c |}.

Definition append_played_at (v : pyval) (c : columns) : columns :=
  {| song_names := song_names c; artist_names := artist_names c;
     played_at_list := played_at_list c ++ [v]; timestamps := timestamps c;
     track_ids := track_ids c; album_names := album_names c;
     durations := durations c; popularities := popularities c |}.

Definition append_timestamp (v : pyval) (c : columns) : columns :=
  {| song_names := song_names c; artist_names := artist_names c;
     played_at_list := played_at_list c; timestamps := timestamps c ++ [v];
     track_ids := track_ids c; album_names := album_names c;
     durations := durations c; popularities := popularities c |}.

Definition append_track_id (v : pyval) (c : columns) : columns :=
  {| song_names := song_names c; artist_names := artist_names c;
     played_at_list := played_at_list c; timestamps := timestamps c;
     track_ids := track_ids c ++ [v]; album_names := album_names c;
     durations := durations c; popularities := popularities c |}.

Definition append_album_name (v : pyval) (c : columns) : columns :=
  {| song_names := song_names c; artist_names := artist_names c;
     played_at_list := played_at_list c; timestamps := timestamps c;
     track_ids := track_ids c; album_names := album_names c ++ [v];
     durations := durations c; popularities := popularities c |}.

Definition append_duration (v : pyval) (c : columns) : columns :=
  {| song_names := song_names c; artist_names := artist_names c;
     played_at_list := played_at_list c; timestamps := timestamps c;
     track_ids := track_ids c; album_names := album_names c;
     durations := durations c ++ [v]; popularities := popularities c |}.

Definition append_popularity (v : pyval) (c : columns) : columns :=
  {| song_names := song_names c; artist_names := artist_names c;
     played_at_list := played_at_list c; timestamps := timestamps c;
     track_ids := track_ids c; album_names := album_names c;
     durations := durations c; popularities := popularities c ++ [v] |}.

(** The body of the [try] in the loop of [process_tracks_data], for one
    item: each [append] happens as soon as its argument is evaluated, so an
    exception leaves the lists filled so far as they are. *)
Definition process_item (item : pyval) : Eff columns unit :=
  track ← lift (py_get item "track" (PDict []));
  name ← lift (py_get track "name" (PStr "Unknown"));
  modify (append_song_name name);;
  artists ← lift (py_get track "artists" (PList []));
  artist_name ← lift (if truthy artists
                      then artist ← py_first artists;
                           py_get artist "name" (PStr "Unknown")
                      else Ok (PStr "Unknown"));
  modify (append_artist_name artist_name);;
  played_at ← lift (py_get item "played_at" (PStr ""));
  modify (append_played_at played_at);;
  timestamp ← lift (if truthy played_at then py_slice10 played_at
                    else Ok (PStr ""));
  modify (append_timestamp timestamp);;
  track_id ← lift (py_get track "id" (PStr ""));
  modify (append_track_id track_id);;
  album_name ← lift (album ← py_get track "album" (PDict []);
                     py_get album "name" (PStr "Unknown"));
  modify (append_album_name album_name);;
  duration ← lift (py_get track "duration_ms" (PInt 0));
  modify (append_duration duration);;
  popularity ← lift (py_get track "popularity" (PInt 0));
  modify (append_popularity popularity).

(** The loop: [try: ... except Exception as e: logging.warning(...); continue] *)
Fixpoint process_items (items : list pyval) (c : columns) : Eff trace columns :=
  match items with
  | [] => mret c
  | item :: rest =>
      match process_item item c with
      | (c', Ok _) => process_items rest c'
      | (c', Raise e) =>
          log WARNING "Error processing track item: {e}" [AExn e];;
          process_items rest c'
      end
  end.

Definition song_dict (c : columns) : list (string * list pyval) :=
  [("song_name", song_names c);
   ("artist_name", artist_names c);
   ("played_at", played_at_list c);
   ("timestamp", timestamps c);
   ("track_id", track_ids c);
   ("album_name", album_names c);
   ("duration_ms", durations c);
   ("popularity", popularities c)].

Definition process_tracks_data (data : pyval) : Eff trace DataFrame :=
  items ← lift (items ← py_get data "items" (PList []); py_iter items);
  c ← process_items items no_columns;
  df ← lift (DataFrame_of_dict (song_dict c));
  log INFO "Processed {len(df)} tracks into DataFrame" [ANat (df_len df)];;
  mret df.

Definition save_to_database (w : World) (df : DataFrame) (database_location : string)
  : Eff trace bool :=
  try_except
    (let db_path := str_replace database_location "sqlite:///" "" in
     emit (SqlAppend db_path "recently_played" df);;
     lift (to_sql w db_path "recently_played" df);;
     log INFO "Successfully saved {len(df)} records to database" [ANat (df_len df)];;
     mret true)
    (fun e =>
       log ERROR "Error saving to database: {e}" [AExn e];;
       mret false).

Definition no_data_summary : summary :=
  [("tracks_processed", SNat 0); ("status", SStr "no_data")].

Definition series_extreme (f : list pyval -> option pyval) (col : list pyval)
  : res pyval :=
  match f col with
  | Some v => Ok v
  | None => Raise TypeError
  end.

Definition run_spotify_recently_played_etl (lib : Lib) (w : World)
    (context : gmap string string) : Eff trace summary :=
  try_except
    (log INFO "Starting Spotify recently played ETL" [];;
     limit ← lift (py_int lib (Variable_get_default w "SPOTIFY_RECENT_LIMIT" "50"));
     token ← lift (get_spotify_user_token w);
     data ← get_recently_played_tracks w token limit;
     match (data : option pyval) with
     | None => raise (Exception "Failed to retrieve recently played tracks")
     | Some data =>
         if negb (truthy data)
         then raise (Exception "Failed to retrieve recently played tracks")
         else
           df ← process_tracks_data data;
           if df_empty df then
             log WARNING "No tracks to process" [];;
             mret no_data_summary
           else
             valid ← check_if_valid_data w df;
             (if (valid : bool) then pass
              else log WARNING "Data validation failed, but continuing" []);;
             success ← save_to_database w df DATABASE_LOCATION;
             if negb success
             then raise (Exception "Failed to save data to database")
             else
               log INFO "Spotify recently played ETL completed successfully" [];;
               unique_artists ← lift (col ← df_getitem df "artist_name"; nunique col);
               ts ← lift (df_getitem df "timestamp");
               lo ← lift (series_extreme (series_min lib) ts);
               hi ← lift (series_extreme (series_max lib) ts);
               mret [("tracks_processed", SNat (df_len df));
                     ("unique_artists", SNat unique_artists);
                     ("date_range",
                      SFormat "{df['timestamp'].min()} to {df['timestamp'].max()}"
                        [AVal lo; AVal hi]);
                     ("database_location", SStr DATABASE_LOCATION);
                     ("execution_date", opt_str (execution_date w context));
                     ("status", SStr "success")]
     end)
    (fun e =>
       log ERROR "Spotify recently played ETL failed: {e}" [AExn e];;
       raise e).

End spotify_etl2.

(** ** new.py: recently played through a spotipy client, into CSV *)

Module new.

Record credentials : Type := {
  client_id : string;
  client_secret : string;
  redirect_uri : string
}.

Definition credentials_not_found : string :=
  "Spotify credentials not found. Please set SPOTIFY_CLIENT_ID and SPOTIFY_CLIENT_SECRET. Get your credentials from: https://developer.spotify.com/dashboard/applications".

Definition default_redirect_uri : string := "http://localhost:8080/callback".

Definition get_spotify_user_credentials (w : World) : Eff trace credentials :=
  try_except
    (let client_id := Variable_or_getenv w "SPOTIFY_CLIENT_ID" in
     let client_secret := Variable_or_getenv w "SPOTIFY_CLIENT_SECRET" in
     let redirect_uri :=
       Variable_get_default w "SPOTIFY_REDIRECT_URI" default_redirect_uri in
     let redirect_uri :=
       if String.eqb redirect_uri ""
       then default default_redirect_uri (getenv w "SPOTIFY_REDIRECT_URI")
       else redirect_uri in
     match client_id, client_secret with
     | Some id, Some secret =>
         if nonempty client_id && nonempty client_secret
         then mret {| client_id := id; client_secret := secret;
                      redirect_uri := redirect_uri |}
         else raise (ValueError credentials_not_found)
     | _, _ => raise (ValueError credentials_not_found)
     end)
    (fun e =>
       log ERROR "Error retrieving Spotify credentials: {e}" [AExn e];;
       raise e).

Definition create_spotify_client (w : World) (c : credentials) (scope : string)
  : Eff trace (option SpotifyClient) :=
  try_except
    (sp ← lift (spotify_oauth w (client_id c) (client_secret c) (redirect_uri c) scope);
     user_info ← lift (current_user sp);
     name ← lift (py_get user_info "display_name" (PStr "Unknown"));
     log INFO "Successfully authenticated as: {user_info.get('display_name', 'Unknown')}"
       [AVal name];;
     mret (Some sp))
    (fun e =>
       log ERROR "Error creating Spotify client: {e}" [AExn e];;
       mret None).

(** One entry of [track_data]. *)
Record track_info : Type := {
  rank : nat;
  track_name : pyval;
  artist_name : pyval;
  album_name : pyval;
  spotify_url : pyval;
  preview_url : pyval;
  duration_ms : pyval;
  popularity : pyval;
  explicit : pyval;
  played_at : pyval;
  track_id : pyval;
  artist_id : pyval;
  album_id : pyval
}.

(** [track['artists'][0][k] if track.get('artists') else d] *)
Definition first_artist (track : pyval) (k : string) (d : pyval) : res pyval :=
  artists ← py_get track "artists" PNone;
  if truthy artists
  then artists ← py_getitem track "artists";
       artist ← py_first artists;
       py_getitem artist k
  else Ok d.

(** The body of the [try] in the loop of [get_recently_played_tracks]: the
    dict is built whole before it is appended. *)
Definition make_track_info (idx : nat) (item : pyval) : res track_info :=
  track ← py_getitem item "track";
  played_at ← py_get item "played_at" (PStr "");
  track_name ← py_get track "name" (PStr "Unknown");
  artist_name ← first_artist track "name" (PStr "Unknown");
  album_name ← (album ← py_get track "album" (PDict []);
                py_get album "name" (PStr "Unknown"));
  spotify_url ← (urls ← py_get track "external_urls" (PDict []);
                 py_get urls "spotify" (PStr ""));
  preview_url ← py_get track "preview_url" (PStr "");
  duration_ms ← py_get track "duration_ms" (PInt 0);
  popularity ← py_get track "popularity" (PInt 0);
  explicit ← py_get track "explicit" (PBool false);
  track_id ← py_get track "id" (PStr "");
  artist_id ← first_artist track "id" (PStr "");
  album_id ← (album ← py_get track "album" (PDict []);
              py_get album "id" (PStr ""));
  mret {| rank := idx + 1; track_name := track_name; artist_name := artist_name;
          album_name := album_name; spotify_url := spotify_url;
          preview_url := preview_url; duration_ms := duration_ms;
          popularity := popularity; explicit := explicit;
          played_at := played_at; track_id := track_id;
          artist_id := artist_id; album_id := album_id |}.

(** [for idx, item in enumerate(results['items'])] *)
Fixpoint process_items (idx : nat) (items : list pyval) (track_data : list track_info)
  : Eff trace (list track_info) :=
  match items with
  | [] => mret track_data
  | item :: rest =>
      match make_track_info idx item with
      | Ok info => process_items (S idx) rest (track_data ++ [info])
      | Raise e =>
          log WARNING "Error processing track {idx + 1}: {e}"
            [ANat (idx + 1); AExn e];;
          process_items (S idx) rest track_data
      end
  end.

Definition get_recently_played_tracks (sp : SpotifyClient) (limit : Z)
  : Eff trace (option (list track_info)) :=
  try_except
    (let limit := Z.min (Z.max limit 1) 50 in
     emit (RecentlyPlayedCall limit);;
     results ← lift (current_user_recently_played sp limit);
     no_items ← lift (if negb (truthy results) then Ok true
                      else items ← py_get results "items" PNone;
                           Ok (negb (truthy items)));
     if (no_items : bool) then
       log WARNING "No recently played tracks found" [];;
       mret (Some [])
     else
       items ← lift (items ← py_getitem results "items"; py_iter items);
       track_data ← process_items 0 items [];
       log INFO "Successfully processed {len(track_data)} recently played tracks"
         [ANat (length track_data)];;
       mret (Some track_data))
    (fun e =>
       log ERROR "Error getting recently played tracks: {e}" [AExn e];;
       mret None).

(** The lines printed for one track (pictographs left out of the texts).
    The duration is divided and formatted with [:02d]: a value that is no
    integer raises there. *)
Definition display_track (t : track_info) : Eff trace unit :=
  emit (Stdout "#{track['rank']}" [ANat (rank t)]);;
  emit (Stdout "Track: {track['track_name']}" [AVal (track_name t)]);;
  emit (Stdout "Artist: {track['artist_name']}" [AVal (artist_name t)]);;
  emit (Stdout "Album: {track['album_name']}" [AVal (album_name t)]);;
  (if truthy (spotify_url t)
   then emit (Stdout "URL: {track['spotify_url']}" [AVal (spotify_url t)])
   else pass);;
  (if truthy (played_at t)
   then emit (Stdout "Played at: {track['played_at']}" [AVal (played_at t)])
   else pass);;
  emit (Stdout "Popularity: {track['popularity']}/100" [AVal (popularity t)]);;
  ms ← lift (py_number (duration_ms t));
  emit (Stdout "Duration: {track['duration_ms'] // 60000}:{(track['duration_ms'] % 60000) // 1000:02d}"
          [AInt (ms / 60000); AInt ((ms mod 60000) / 1000)]);;
  (if truthy (explicit t) then emit (Stdout "Explicit content" []) else pass);;
  emit (Stdout "{'-' * 80}" []).

Fixpoint display_each (track_data : list track_info) : Eff trace unit :=
  match track_data with
  | [] => pass
  | t :: rest => display_track t;; display_each rest
  end.

Definition display_tracks (track_data : list track_info) : Eff trace unit :=
  match track_data with
  | [] => emit (Stdout "No tracks to display" [])
  | _ =>
      emit (Stdout "Your {len(track_data)} Most Recently Played Tracks:"
              [ANat (length track_data)]);;
      emit (Stdout "{'-' * 80}" []);;
      display_each track_data
  end.

(** [pd.DataFrame(track_data)] for a list of dicts with the same keys. *)
Definition DataFrame_of_track_data (track_data : list track_info) : DataFrame :=
  [("rank", map (fun t => PInt (Z.of_nat (rank t))) track_data);
   ("track_name", map track_name track_data);
   ("artist_name", map artist_name track_data);
   ("album_name", map album_name track_data);
   ("spotify_url", map spotify_url track_data);
   ("preview_url", map preview_url track_data);
   ("duration_ms", map duration_ms track_data);
   ("popularity", map popularity track_data);
   ("explicit", map explicit track_data);
   ("played_at", map played_at track_data);
   ("track_id", map track_id track_data);
   ("artist_id", map artist_id track_data);
   ("album_id", map album_id track_data)].

(** pandas is imported inside the [try]: without it (or when the write
    itself raises [ImportError]) the first handler answers. *)
Definition save_tracks_to_csv (w : World) (track_data : list track_info)
    (output_path : string) : Eff trace bool :=
  try_except
    (lift (import_pandas w);;
     match track_data with
     | [] =>
         log WARNING "No track data to save" [];;
         mret false
     | _ =>
         let df := DataFrame_of_track_data track_data in
         emit (CsvWrite output_path df);;
         lift (to_csv w output_path df);;
         log INFO "Successfully saved {len(track_data)} tracks to {output_path}"
           [ANat (length track_data); AStr output_path];;
         emit (Stdout "Data saved to: {output_path}" [AStr output_path]);;
         mret true
     end)
    (fun e =>
       match e with
       | ImportError => log WARNING "pandas not available, cannot save to CSV" []
       | _ => log ERROR "Error saving tracks to CSV: {e}" [AExn e]
       end;;
       mret false).

Definition no_data_summary : summary :=
  [("tracks_processed", SNat 0); ("status", SStr "no_data")].

(** [len(set(track['artist_name'] for track in track_data))] *)
Definition unique_artists (track_data : list track_info) : res nat :=
  ks ← hash_keys (map artist_name track_data);
  mret (length (remove_dups ks)).

(** [sum(track['popularity'] for track in track_data) / len(track_data)] *)
Definition avg_popularity (track_data : list track_info) : res Q :=
  total ← py_sum (map popularity track_data);
  py_truediv total (length track_data).

(** [sum(1 for track in track_data if track['explicit'])] *)
Definition explicit_count (track_data : list track_info) : nat :=
  length (filter (fun t => truthy (explicit t) = true) track_data).

Definition run_spotify_recently_played_analysis (lib : Lib) (w : World)
    (context : gmap string string) : Eff trace summary :=
  try_except
    (log INFO "Starting Spotify recently played tracks analysis" [];;
     limit ← lift (py_int lib (Variable_get_default w "SPOTIFY_RECENT_LIMIT" "10"));
     let output_path :=
       Variable_get_default w "SPOTIFY_OUTPUT_PATH" "recently_played_tracks.csv" in
     let display_results :=
       String.eqb
         (str_lower lib (Variable_get_default w "SPOTIFY_DISPLAY_RESULTS" "true"))
         "true" in
     credentials ← get_spotify_user_credentials w;
     sp ← create_spotify_client w credentials "user-read-recently-played";
     match (sp : option SpotifyClient) with
     | None => raise (Exception "Failed to create Spotify client")
     | Some sp =>
         track_data ← get_recently_played_tracks sp limit;
         match (track_data : option (list track_info)) with
         | None | Some [] =>
             log WARNING "No recently played tracks found" [];;
             mret no_data_summary
         | Some track_data =>
             (if display_results then display_tracks track_data else pass);;
             save_success ← save_tracks_to_csv w track_data output_path;
             log INFO "Spotify recently played analysis completed successfully" [];;
             artists ← lift (unique_artists track_data);
             avg ← lift (avg_popularity track_data);
             mret [("tracks_processed", SNat (length track_data));
                   ("unique_artists", SNat artists);
                   ("average_popularity", SRatio (round2 lib avg));
                   ("explicit_tracks", SNat (explicit_count track_data));
                   ("output_path",
                    if (save_success : bool) then SStr output_path else SNone);
                   ("execution_date", opt_str (execution_date w context));
                   ("status", SStr "success")]
         end
     end)
    (fun e =>
       log ERROR "Spotify recently played analysis failed: {e}" [AExn e];;
       raise e).

End new.

(** ** spotify_etl.py: an artist's top tracks into CSV *)

Module spotify_etl.

Record credentials : Type := {
  client_id : string;
  client_secret : string
}.

Definition credentials_not_found : string :=
  "Spotify credentials not found. Please set SPOTIFY_CLIENT_ID and SPOTIFY_CLIENT_SECRET".

Definition get_spotify_credentials (w : World) : Eff trace credentials :=
  try_except
    (let client_id := Variable_or_getenv w "SPOTIFY_CLIENT_ID" in
     let client_secret := Variable_or_getenv w "SPOTIFY_CLIENT_SECRET" in
     match client_id, client_secret with
     | Some id, Some secret =>
         if nonempty client_id && nonempty client_secret
         then mret {| client_id := id; client_secret := secret |}
         else raise (ValueError credentials_not_found)
     | _, _ => raise (ValueError credentials_not_found)
     end)
    (fun e =>
       log ERROR "Error retrieving Spotify credentials: {e}" [AExn e];;
       raise e).

Definition token_url : string := "https://accounts.spotify.com/api/token".

Definition get_spotify_token (lib : Lib) (w : World) (client_id client_secret : string)
  : Eff trace (option pyval) :=
  try_except
    (let auth_string := client_id +:+ ":" +:+ client_secret in
     let auth_base64 := b64encode lib auth_string in
     let headers := [("Authorization", "Basic " +:+ auth_base64);
                     ("Content-Type", "application/x-www-form-urlencoded")] in
     let data := [("grant_type", "client_credentials")] in
     emit (HttpPost token_url headers data);;
     json_result ← lift (http_post w token_url headers data);
     token ← lift (py_get json_result "access_token" PNone);
     if negb (truthy token) then
       log ERROR "No access token in response" [];;
       mret None
     else
       log INFO "Successfully obtained Spotify access token" [];;
       mret (Some token))
    (fun e =>
       match e with
       | RequestException =>
           log ERROR "HTTP error getting Spotify token: {e}" [AExn e]
       | _ =>
           log ERROR "Unexpected error getting Spotify token: {e}" [AExn e]
       end;;
       mret None).

Definition get_auth_header (lib : Lib) (token : pyval) : list (string * string) :=
  [("Authorization", "Bearer " +:+ py_str lib token)].

Definition search_for_artist (lib : Lib) (w : World) (token : pyval)
    (artist_name : string) : Eff trace (option pyval) :=
  try_except
    (let encoded_name := url_quote lib artist_name in
     let url := "https://api.spotify.com/v1/search?q=" +:+ encoded_name
                +:+ "&type=artist&limit=1" in
     let headers := get_auth_header lib token in
     emit (HttpGet url headers []);;
     json_result ← lift (http_get w url headers []);
     items ← lift (artists ← py_get json_result "artists" (PDict []);
                   py_get artists "items" PNone);
     if negb (truthy items) then
       log WARNING "No artist found for: {artist_name}" [AStr artist_name];;
       mret None
     else
       artist_data ← lift (artists ← py_getitem json_result "artists";
                           items ← py_getitem artists "items";
                           py_first items);
       name ← lift (py_get artist_data "name" PNone);
       id ← lift (py_get artist_data "id" PNone);
       log INFO "Found artist: {artist_data.get('name')} (ID: {artist_data.get('id')})"
         [AVal name; AVal id];;
       mret (Some artist_data))
    (fun e =>
       match e with
       | RequestException =>
           log ERROR "HTTP error searching for artist {artist_name}: {e}"
             [AStr artist_name; AExn e]
       | _ =>
           log ERROR "Unexpected error searching for artist {artist_name}: {e}"
             [AStr artist_name; AExn e]
       end;;
       mret None).

Definition get_songs_by_artist (lib : Lib) (w : World) (token artist_id : pyval)
    (market : string) : Eff trace pyval :=
  try_except
    (let url := "https://api.spotify.com/v1/artists/" +:+ py_str lib artist_id
                +:+ "/top-tracks?market=" +:+ market in
     let headers := get_auth_header lib token in
     emit (HttpGet url headers []);;
     json_result ← lift (http_get w url headers []);
     tracks ← lift (py_get json_result "tracks" (PList []));
     if negb (truthy tracks) then
       log WARNING "No tracks found for artist ID: {artist_id}" [AVal artist_id];;
       mret (PList [])
     else
       n ← lift (py_len tracks);
       log INFO "Found {len(tracks)} tracks for artist" [ANat n];;
       mret tracks)
    (fun e =>
       match e with
       | RequestException =>
           log ERROR "HTTP error getting songs for artist {artist_id}: {e}"
             [AVal artist_id; AExn e]
       | _ =>
           log ERROR "Unexpected error getting songs for artist {artist_id}: {e}"
             [AVal artist_id; AExn e]
       end;;
       mret (PList [])).

(** One entry of [track_data]. *)
Record track_info : Type := {
  artist_name : pyval;
  song_name : pyval;
  popularity : pyval;
  duration_ms : pyval;
  explicit : pyval;
  external_url : pyval;
  preview_url : pyval;
  album_name : pyval;
  release_date : pyval;
  track_id : pyval
}.

Definition make_track_info (track : pyval) : res track_info :=
  artist_name ← (artists ← py_get track "artists" PNone;
                 if truthy artists
                 then artists ← py_getitem track "artists";
                      artist ← py_first artists;
                      py_getitem artist "name"
                 else Ok (PStr "Unknown"));
  song_name ← py_get track "name" (PStr "Unknown");
  popularity ← py_get track "popularity" (PInt 0);
  duration_ms ← py_get track "duration_ms" (PInt 0);
  explicit ← py_get track "explicit" (PBool false);
  external_url ← (urls ← py_get track "external_urls" (PDict []);
                  py_get urls "spotify" (PStr ""));
  preview_url ← py_get track "preview_url" (PStr "");
  album_name ← (album ← py_get track "album" (PDict []);
                py_get album "name" (PStr "Unknown"));
  release_date ← (album ← py_get track "album" (PDict []);
                  py_get album "release_date" (PStr ""));
  track_id ← py_get track "id" (PStr "");
  mret {| artist_name := artist_name; song_name := song_name;
          popularity := popularity; duration_ms := duration_ms;
          explicit := explicit; external_url := external_url;
          preview_url := preview_url; album_name := album_name;
          release_date := release_date; track_id := track_id |}.

Fixpoint process_tracks (tracks : list pyval) (track_data : list track_info)
  : Eff trace (list track_info) :=
  match tracks with
  | [] => mret track_data
  | track :: rest =>
      match make_track_info track with
      | Ok info => process_tracks rest (track_data ++ [info])
      | Raise e =>
          log WARNING "Error processing track: {e}" [AExn e];;
          process_tracks rest track_data
      end
  end.

Definition DataFrame_of_track_data (track_data : list track_info) : DataFrame :=
  [("artist_name", map artist_name track_data);
   ("song_name", map song_name track_data);
   ("popularity", map popularity track_data);
   ("duration_ms", map duration_ms track_data);
   ("explicit", map explicit track_data);
   ("external_url", map external_url track_data);
   ("preview_url", map preview_url track_data);
   ("album_name", map album_name track_data);
   ("release_date", map release_date track_data);
   ("track_id", map track_id track_data)].

(** [Series.mean()]: nulls are left out, a cell that is no number raises,
    and a column with no number in it has mean NaN ([None] here). *)
Definition series_mean (col : list pyval) : res (option Q) :=
  let cells := filter (fun v => is_null v = false) col in
  total ← py_sum cells;
  match cells with
  | [] => Ok None
  | _ => Ok (Some (Qmake total (Pos.of_nat (length cells))))
  end.

Definition save_to_csv (w : World) (df : DataFrame) (output_path : string)
  : Eff trace bool :=
  try_except
    (emit (CsvWrite output_path df);;
     lift (to_csv w output_path df);;
     log INFO "Successfully saved {len(df)} records to {output_path}"
       [ANat (df_len df); AStr output_path];;
     mret true)
    (fun e =>
       log ERROR "Error saving to {output_path}: {e}" [AStr output_path; AExn e];;
       mret false).

Definition artist_not_found (artist_name : string) : exn :=
  Exception ("Artist '" +:+ artist_name +:+ "' not found").

Definition run_spotify_etl (lib : Lib) (w : World) (context : gmap string string)
  : Eff trace summary :=
  try_except
    (let artist_name := Variable_get_default w "SPOTIFY_ARTIST_NAME" "Ed Sheeran" in
     let output_bucket := Variable_get_default w "SPOTIFY_OUTPUT_BUCKET" "default-bucket" in
     let output_path := Variable_get_default w "SPOTIFY_OUTPUT_PATH" "songs.csv" in
     let market := Variable_get_default w "SPOTIFY_MARKET" "US" in
     let full_output_path := "s3://" +:+ output_bucket +:+ "/" +:+ output_path in
     log INFO "Starting Spotify ETL for artist: {artist_name}" [AStr artist_name];;
     credentials ← get_spotify_credentials w;
     token ← get_spotify_token lib w (client_id credentials) (client_secret credentials);
     match (token : option pyval) with
     | None => raise (Exception "Failed to obtain Spotify access token")
     | Some token =>
         artist_data ← search_for_artist lib w token artist_name;
         match (artist_data : option pyval) with
         | None => raise (artist_not_found artist_name)
         | Some artist_data =>
             if negb (truthy artist_data) then raise (artist_not_found artist_name)
             else
               artist_id ← lift (py_getitem artist_data "id");
               tracks ← get_songs_by_artist lib w token artist_id market;
               if negb (truthy tracks)
               then raise (Exception ("No tracks found for artist '" +:+ artist_name +:+ "'"))
               else
                 tracks ← lift (py_iter tracks);
                 track_data ← process_tracks tracks [];
                 match (track_data : list track_info) with
                 | [] => raise (Exception "No valid track data processed")
                 | _ =>
                     let df := DataFrame_of_track_data track_data in
                     log INFO "Processed {len(df)} tracks for {artist_name}"
                       [ANat (df_len df); AStr artist_name];;
                     mean ← lift (col ← df_getitem df "popularity"; series_mean col);
                     log INFO "Average popularity: {df['popularity'].mean():.2f}" [AMean mean];;
                     success ← save_to_csv w df full_output_path;
                     if negb success
                     then raise (Exception "Failed to save data to CSV")
                     else
                       log INFO "Spotify ETL completed successfully" [];;
                       mean ← lift (col ← df_getitem df "popularity"; series_mean col);
                       mret [("artist_name", SStr artist_name);
                             ("tracks_processed", SNat (df_len df));
                             ("output_path", SStr full_output_path);
                             ("avg_popularity", SMean mean);
                             ("execution_date", opt_str (execution_date w context))]
                 end
         end
     end)
    (fun e =>
       log ERROR "Spotify ETL failed: {e}" [AExn e];;
       raise e).

End spotify_etl.

(** ** Shapes of history items, for stating what the normalizers return *)

Definition is_dict (v : pyval) : bool :=
  match v with PDict _ => true | _ => false end.

(** The member [k] of an object, or [d] when it has none. *)
Definition field (kvs : list (string * pyval)) (k : string) (d : pyval) : pyval :=
  default d (assoc k kvs).

Definition members (v : pyval) : list (string * pyval) :=
  match v with PDict kvs => kvs | _ => [] end.

(** An [artists] value the first artist's name can be read from with a
    default: absent, falsy, or a list that starts with an object. *)
Definition artists_ok (artists : pyval) : bool :=
  negb (truthy artists) ||
  match artists with PList (PDict _ :: _) => true | _ => false end.

(** A [played_at] value whose date part can be taken: falsy, text or a list. *)
Definition played_at_ok (played_at : pyval) : bool :=
  negb (truthy played_at) ||
  match played_at with PStr _ | PList _ => true | _ => false end.

(** The name of the first artist, ["Unknown"] without one. *)
Definition first_artist_name (artists : pyval) : pyval :=
  match artists with
  | PList (PDict akvs :: _) => field akvs "name" (PStr "Unknown")
  | _ => PStr "Unknown"
  end.

(** The date part of [played_at], the empty text when it is falsy. *)
Definition date_part (played_at : pyval) : pyval :=
  if truthy played_at then
    match played_at with
    | PStr s => PStr (String.substring 0 10 s)
    | PList l => PList (take 10 l)
    | _ => PStr ""
    end
  else PStr "".

Module etl2_shapes.
Import spotify_etl2.

(** An item of which [process_tracks_data] makes a whole row: an object
    whose [track] is absent or an object, with [artists], [played_at] and
    [album] absent or of a shape that can be read. *)
Definition complete_item (item : pyval) : bool :=
  match item with
  | PDict ikvs =>
      match field ikvs "track" (PDict []) with
      | PDict tkvs =>
          artists_ok (field tkvs "artists" (PList []))
          && played_at_ok (field ikvs "played_at" (PStr ""))
          && is_dict (field tkvs "album" (PDict []))
      | _ => false
      end
  | _ => false
  end.

(** An item that is no object, or whose [track] is no object. *)
Definition unusable_item (item : pyval) : bool :=
  match item with
  | PDict ikvs => negb (is_dict (field ikvs "track" (PDict [])))
  | _ => true
  end.

(** The row of a complete item: the members that are there, the documented
    defaults for those that are not. *)
Definition row_of (item : pyval) : columns :=
  let ikvs := members item in
  let tkvs := members (field ikvs "track" (PDict [])) in
  let played_at := field ikvs "played_at" (PStr "") in
  {| song_names := [field tkvs "name" (PStr "Unknown")];
     artist_names := [first_artist_name (field tkvs "artists" (PList []))];
     played_at_list := [played_at];
     timestamps := [date_part played_at];
     track_ids := [field tkvs "id" (PStr "")];
     album_names :=
       [field (members (field tkvs "album" (PDict []))) "name" (PStr "Unknown")];
     durations := [field tkvs "duration_ms" (PInt 0)];
     popularities := [field tkvs "popularity" (PInt 0)] |}.

(** Column by column concatenation. *)
Definition cat (c d : columns) : columns :=
  {| song_names := song_names c ++ song_names d;
     artist_names := artist_names c ++ artist_names d;
     played_at_list := played_at_list c ++ played_at_list d;
     timestamps := timestamps c ++ timestamps d;
     track_ids := track_ids c ++ track_ids d;
     album_names := album_names c ++ album_names d;
     durations := durations c ++ durations d;
     popularities := popularities c ++ popularities d |}.

(** The rows of the complete items of a list, in order. *)
Fixpoint rows_of (items : list pyval) : columns :=
  match items with
  | [] => no_columns
  | item :: rest =>
      if complete_item item then cat (row_of item) (rows_of rest) else rows_of rest
  end.

End etl2_shapes.

Module new_shapes.
Import new.

(** An [artists] value of which [new.py] reads the first artist: absent or
    falsy, or a list that starts with an object holding [name] and [id]. *)
Definition artists_named (artists : pyval) : bool :=
  negb (truthy artists) ||
  match artists with
  | PList (PDict akvs :: _) =>
      bool_decide (is_Some (assoc "name" akvs))
      && bool_decide (is_Some (assoc "id" akvs))
  | _ => false
  end.

(** An item of which [get_recently_played_tracks] makes an entry: an object
    with a [track] object, whose [artists], [album] and [external_urls] are
    absent or of a shape that can be read. *)
Definition complete_item (item : pyval) : bool :=
  match item with
  | PDict ikvs =>
      match assoc "track" ikvs with
      | Some (PDict tkvs) =>
          artists_named (field tkvs "artists" PNone)
          && is_dict (field tkvs "album" (PDict []))
          && is_dict (field tkvs "external_urls" (PDict []))
      | _ => false
      end
  | _ => false
  end.

(** An item with no [track] member, or that is no object. *)
Definition no_track (item : pyval) : bool :=
  match item with
  | PDict ikvs => bool_decide (assoc "track" ikvs = None)
  | _ => true
  end.

(** The member [k] of the first artist, [d] without artists. *)
Definition first_artist_field (artists : pyval) (k : string) (d : pyval) : pyval :=
  match artists with
  | PList (PDict akvs :: _) => if truthy artists then field akvs k d else d
  | _ => d
  end.

(** The entry of a complete item: the members that are there, the
    documented defaults for those that are not. *)
Definition info_of (idx : nat) (item : pyval) : track_info :=
  let ikvs := members item in
  let tkvs := members (field ikvs "track" (PDict [])) in
  let artists := field tkvs "artists" PNone in
  let album := members (field tkvs "album" (PDict [])) in
  {| rank := idx + 1;
     track_name := field tkvs "name" (PStr "Unknown");
     artist_name := first_artist_field artists "name" (PStr "Unknown");
     album_name := field album "name" (PStr "Unknown");
     spotify_url :=
       field (members (field tkvs "external_urls" (PDict []))) "spotify" (PStr "");
     preview_url := field tkvs "preview_url" (PStr "");
     duration_ms := field tkvs "duration_ms" (PInt 0);
     popularity := field tkvs "popularity" (PInt 0);
     explicit := field tkvs "explicit" (PBool false);
     played_at := field ikvs "played_at" (PStr "");
     track_id := field tkvs "id" (PStr "");
     artist_id := first_artist_field artists "id" (PStr "");
     album_id := field album "id" (PStr "") |}.

End new_shapes.

(** ** Credential resolution, in the words of its description *)

(** The value a key resolves to: the stored value when it is not empty,
    else the value of the environment variable when that is not empty. *)
Definition resolves_to (w : World) (key v : string) : Prop :=
  v <> "" /\
  (variables w !! key = Some v \/
   ((variables w !! key = None \/ variables w !! key = Some "") /\
    environ w !! key = Some v)).

(** A key with no value: absent or empty in the store, and absent or empty
    in the environment. *)
Definition unresolved (w : World) (key : string) : Prop :=
  (variables w !! key = None \/ variables w !! key = Some "") /\
  (environ w !! key = None \/ environ w !! key = Some "").

(** ** Sample library functions and worlds *)

Definition sample_lib : Lib :=
  {| int_of_str := fun s => if String.eqb s "50" then Some 50
                            else if String.eqb s "10" then Some 10
                            else if String.eqb s "0" then Some 0 else None;
     str_lower := fun s => s;
     b64encode := fun s => s;
     url_quote := fun s => s;
     series_min := fun col => head col;
     series_max := fun col => last col;
     round2 := fun q => q;
     str_of := fun _ => "" |}.

Definition sample_client (played : res pyval) : SpotifyClient :=
  {| current_user := Ok (PDict [("display_name", PStr "listener")]);
     current_user_recently_played := fun _ => played |}.

(** A world whose HTTP calls and spotipy calls all answer [answer], whose
    sinks answer [sink], with the given store and environment. *)
Definition sample_world (store env : gmap string string) (answer : res pyval)
    (sink : res unit) : World :=
  {| variables := store;
     environ := env;
     http_get := fun _ _ _ => answer;
     http_post := fun _ _ _ => Ok (PDict [("access_token", PStr "token")]);
     spotify_oauth := fun _ _ _ _ => Ok (sample_client answer);
     to_sql := fun _ _ _ => sink;
     to_csv := fun _ _ => sink;
     import_pandas := Ok tt;
     yesterday_timestamp := 1700000000;
     today := "2023-11-15";
     stale_timestamps := fun _ => Ok 0%nat |}.

Definition sample_env : gmap string string :=
  {[ "SPOTIFY_USER_TOKEN" := "user-token";
     "SPOTIFY_CLIENT_ID" := "env-id";
     "SPOTIFY_CLIENT_SECRET" := "env-secret" ]}.

(** A history item with a track name and a [played_at] time. *)
Definition sample_item (name played_at : string) : pyval :=
  PDict [("track", PDict [("name", PStr name);
                          ("artists", PList [PDict [("name", PStr "Artist");
                                                   ("id", PStr "artist-1")]]);
                          ("album", PDict [("name", PStr "Album")]);
                          ("popularity", PInt 40)]);
         ("played_at", PStr played_at)].

Definition sample_history (items : list pyval) : pyval :=
  PDict [("items", PList items)].

(** The frame [process_tracks_data] makes of an answer (empty when it
    raises). *)
Definition frame_of (data : pyval) : DataFrame :=
  match (exec (spotify_etl2.process_tracks_data data)).2 with
  | Ok df => df
  | Raise _ => []
  end.

(** A world for the history tasks: nothing stored, credentials in the
    environment. *)
Definition history_world (answer : res pyval) (sink : res unit) : World :=
  sample_world ∅ sample_env answer sink.

(** Two plays with the same time, two plays with different times, two plays
    with no time. *)
Definition repeated_history : pyval :=
  sample_history [sample_item "One" "2023-11-14T10:00:00Z";
                  sample_item "Two" "2023-11-14T10:00:00Z"].

Definition distinct_history : pyval :=
  sample_history [sample_item "One" "2023-11-14T10:00:00Z";
                  sample_item "Two" "2023-11-14T11:30:00Z"].

Definition untimed_item (name : string) : pyval :=
  PDict [("track", PDict [("name", PStr name)])].

Definition untimed_history : pyval :=
  sample_history [untimed_item "One"; untimed_item "Two"].

Definition empty_history : pyval := sample_history [].

(** A complete item whose [played_at] is a list, and the three histories
    above with such a play after them. *)
Definition listed_item (name : string) : pyval :=
  PDict [("track", PDict [("name", PStr name)]);
         ("played_at", PList [PStr "2023-11-14"])].

Definition repeated_history_with_list : pyval :=
  sample_history [sample_item "One" "2023-11-14T10:00:00Z";
                  sample_item "Two" "2023-11-14T10:00:00Z";
                  listed_item "Three"].

Definition distinct_history_with_list : pyval :=
  sample_history [sample_item "One" "2023-11-14T10:00:00Z";
                  listed_item "Two"].

Definition untimed_history_with_list : pyval :=
  sample_history [untimed_item "One"; untimed_item "Two"; listed_item "Three"].

(** A search answer with no artist in it. *)
Definition no_artist_answer : pyval :=
  PDict [("artists", PDict [("items", PList [])])].

(** ** Predicates on computations *)

(** A computation is [framed] when it appends to the trace it is given what
    it emits from an empty one, and returns the same result. *)
Definition framed {A} (m : Eff trace A) : Prop :=
  forall t, m t = (t ++ (m []).1, (m []).2).

(** No write to a sink among some events. *)
Definition no_write (evs : list event) : Prop :=
  Forall (fun e => is_sink_event e = false) evs.

(** A framed computation that writes to no sink. *)
Definition silent {A} (m : Eff trace A) : Prop :=
  framed m /\ no_write (m []).1.

(** A computation, or a pure evaluation, that does not end in
    [ZeroDivisionError]. *)
Definition no_zde {A} (m : Eff trace A) : Prop :=
  forall t, (m t).2 <> Raise ZeroDivisionError.

Definition pure_no_zde {A} (r : res A) : Prop := r <> Raise ZeroDivisionError.

(** What holds of every value a computation returns. *)
Definition returns {A} (P : A -> Prop) (m : Eff trace A) : Prop :=
  forall t a, (m t).2 = Ok a -> P a.

Import etl2_shapes.

(** The cells the loop appends for a list of items, partial rows included. *)
Fixpoint cells_of (items : list pyval) : spotify_etl2.columns :=
  match items with
  | [] => spotify_etl2.no_columns
  | item :: rest =>
      cat (spotify_etl2.process_item item spotify_etl2.no_columns).1 (cells_of rest)
  end.


(** ** Further predicates on computations *)

(** The writes to a sink among some events, in order. *)
Definition writes (t : trace) : list event := List.filter is_sink_event t.

(** The requests to the Spotify API among some events, in order. *)
Definition is_api_call (e : event) : bool :=
  match e with
  | HttpGet _ _ _ | HttpPost _ _ _ | RecentlyPlayedCall _ => true
  | _ => false
  end.

Definition calls (t : trace) : list event := List.filter is_api_call t.

(** A framed computation none of whose events satisfies [p]. *)
Definition quiet {A} (p : event -> bool) (m : Eff trace A) : Prop :=
  framed m /\ List.filter p (m []).1 = [].

(** The value of an evaluation that did not raise. *)
Definition ok {A} (r : res A) : option A :=
  match r with Ok a => Some a | Raise _ => None end.

(** The records of a level among some events. *)
Definition is_log (lvl : level) (e : event) : bool :=
  match e, lvl with
  | Log INFO _ _, INFO | Log WARNING _ _, WARNING | Log ERROR _ _, ERROR => true
  | _, _ => false
  end.

(** What the loop of [spotify_etl.run_spotify_etl] keeps: the entries of the
    tracks that can be read, in order. *)
Definition etl_entries (tracks : list pyval) : list spotify_etl.track_info :=
  omap (fun track => ok (spotify_etl.make_track_info track)) tracks.

(** What the loop of [new.get_recently_played_tracks] keeps, counting
    positions from [idx]. *)
Fixpoint new_entries (idx : nat) (items : list pyval) : list new.track_info :=
  match items with
  | [] => []
  | item :: rest =>
      match new.make_track_info idx item with
      | Ok info => info :: new_entries (S idx) rest
      | Raise _ => new_entries (S idx) rest
      end
  end.

(** The warning of the branch of [run_spotify_recently_played_etl] taken
    when [check_if_valid_data] returns [False]. *)
Definition is_validation_warning (e : event) : bool :=
  match e with
  | Log WARNING text [] => String.eqb text "Data validation failed, but continuing"
  | _ => false
  end.

(** An answer [run_spotify_recently_played_etl] goes on with: an object
    that is not empty and whose [items] (the empty list when absent) has a
    length. *)
Definition usable_answer (r : res pyval) : bool :=
  match r with
  | Ok (PDict (kv :: kvs)) =>
      match py_len (field (kv :: kvs) "items" (PList [])) with
      | Ok _ => true
      | Raise _ => false
      end
  | _ => false
  end.



(** ** Shapes of top tracks, for stating what [run_spotify_etl] keeps *)

Module etl_shapes.
Import spotify_etl.

(** An [artists] value of which the first artist's name is read: absent or
    falsy, or a list that starts with an object holding [name]. *)
Definition artists_named (artists : pyval) : bool :=
  negb (truthy artists) ||
  match artists with
  | PList (PDict akvs :: _) => bool_decide (is_Some (assoc "name" akvs))
  | _ => false
  end.

(** A track of which an entry is made: an object whose [artists],
    [external_urls] and [album] are absent or of a shape that can be read. *)
Definition readable_track (track : pyval) : bool :=
  match track with
  | PDict tkvs =>
      artists_named (field tkvs "artists" PNone)
      && is_dict (field tkvs "external_urls" (PDict []))
      && is_dict (field tkvs "album" (PDict []))
  | _ => false
  end.

(** The entry of a readable track: the members that are there, the defaults
    of the source for those that are not. *)
Definition entry_of (track : pyval) : track_info :=
  let tkvs := members track in
  let album := members (field tkvs "album" (PDict [])) in
  {| artist_name :=
       new_shapes.first_artist_field (field tkvs "artists" PNone) "name"
         (PStr "Unknown");
     song_name := field tkvs "name" (PStr "Unknown");
     popularity := field tkvs "popularity" (PInt 0);
     duration_ms := field tkvs "duration_ms" (PInt 0);
     explicit := field tkvs "explicit" (PBool false);
     external_url :=
       field (members (field tkvs "external_urls" (PDict []))) "spotify" (PStr "");
     preview_url := field tkvs "preview_url" (PStr "");
     album_name := field album "name" (PStr "Unknown");
     release_date := field album "release_date" (PStr "");
     track_id := field tkvs "id" (PStr "") |}.

End etl_shapes.

(** ** Further sample worlds and answers *)

(** A world with the credentials in the environment in which every call to
    the outside fails. *)
Definition offline_world : World :=
  {| variables := ∅;
     environ := sample_env;
     http_get := fun _ _ _ => Raise RequestException;
     http_post := fun _ _ _ => Raise RequestException;
     spotify_oauth := fun _ _ _ _ => Raise RequestException;
     to_sql := fun _ _ _ => Raise RequestException;
     to_csv := fun _ _ => Raise RequestException;
     import_pandas := Raise ImportError;
     yesterday_timestamp := 1700000000;
     today := "2023-11-15";
     stale_timestamps := fun _ => Ok 0%nat |}.

(** An answer that names an artist and holds the given top tracks. *)
Definition artist_answer (tracks : list pyval) : pyval :=
  PDict [("artists",
          PDict [("items", PList [PDict [("name", PStr "Ed Sheeran");
                                         ("id", PStr "artist-1")]])]);
         ("tracks", PList tracks)].

(** A history item whose row breaks off at the album. *)
Definition broken_item : pyval :=
  PDict [("track", PDict [("name", PStr "Song"); ("album", PNone)]);
         ("played_at", PStr "2023-11-14T10:00:00Z")].


(** A world whose stored limit is no integer. *)
Definition misconfigured_world : World :=
  sample_world {[ "SPOTIFY_RECENT_LIMIT" := "many" ]} sample_env
    (Ok empty_history) (Ok tt).

(** ** The requests of the three tasks *)

Definition is_token_request (e : event) : Prop :=
  exists headers data, e = HttpPost spotify_etl.token_url headers data.

Definition is_search_request (e : event) : Prop :=
  exists query headers,
    e = HttpGet ("https://api.spotify.com/v1/search?q=" +:+ query) headers [].

Definition is_top_tracks_request (e : event) : Prop :=
  exists rest headers,
    e = HttpGet ("https://api.spotify.com/v1/artists/" +:+ rest) headers [].

(** The history request of [spotify_etl2.py] and that of [new.py]. *)
Definition is_history_get (e : event) : Prop :=
  exists headers after limit,
    e = HttpGet spotify_etl2.recently_played_url headers
          [("after", after); ("limit", limit)] /\
    limit <= 50.

Definition is_history_call (e : event) : Prop :=
  exists limit, e = RecentlyPlayedCall limit /\ 1 <= limit <= 50.
(** * Properties *)

Ltac run_eff :=
  unfold mbind, mret, eff_bind, eff_ret, res_bind, res_ret, lift, raise, pass,
    log, emit, modify, try_except in *; simpl in *.

(** ** Traces only grow *)


Lemma framed_ret {A} (a : A) : framed (mret a).
Proof. intros t. cbn. by rewrite app_nil_r. Qed.

Lemma framed_lift {A} (r : res A) : framed (lift r).
Proof. intros t. cbn. by rewrite app_nil_r. Qed.

Lemma framed_raise {A} (e : exn) : framed (raise (A := A) e).
Proof. intros t. cbn. by rewrite app_nil_r. Qed.

Lemma framed_pass : framed pass.
Proof. intros t. cbn. by rewrite app_nil_r. Qed.

Lemma framed_emit (e : event) : framed (emit e).
Proof. intros t. reflexivity. Qed.

Lemma framed_log lvl text args : framed (log lvl text args).
Proof. apply framed_emit. Qed.

Lemma framed_bind {A B} (m : Eff trace A) (f : A -> Eff trace B) :
  framed m -> (forall a, framed (f a)) -> framed (m ≫= f).
Proof.
  intros Hm Hf t. unfold mbind, eff_bind.
  rewrite (Hm t). destruct (m []) as [evs [a|e]]; simpl.
  - rewrite (Hf a (t ++ evs)), (Hf a evs). simpl. by rewrite app_assoc.
  - reflexivity.
Qed.

Lemma framed_try {A} (m : Eff trace A) (h : exn -> Eff trace A) :
  framed m -> (forall e, framed (h e)) -> framed (try_except m h).
Proof.
  intros Hm Hh t. unfold try_except.
  rewrite (Hm t). destruct (m []) as [evs [a|e]]; simpl.
  - reflexivity.
  - rewrite (Hh e (t ++ evs)), (Hh e evs). simpl. by rewrite app_assoc.
Qed.

(** Follows the shape of a computation; [leaf] closes the calls of functions
    already known to be framed. *)
Ltac framed_with leaf :=
  repeat first
    [ leaf
    | apply framed_bind | apply framed_try | apply framed_ret | apply framed_lift
    | apply framed_raise | apply framed_pass | apply framed_log | apply framed_emit
    | progress intros | progress cbv zeta | case_match ].

Ltac framed := framed_with fail.

(** What a framed computation does from any trace, from what it does from
    the empty one. *)
Lemma framed_exec {A} (m : Eff trace A) evs r t :
  framed m -> exec m = (evs, r) -> m t = (t ++ evs, r).
Proof. intros Hm He. rewrite (Hm t). unfold exec in He. by rewrite He. Qed.

Lemma framed_etl2_save w df loc : framed (spotify_etl2.save_to_database w df loc).
Proof. unfold spotify_etl2.save_to_database. framed. Qed.

(** ** Computations that write to no sink *)

Lemma silent_framed {A} (m : Eff trace A) : silent m -> framed m.
Proof. by intros [? _]. Qed.

Lemma silent_ret {A} (a : A) : silent (mret a).
Proof. split; [apply framed_ret | constructor]. Qed.

Lemma silent_lift {A} (r : res A) : silent (lift r).
Proof. split; [apply framed_lift | constructor]. Qed.

Lemma silent_raise {A} (e : exn) : silent (raise (A := A) e).
Proof. split; [apply framed_raise | constructor]. Qed.

Lemma silent_pass : silent pass.
Proof. split; [apply framed_pass | constructor]. Qed.

Lemma silent_emit (e : event) : is_sink_event e = false -> silent (emit e).
Proof. intros H. split; [apply framed_emit | by repeat constructor]. Qed.

Lemma silent_log lvl text args : silent (log lvl text args).
Proof. by apply silent_emit. Qed.

Lemma silent_bind {A B} (m : Eff trace A) (f : A -> Eff trace B) :
  silent m -> (forall a, silent (f a)) -> silent (m ≫= f).
Proof.
  intros [Hm Wm] Hf. split.
  - apply framed_bind; [done | intros a; apply Hf].
  - unfold mbind, eff_bind. destruct (m []) as [evs [a|e]]; simpl in *; [|done].
    destruct (Hf a) as [Ha Wa]. rewrite (Ha evs). simpl.
    by apply Forall_app.
Qed.

Lemma silent_try {A} (m : Eff trace A) (h : exn -> Eff trace A) :
  silent m -> (forall e, silent (h e)) -> silent (try_except m h).
Proof.
  intros [Hm Wm] Hh. split.
  - apply framed_try; [done | intros e; apply Hh].
  - unfold try_except. destruct (m []) as [evs [a|e]]; simpl in *; [done|].
    destruct (Hh e) as [He We]. rewrite (He evs). simpl.
    by apply Forall_app.
Qed.

Ltac silent_with leaf :=
  repeat first
    [ leaf
    | apply silent_bind | apply silent_try | apply silent_ret | apply silent_lift
    | apply silent_raise | apply silent_pass | apply silent_log
    | apply silent_emit; reflexivity
    | progress intros | progress cbv zeta | case_match ].

Ltac silent := silent_with fail.

(** From the empty trace to any trace, with the events known to be no
    writes. *)
Lemma silent_exec {A} (m : Eff trace A) evs r :
  silent m -> exec m = (evs, r) ->
  no_write evs /\ forall t, m t = (t ++ evs, r).
Proof.
  intros [Hm Wm] He. unfold exec in He. rewrite He in Wm. split; [done|].
  intros t. rewrite (Hm t). by rewrite He.
Qed.

Lemma silent_etl2_get w token limit :
  silent (spotify_etl2.get_recently_played_tracks w token limit).
Proof. unfold spotify_etl2.get_recently_played_tracks. silent. Qed.

Lemma silent_etl2_process_items items :
  forall c, silent (spotify_etl2.process_items items c).
Proof.
  induction items as [|item rest IH]; intros c; simpl; silent_with ltac:(apply IH).
Qed.

Lemma silent_etl2_process data : silent (spotify_etl2.process_tracks_data data).
Proof.
  unfold spotify_etl2.process_tracks_data.
  silent_with ltac:(apply silent_etl2_process_items).
Qed.

Lemma silent_etl2_check w df : silent (spotify_etl2.check_if_valid_data w df).
Proof. unfold spotify_etl2.check_if_valid_data. silent. Qed.

(** ** The validator of spotify_etl2 *)

Lemma hash_keys_lookup col : forall ks i v,
  hash_keys col = Ok ks -> col !! i = Some v ->
  exists k, py_hash_key v = Ok k /\ ks !! i = Some k.
Proof.
  induction col as [|c rest IH]; intros ks i v Hk Hi; [done|].
  simpl in Hk. unfold mbind, res_bind in Hk.
  destruct (py_hash_key c) as [k|] eqn:Hc; [|done].
  destruct (hash_keys rest) as [ks'|] eqn:Hr; [|done].
  injection Hk as <-. destruct i as [|i]; simpl in *.
  - injection Hi as <-. eauto.
  - eapply IH; eauto.
Qed.

Lemma hash_keys_raise col e :
  hash_keys col = Raise e -> e = TypeError /\ forallb scalar col = false.
Proof.
  induction col as [|c rest IH]; [done|]. simpl. unfold mbind, res_bind.
  destruct (py_hash_key c) as [k|e'] eqn:Hc.
  - destruct (hash_keys rest) as [ks'|e''] eqn:Hr; [done|].
    intros [= ->]. destruct IH as [-> ->]; [done|]. by rewrite andb_false_r.
  - intros [= ->]. destruct c; simplify_eq/=; done.
Qed.

Lemma hash_keys_scalar col ks : hash_keys col = Ok ks -> forallb scalar col = true.
Proof.
  revert ks. induction col as [|c rest IH]; intros ks; [done|].
  simpl. unfold mbind, res_bind.
  destruct (py_hash_key c) as [k|] eqn:Hc; [|done].
  destruct (hash_keys rest) as [ks'|] eqn:Hr; [|done].
  intros _. rewrite (IH ks' eq_refl), andb_true_r. by destruct c.
Qed.

Lemma is_unique_duplicate col i j v :
  i <> j -> col !! i = Some v -> col !! j = Some v ->
  is_unique col = Ok false \/
  (is_unique col = Raise TypeError /\ forallb scalar col = false).
Proof.
  intros Hij Hi Hj. unfold is_unique, mbind, res_bind.
  destruct (hash_keys col) as [ks|e] eqn:Hk.
  - left. destruct (hash_keys_lookup _ _ _ _ Hk Hi) as (k & Hv & Hki).
    destruct (hash_keys_lookup _ _ _ _ Hk Hj) as (k' & Hv' & Hkj).
    assert (k' = k) as -> by congruence.
    unfold mret, res_ret. f_equal. apply bool_decide_eq_false.
    intros Hnd. apply Hij. eapply NoDup_lookup; eauto.
  - right. by destruct (hash_keys_raise _ _ Hk) as [-> ->].
Qed.

(** A frame with rows and a repeated [played_at] cell is refused, whatever
    the trace so far: nothing is logged, an exception is raised. *)
Lemma check_raises_on_duplicate w df col i j v :
  df_empty df = false -> df_column "played_at" df = Some col ->
  i <> j -> col !! i = Some v -> col !! j = Some v ->
  exists e,
    (forall t, spotify_etl2.check_if_valid_data w df t = (t, Raise e)) /\
    (forallb scalar col = true -> e = spotify_etl2.primary_key_violation) /\
    (forallb scalar col = false -> e = TypeError).
Proof.
  intros Hne Hcol Hij Hi Hj.
  unfold spotify_etl2.check_if_valid_data. rewrite Hne, Hcol.
  destruct (is_unique_duplicate col i j v Hij Hi Hj) as [Hu|[Hu Hs]].
  - exists spotify_etl2.primary_key_violation. split; [|split; [done|]].
    + intros t. unfold mbind, eff_bind, lift. by rewrite Hu.
    + intros Hs. unfold is_unique, mbind, res_bind in Hu.
      destruct (hash_keys col) as [ks|] eqn:Hks; [|done].
      apply hash_keys_scalar in Hks. congruence.
  - exists TypeError. split; [|split; [congruence|done]].
    intros t. unfold mbind, eff_bind, lift. by rewrite Hu.
Qed.

(** What the normalizer returns is the dict of its eight lists, all of one
    length. *)
Lemma process_tracks_data_frame data evs df :
  exec (spotify_etl2.process_tracks_data data) = (evs, Ok df) ->
  exists c,
    df = spotify_etl2.song_dict c /\
    length (spotify_etl2.played_at_list c) = length (spotify_etl2.song_names c).
Proof.
  unfold exec, spotify_etl2.process_tracks_data, DataFrame_of_dict.
  intros H. run_eff.
  destruct (match py_get data "items" _ with Ok _ => _ | Raise _ => _ end)
    as [items|]; [|done].
  destruct (spotify_etl2.process_items _ _ _) as [t [c|]]; [|done].
  destruct (_ && _) eqn:Hlen; simplify_eq/=.
  exists c. split; [done|].
  repeat (apply andb_prop in Hlen as [? Hlen]). by apply Nat.eqb_eq.
Qed.

Lemma song_dict_empty c :
  df_empty (spotify_etl2.song_dict c) = false <-> spotify_etl2.song_names c <> [].
Proof. simpl. by destruct (spotify_etl2.song_names c). Qed.

Lemma normalized_batch_rows data evs df col i v :
  exec (spotify_etl2.process_tracks_data data) = (evs, Ok df) ->
  df_column "played_at" df = Some col -> col !! i = Some v ->
  df_empty df = false.
Proof.
  intros Hp Hcol Hi.
  destruct (process_tracks_data_frame _ _ _ Hp) as (c & -> & Hlen).
  apply song_dict_empty. simpl in Hcol. injection Hcol as <-.
  apply lookup_lt_Some in Hi. destruct (spotify_etl2.song_names c); simpl in *; [lia|done].
Qed.

(** ** The runs of spotify_etl2 *)

(** Case analysis on a scrutinee that holds no other [match]. *)
Ltac case_inner :=
  match goal with
  | |- context [match ?x with _ => _ end] =>
      lazymatch x with
      | context [match _ with _ => _ end] => fail
      | _ => destruct x eqn:?
      end; cbv beta iota; cbn [negb fst snd]
  end.

Ltac eff_unfold :=
  unfold exec, try_except, mbind, mret, eff_bind, eff_ret, lift, raise, pass, log,
    emit, modify.

(** C1, amended.  A batch the normalizer returned, in which two records
    have the same non-empty [played_at], is refused by
    [check_if_valid_data]: it raises, whatever was logged before, and the
    run that reached validation with this batch ends in the same exception
    without a write to the sink.  The exception is the primary-key violation
    when every [played_at] cell of the batch can be hashed (text, null,
    numbers), and the [TypeError] of the hash table behind [is_unique] when
    some cell is a list or a dict. *)
Theorem duplicate_played_at_is_fatal
    (lib : Lib) (w : World) (ctx : gmap string string) (limit : Z) (token : string)
    (data : pyval) (evs1 evs2 : trace) (df : DataFrame) (col : list pyval)
    (i j : nat) (s : string) :
  py_int lib (Variable_get_default w "SPOTIFY_RECENT_LIMIT" "50") = Ok limit ->
  spotify_etl2.get_spotify_user_token w = Ok token ->
  exec (spotify_etl2.get_recently_played_tracks w token limit) = (evs1, Ok (Some data)) ->
  truthy data = true ->
  exec (spotify_etl2.process_tracks_data data) = (evs2, Ok df) ->
  df_column "played_at" df = Some col ->
  i <> j -> col !! i = Some (PStr s) -> col !! j = Some (PStr s) -> s <> "" ->
  exists e,
    (forall t, spotify_etl2.check_if_valid_data w df t = (t, Raise e)) /\
    (exists evs,
       exec (spotify_etl2.run_spotify_recently_played_etl lib w ctx) = (evs, Raise e) /\
       no_write evs) /\
    (forallb scalar col = true -> e = spotify_etl2.primary_key_violation) /\
    (forallb scalar col = false -> e = TypeError).
Proof.
  intros Hlimit Htoken Hget Hdata Hproc Hcol Hij Hi Hj _.
  pose proof (normalized_batch_rows _ _ _ _ _ _ Hproc Hcol Hi) as Hrows.
  destruct (check_raises_on_duplicate w df col i j _ Hrows Hcol Hij Hi Hj)
    as (e & Hcheck & Hpk & Hty).
  exists e. split; [done|]. split; [|done].
  destruct (silent_exec _ _ _ (silent_etl2_get w token limit) Hget) as [W1 F1].
  destruct (silent_exec _ _ _ (silent_etl2_process data) Hproc) as [W2 F2].
  unfold spotify_etl2.run_spotify_recently_played_etl. eff_unfold.
  rewrite Hlimit, Htoken, F1, Hdata. cbn [negb].
  rewrite F2, Hrows, Hcheck.
  eexists. split; [reflexivity|].
  repeat (apply Forall_app; split); try done; by repeat constructor.
Qed.

(** The log of a passing validation: warnings for nulls and for stale
    dates, an error record when the dates cannot be parsed. *)
Lemma check_passes w df col ks :
  df_empty df = false ->
  df_column "played_at" df = Some col -> hash_keys col = Ok ks -> NoDup ks ->
  exists logs,
    (forall t, spotify_etl2.check_if_valid_data w df t = (t ++ logs, Ok true)) /\
    Forall (fun ev => exists text args,
              ev = Log WARNING text args \/ ev = Log ERROR text args) logs /\
    (isnull_any df = true -> Log WARNING "Null values found in data" [] ∈ logs) /\
    (forall ts n, df_column "timestamp" df = Some ts ->
                  stale_timestamps w ts = Ok n -> (0 < n)%nat ->
                  Log WARNING "Found {old_tracks.sum()} tracks older than 7 days"
                    [ANat n] ∈ logs).
Proof.
  intros Hrows Hcol Hks Hnd.
  assert (is_unique col = Ok true) as Hu.
  { unfold is_unique, mbind, res_bind. rewrite Hks. unfold mret, res_ret.
    f_equal. by apply bool_decide_eq_true. }
  destruct (silent_etl2_check w df) as [Hfr _].
  exists (spotify_etl2.check_if_valid_data w df []).1.
  assert ((spotify_etl2.check_if_valid_data w df []).2 = Ok true /\
          Forall (fun ev => exists text args,
              ev = Log WARNING text args \/ ev = Log ERROR text args)
            (spotify_etl2.check_if_valid_data w df []).1 /\
          (isnull_any df = true -> Log WARNING "Null values found in data" []
             ∈ (spotify_etl2.check_if_valid_data w df []).1) /\
          (forall ts n, df_column "timestamp" df = Some ts ->
                  stale_timestamps w ts = Ok n -> (0 < n)%nat ->
                  Log WARNING "Found {old_tracks.sum()} tracks older than 7 days"
                    [ANat n] ∈ (spotify_etl2.check_if_valid_data w df []).1))
    as (Hres & Hlogs & Hnull & Hstale).
  { unfold spotify_etl2.check_if_valid_data. rewrite Hrows, Hcol. eff_unfold.
    rewrite Hu. simpl.
    destruct (isnull_any df); simpl;
      (destruct (df_column "timestamp" df) as [ts|]; simpl;
       [destruct (stale_timestamps w ts) as [n|e] eqn:Hst; simpl;
        [destruct (0 <? n)%nat eqn:Hn; simpl|]|]);
      (split; [done|]);
      (split; [repeat (apply List.Forall_cons; [do 2 eexists; first [by left | by right]|]); apply List.Forall_nil|]);
      (split; [first [done | intros _; rewrite ?elem_of_cons; auto]|]);
      intros ts' n' Hts Hn' Hpos; simplify_eq; rewrite Hst in Hn'; simplify_eq;
      try (apply Nat.ltb_ge in Hn; lia);
      rewrite ?elem_of_cons; auto. }
  split; [|done].
  intros t. rewrite (Hfr t). by rewrite Hres.
Qed.

Lemma save_to_database_emits w df t :
  SqlAppend "my_played_tracks.sqlite" "recently_played" df
    ∈ (spotify_etl2.save_to_database w df spotify_etl2.DATABASE_LOCATION t).1.
Proof.
  unfold spotify_etl2.save_to_database. eff_unfold.
  change (str_replace spotify_etl2.DATABASE_LOCATION "sqlite:///" "")
    with "my_played_tracks.sqlite".
  destruct (to_sql w _ _ df); cbn [fst]; rewrite ?elem_of_app, ?elem_of_cons; auto.
Qed.

(** C8, amended.  A batch with rows whose [played_at] values can all be
    hashed (text, null, numbers) and are pairwise distinct passes
    [check_if_valid_data]: the result is [True], nothing is raised,
    and all it adds to the log are warnings (nulls, stale dates) or the
    error record of dates that could not be parsed, whatever the clock and
    the cells are.  A run that reached validation with such a batch goes on
    to write it to the database. *)
Theorem distinct_played_at_passes_validation
    (w : World) (df : DataFrame) (col : list pyval) (ks : list hkey) :
  df_empty df = false ->
  df_column "played_at" df = Some col -> hash_keys col = Ok ks -> NoDup ks ->
  exists logs,
    (forall t, spotify_etl2.check_if_valid_data w df t = (t ++ logs, Ok true)) /\
    Forall (fun ev => exists text args,
              ev = Log WARNING text args \/ ev = Log ERROR text args) logs /\
    (isnull_any df = true -> Log WARNING "Null values found in data" [] ∈ logs) /\
    (forall ts n, df_column "timestamp" df = Some ts ->
                  stale_timestamps w ts = Ok n -> (0 < n)%nat ->
                  Log WARNING "Found {old_tracks.sum()} tracks older than 7 days"
                    [ANat n] ∈ logs) /\
    (forall lib ctx limit token data evs1 evs2,
       py_int lib (Variable_get_default w "SPOTIFY_RECENT_LIMIT" "50") = Ok limit ->
       spotify_etl2.get_spotify_user_token w = Ok token ->
       exec (spotify_etl2.get_recently_played_tracks w token limit)
         = (evs1, Ok (Some data)) ->
       truthy data = true ->
       exec (spotify_etl2.process_tracks_data data) = (evs2, Ok df) ->
       SqlAppend "my_played_tracks.sqlite" "recently_played" df
         ∈ (exec (spotify_etl2.run_spotify_recently_played_etl lib w ctx)).1).
Proof.
  intros Hrows Hcol Hks Hnd.
  destruct (check_passes w df col ks Hrows Hcol Hks Hnd)
    as (logs & Hcheck & Hlogs & Hnull & Hstale).
  exists logs. repeat (split; [done|]).
  intros lib ctx limit token data evs1 evs2 Hlimit Htoken Hget Hdata Hproc.
  destruct (silent_exec _ _ _ (silent_etl2_get w token limit) Hget) as [W1 F1].
  destruct (silent_exec _ _ _ (silent_etl2_process data) Hproc) as [W2 F2].
  unfold spotify_etl2.run_spotify_recently_played_etl. eff_unfold.
  rewrite Hlimit, Htoken, F1, Hdata. cbn [negb].
  rewrite F2, Hrows, Hcheck.
  set (ev := SqlAppend _ _ _).
  match goal with |- context [spotify_etl2.save_to_database w df ?l ?t] =>
    pose proof (save_to_database_emits w df t) as Hev;
    destruct (spotify_etl2.save_to_database w df l t) as [t' [saved|e]]
  end; simpl in Hev.
  - repeat case_inner; rewrite ?elem_of_app; auto.
  - cbn [fst]. rewrite ?elem_of_app; auto.
Qed.

(** ** The normalizer of spotify_etl2, item by item *)

Lemma cat_no_columns_l c : cat spotify_etl2.no_columns c = c.
Proof. by destruct c. Qed.

Lemma cat_no_columns_r c : cat c spotify_etl2.no_columns = c.
Proof. destruct c. unfold cat. simpl. by rewrite !app_nil_r. Qed.

Lemma cat_assoc c d e : cat (cat c d) e = cat c (cat d e).
Proof. unfold cat. simpl. by rewrite <- !app_assoc. Qed.

(** A complete item appends its row and raises nothing. *)
Lemma process_item_complete item c :
  complete_item item = true ->
  spotify_etl2.process_item item c = (cat c (row_of item), Ok tt).
Proof.
  intros H. destruct item as [| | | | |ikvs]; try done.
  unfold complete_item in H.
  destruct (field ikvs "track" (PDict [])) as [| | | | |tkvs] eqn:Htrack; try done.
  apply andb_prop in H as [H Halbum]. apply andb_prop in H as [Hartists Hplayed].
  unfold spotify_etl2.process_item, row_of, cat. run_eff.
  fold (field ikvs "track" (PDict [])). rewrite Htrack. simpl.
  fold (field tkvs "artists" (PList [])) (field ikvs "played_at" (PStr ""))
       (field tkvs "album" (PDict [])) (field tkvs "name" (PStr "Unknown"))
       (field tkvs "id" (PStr "")) (field tkvs "duration_ms" (PInt 0))
       (field tkvs "popularity" (PInt 0)).
  destruct (field tkvs "album" (PDict [])) as [| | | | |akvs]; try done.
  unfold artists_ok, played_at_ok, date_part, first_artist_name in *.
  destruct (field tkvs "artists" (PList [])) as [|[]|n|s|[|[] ?]|[|]];
    destruct (field ikvs "played_at" (PStr "")) as [|[]|m|s'|[|]|[|]];
    simpl in *; try done;
    repeat match goal with
           | H : context [(?n =? 0)%Z] |- _ => destruct (n =? 0)%Z; simpl in *
           | H : context [String.eqb ?s ""] |- _ => destruct s; simpl in *
           end; done.
Qed.

(** An unusable item appends nothing and raises. *)
Lemma process_item_unusable item c :
  unusable_item item = true ->
  spotify_etl2.process_item item c = (c, Raise AttributeError).
Proof.
  intros H. destruct item as [| | | | |ikvs]; try done.
  unfold unusable_item in H.
  unfold spotify_etl2.process_item. run_eff.
  fold (field ikvs "track" (PDict [])).
  by destruct (field ikvs "track" (PDict [])).
Qed.

(** Whatever the item, what it appends does not depend on the lists so
    far. *)
Lemma process_item_cat item c :
  spotify_etl2.process_item item c =
    (cat c (spotify_etl2.process_item item spotify_etl2.no_columns).1,
     (spotify_etl2.process_item item spotify_etl2.no_columns).2).
Proof.
  unfold spotify_etl2.process_item. run_eff.
  repeat case_inner; unfold cat; simpl; rewrite ?app_nil_r; try done;
    by destruct c.
Qed.


Lemma process_items_cells items : forall c t,
  (spotify_etl2.process_items items c t).2 = Ok (cat c (cells_of items)).
Proof.
  induction items as [|item rest IH]; intros c t; simpl.
  - by rewrite cat_no_columns_r.
  - rewrite (process_item_cat item c).
    destruct (spotify_etl2.process_item item spotify_etl2.no_columns) as [d [[]|e]];
      simpl; unfold mbind, eff_bind, log, emit, modify; simpl;
      by rewrite IH, cat_assoc.
Qed.

Lemma cells_of_app l1 l2 : cells_of (l1 ++ l2) = cat (cells_of l1) (cells_of l2).
Proof.
  induction l1 as [|item rest IH]; simpl.
  - by rewrite cat_no_columns_l.
  - by rewrite IH, cat_assoc.
Qed.

Lemma cells_of_complete item rest :
  complete_item item = true ->
  cells_of (item :: rest) = cat (row_of item) (cells_of rest).
Proof.
  intros H. simpl. rewrite (process_item_complete item _ H). simpl.
  by rewrite cat_no_columns_l.
Qed.

Lemma process_tracks_data_cells dkvs items evs df :
  assoc "items" dkvs = Some (PList items) ->
  exec (spotify_etl2.process_tracks_data (PDict dkvs)) = (evs, Ok df) ->
  df = spotify_etl2.song_dict (cells_of items).
Proof.
  intros Hitems. unfold exec, spotify_etl2.process_tracks_data, DataFrame_of_dict.
  run_eff. rewrite Hitems. simpl.
  pose proof (process_items_cells items spotify_etl2.no_columns []) as Hc.
  destruct (spotify_etl2.process_items _ _ _) as [t [c|]]; simpl in Hc; [|done].
  injection Hc as ->. rewrite cat_no_columns_l.
  destruct (_ && _); by intros [= _ <-].
Qed.

(** C10, amended.  Two complete items without a [played_at] member each
    get the empty text as [played_at], so the frame holds two equal cells
    and [check_if_valid_data] raises, although neither item has a time: the
    primary-key violation when every [played_at] cell of the batch can be
    hashed, and [TypeError] when some cell is a list or a dict. *)
Theorem missing_played_at_is_a_duplicate
    (w : World) (dkvs : list (string * pyval)) (l1 l2 l3 : list pyval)
    (kvs1 kvs2 : list (string * pyval)) (evs : trace) (df : DataFrame) :
  assoc "items" dkvs = Some (PList (l1 ++ PDict kvs1 :: l2 ++ PDict kvs2 :: l3)) ->
  complete_item (PDict kvs1) = true -> complete_item (PDict kvs2) = true ->
  assoc "played_at" kvs1 = None -> assoc "played_at" kvs2 = None ->
  exec (spotify_etl2.process_tracks_data (PDict dkvs)) = (evs, Ok df) ->
  exists col i j e,
    df_column "played_at" df = Some col /\ i <> j /\
    col !! i = Some (PStr "") /\ col !! j = Some (PStr "") /\
    (forall t, spotify_etl2.check_if_valid_data w df t = (t, Raise e)) /\
    (forallb scalar col = true -> e = spotify_etl2.primary_key_violation) /\
    (forallb scalar col = false -> e = TypeError).
Proof.
  intros Hitems Hc1 Hc2 Hp1 Hp2 Hproc.
  pose proof (process_tracks_data_cells _ _ _ _ Hitems Hproc) as ->.
  set (col := spotify_etl2.played_at_list
                (cells_of (l1 ++ PDict kvs1 :: l2 ++ PDict kvs2 :: l3))).
  set (a := spotify_etl2.played_at_list (cells_of l1)).
  set (b := spotify_etl2.played_at_list (cells_of l2)).
  assert (col = a ++ PStr "" :: b ++ PStr "" :: spotify_etl2.played_at_list (cells_of l3))
    as Hcol.
  { unfold col, a, b. rewrite cells_of_app, (cells_of_complete _ _ Hc1).
    rewrite cells_of_app, (cells_of_complete _ _ Hc2). simpl.
    unfold field. by rewrite Hp1, Hp2. }
  assert (col !! length a = Some (PStr "")) as Hi.
  { rewrite Hcol. by rewrite list_lookup_middle. }
  assert (col !! (length a + S (length b))%nat = Some (PStr "")) as Hj.
  { rewrite Hcol. rewrite lookup_app_r by lia.
    replace (length a + S (length b) - length a)%nat with (S (length b)) by lia.
    simpl. by rewrite list_lookup_middle. }
  assert (df_empty (spotify_etl2.song_dict
            (cells_of (l1 ++ PDict kvs1 :: l2 ++ PDict kvs2 :: l3))) = false) as Hrows.
  { apply song_dict_empty. rewrite cells_of_app, (cells_of_complete _ _ Hc1). simpl.
    by destruct (spotify_etl2.song_names (cells_of l1)). }
  destruct (check_raises_on_duplicate w _ col (length a) (length a + S (length b))
              (PStr "") Hrows eq_refl ltac:(lia) Hi Hj) as (e & Hcheck & Hpk & Hty).
  exists col, (length a), (length a + S (length b))%nat, e.
  repeat split; try done. lia.
Qed.

(** ** Stages of new.py and spotify_etl.py that write to no sink *)

Lemma silent_new_credentials w : silent (new.get_spotify_user_credentials w).
Proof. unfold new.get_spotify_user_credentials. silent. Qed.

Lemma silent_new_client w c scope : silent (new.create_spotify_client w c scope).
Proof. unfold new.create_spotify_client. silent. Qed.

Lemma silent_new_process_items items :
  forall idx track_data, silent (new.process_items idx items track_data).
Proof.
  induction items as [|item rest IH]; intros idx td; simpl;
    silent_with ltac:(apply IH).
Qed.

Lemma silent_new_get sp limit : silent (new.get_recently_played_tracks sp limit).
Proof.
  unfold new.get_recently_played_tracks.
  silent_with ltac:(apply silent_new_process_items).
Qed.

Lemma framed_new_save w track_data path :
  framed (new.save_tracks_to_csv w track_data path).
Proof. unfold new.save_tracks_to_csv. framed. Qed.

Lemma silent_etl_credentials w : silent (spotify_etl.get_spotify_credentials w).
Proof. unfold spotify_etl.get_spotify_credentials. silent. Qed.

Lemma silent_etl_token lib w id secret :
  silent (spotify_etl.get_spotify_token lib w id secret).
Proof. unfold spotify_etl.get_spotify_token. silent. Qed.

Lemma silent_etl_search lib w token name :
  silent (spotify_etl.search_for_artist lib w token name).
Proof. unfold spotify_etl.search_for_artist. silent. Qed.

(** ** The limit sent to the API *)

(** A [try] block that starts by emitting an event has it first in its
    trace, whatever follows. *)
Lemma exec_emit_first {A} (e : event) (k : unit -> Eff trace A)
    (h : exn -> Eff trace A) :
  (forall u, framed (k u)) -> (forall x, framed (h x)) ->
  exists evs r, exec (try_except (emit e ≫= k) h) = (e :: evs, r).
Proof.
  intros Hk Hh. unfold exec, try_except, mbind, eff_bind, emit, modify.
  rewrite (Hk tt ([] ++ [e])). simpl.
  destruct (k tt []) as [evs [a|x]]; simpl; [by eexists _, _|].
  rewrite (Hh x (e :: evs)). simpl. by eexists _, _.
Qed.

(** C2.  [new.py] sends a limit clamped into [1, 50] for every requested
    value.  [spotify_etl2.py] sends [min(limit, 50)]: never more than 50,
    but a request of 0 is sent as 0, not as 1. *)
Theorem recently_played_limit_sent :
  (forall sp limit,
     exists l evs r,
       exec (new.get_recently_played_tracks sp limit) = (RecentlyPlayedCall l :: evs, r)
       /\ l = Z.min (Z.max limit 1) 50 /\ 1 <= l <= 50) /\
  (forall w token limit,
     exists l evs r,
       exec (spotify_etl2.get_recently_played_tracks w token limit) =
         (HttpGet spotify_etl2.recently_played_url (spotify_etl2.request_headers token)
            [("after", yesterday_timestamp w * 1000); ("limit", l)] :: evs, r)
       /\ l = Z.min limit 50 /\ l <= 50) /\
  (forall w token,
     exists evs r,
       exec (spotify_etl2.get_recently_played_tracks w token 0) =
         (HttpGet spotify_etl2.recently_played_url (spotify_etl2.request_headers token)
            [("after", yesterday_timestamp w * 1000); ("limit", 0)] :: evs, r)).
Proof.
  assert (forall w token limit,
     exists evs r,
       exec (spotify_etl2.get_recently_played_tracks w token limit) =
         (HttpGet spotify_etl2.recently_played_url (spotify_etl2.request_headers token)
            [("after", yesterday_timestamp w * 1000); ("limit", Z.min limit 50)]
            :: evs, r)) as Hetl2.
  { intros w token limit.
    unfold spotify_etl2.get_recently_played_tracks. cbv zeta.
    apply exec_emit_first; framed. }
  split; [|split].
  - intros sp limit. exists (Z.min (Z.max limit 1) 50).
    assert (exists evs r,
              exec (new.get_recently_played_tracks sp limit) =
                (RecentlyPlayedCall (Z.min (Z.max limit 1) 50) :: evs, r))
      as (evs & r & H).
    { unfold new.get_recently_played_tracks. cbv zeta.
      apply exec_emit_first; framed.
      apply silent_framed, silent_new_process_items. }
    exists evs, r. split; [exact H|]. lia.
  - intros w token limit. destruct (Hetl2 w token limit) as (evs & r & H).
    exists (Z.min limit 50), evs, r. split; [done|]. lia.
  - intros w token. apply (Hetl2 w token 0).
Qed.

(** ** Credential resolution *)

Lemma nonempty_Some s : nonempty (Some s) = true <-> s <> "".
Proof.
  simpl. destruct (String.eqb_spec s ""); simpl; split; congruence.
Qed.

Lemma resolves_to_spec w key v :
  resolves_to w key v -> Variable_or_getenv w key = Some v /\ nonempty (Some v) = true.
Proof.
  intros [Hv H]. split; [|by apply nonempty_Some].
  unfold Variable_or_getenv, Variable_get, getenv.
  destruct H as [Hs|[[Hs|Hs] He]]; rewrite Hs.
  - by rewrite (proj2 (nonempty_Some v) Hv).
  - done.
  - done.
Qed.

Lemma unresolved_spec w key :
  unresolved w key -> nonempty (Variable_or_getenv w key) = false.
Proof.
  intros [Hs He]. unfold Variable_or_getenv, Variable_get, getenv.
  destruct Hs as [-> | ->]; simpl; by destruct He as [-> | ->].
Qed.

(** C6, amended.  The stored value is used when it is there and not
    empty; when it is absent or empty the environment variable is used;
    resolution fails with the missing-credentials [ValueError] as soon as
    one of client id and client secret has no non-empty value in either
    place. *)
Theorem credentials_fall_back_when_absent_or_empty :
  (forall w id secret,
     resolves_to w "SPOTIFY_CLIENT_ID" id ->
     resolves_to w "SPOTIFY_CLIENT_SECRET" secret ->
     exec (spotify_etl.get_spotify_credentials w) =
       ([], Ok {| spotify_etl.client_id := id; spotify_etl.client_secret := secret |})
     /\ exists uri,
          exec (new.get_spotify_user_credentials w) =
            ([], Ok {| new.client_id := id; new.client_secret := secret;
                       new.redirect_uri := uri |})) /\
  (forall w,
     unresolved w "SPOTIFY_CLIENT_ID" \/ unresolved w "SPOTIFY_CLIENT_SECRET" ->
     exec (spotify_etl.get_spotify_credentials w) =
       ([Log ERROR "Error retrieving Spotify credentials: {e}"
           [AExn (ValueError spotify_etl.credentials_not_found)]],
        Raise (ValueError spotify_etl.credentials_not_found))
     /\ exec (new.get_spotify_user_credentials w) =
       ([Log ERROR "Error retrieving Spotify credentials: {e}"
           [AExn (ValueError new.credentials_not_found)]],
        Raise (ValueError new.credentials_not_found))).
Proof.
  split.
  - intros w id secret Hid Hsecret.
    apply resolves_to_spec in Hid as [Hid Hid'].
    apply resolves_to_spec in Hsecret as [Hsecret Hsecret'].
    unfold spotify_etl.get_spotify_credentials, new.get_spotify_user_credentials.
    eff_unfold. cbv zeta. rewrite Hid, Hsecret, Hid', Hsecret'. simpl.
    split; [done|]. by eexists.
  - intros w H.
    unfold spotify_etl.get_spotify_credentials, new.get_spotify_user_credentials.
    eff_unfold. cbv zeta.
    destruct H as [H|H]; apply unresolved_spec in H;
      destruct (Variable_or_getenv w "SPOTIFY_CLIENT_ID") as [id|];
      destruct (Variable_or_getenv w "SPOTIFY_CLIENT_SECRET") as [secret|];
      rewrite ?H, ?andb_false_r; simpl; done.
Qed.

(** C6, as stated, fails: a stored client id that is there but empty is
    passed over, and the value of the environment variable is returned. *)
Lemma empty_stored_value_falls_back :
  let w := sample_world {[ "SPOTIFY_CLIENT_ID" := "";
                           "SPOTIFY_CLIENT_SECRET" := "stored-secret" ]}
             sample_env (Raise RequestException) (Ok tt) in
  variables w !! "SPOTIFY_CLIENT_ID" = Some "" /\
  exec (spotify_etl.get_spotify_credentials w) =
    ([], Ok {| spotify_etl.client_id := "env-id";
               spotify_etl.client_secret := "stored-secret" |}) /\
  exec (new.get_spotify_user_credentials w) =
    ([], Ok {| new.client_id := "env-id"; new.client_secret := "stored-secret";
               new.redirect_uri := "http://localhost:8080/callback" |}).
Proof. vm_compute. done. Qed.

(** ** Empty history *)

Lemma no_write_app evs1 evs2 : no_write evs1 -> no_write evs2 -> no_write (evs1 ++ evs2).
Proof. intros. by apply Forall_app. Qed.

Lemma no_write_cons e evs :
  is_sink_event e = false -> no_write evs -> no_write (e :: evs).
Proof. intros. by apply List.Forall_cons. Qed.

Lemma no_write_nil : no_write [].
Proof. apply List.Forall_nil. Qed.

Ltac no_write :=
  repeat first [ assumption | apply no_write_nil | apply no_write_app
               | apply no_write_cons; [reflexivity|] ].

(** C3.  When the API answers with an empty [items] list, the normalizer
    returns an empty batch and the run returns the summary
    [{tracks_processed: 0, status: no_data}], with no write to a sink among
    its events: in [spotify_etl2.py] and in [new.py]. *)
Theorem empty_items_give_no_data :
  (forall lib w ctx limit token dkvs,
     py_int lib (Variable_get_default w "SPOTIFY_RECENT_LIMIT" "50") = Ok limit ->
     spotify_etl2.get_spotify_user_token w = Ok token ->
     http_get w spotify_etl2.recently_played_url (spotify_etl2.request_headers token)
       [("after", yesterday_timestamp w * 1000); ("limit", Z.min limit 50)]
       = Ok (PDict dkvs) ->
     assoc "items" dkvs = Some (PList []) ->
     (exists evs df,
        exec (spotify_etl2.process_tracks_data (PDict dkvs)) = (evs, Ok df) /\
        df_len df = 0%nat /\ df_empty df = true) /\
     (exists evs,
        exec (spotify_etl2.run_spotify_recently_played_etl lib w ctx) =
          (evs, Ok [("tracks_processed", SNat 0); ("status", SStr "no_data")]) /\
        no_write evs)) /\
  (forall lib w ctx limit evs1 c evs2 sp rkvs,
     py_int lib (Variable_get_default w "SPOTIFY_RECENT_LIMIT" "10") = Ok limit ->
     exec (new.get_spotify_user_credentials w) = (evs1, Ok c) ->
     exec (new.create_spotify_client w c "user-read-recently-played")
       = (evs2, Ok (Some sp)) ->
     current_user_recently_played sp (Z.min (Z.max limit 1) 50) = Ok (PDict rkvs) ->
     assoc "items" rkvs = Some (PList []) ->
     (exists evs,
        exec (new.get_recently_played_tracks sp limit) = (evs, Ok (Some []))) /\
     (exists evs,
        exec (new.run_spotify_recently_played_analysis lib w ctx) =
          (evs, Ok [("tracks_processed", SNat 0); ("status", SStr "no_data")]) /\
        no_write evs)).
Proof.
  split.
  - intros lib w ctx limit token dkvs Hlimit Htoken Hget Hitems.
    assert (exec (spotify_etl2.process_tracks_data (PDict dkvs)) =
              ([Log INFO "Processed {len(df)} tracks into DataFrame" [ANat 0]],
               Ok (spotify_etl2.song_dict spotify_etl2.no_columns))) as Hproc.
    { unfold spotify_etl2.process_tracks_data. eff_unfold. unfold mbind, res_bind.
      simpl. by rewrite Hitems. }
    split; [by eexists _, _|].
    destruct (silent_exec _ _ _ (silent_etl2_process (PDict dkvs)) Hproc) as [W2 F2].
    unfold spotify_etl2.run_spotify_recently_played_etl,
      spotify_etl2.get_recently_played_tracks. eff_unfold. cbv zeta.
    rewrite Hlimit, Htoken, Hget. unfold mbind, res_bind. simpl.
    rewrite Hitems. simpl. destruct dkvs as [|kv dkvs]; [done|]. simpl.
    rewrite F2. simpl.
    eexists. split; [reflexivity|]. no_write.
  - intros lib w ctx limit evs1 c evs2 sp rkvs Hlimit Hcred Hclient Hplayed Hitems.
    assert (exec (new.get_recently_played_tracks sp limit) =
              ([RecentlyPlayedCall (Z.min (Z.max limit 1) 50);
                Log WARNING "No recently played tracks found" []],
               Ok (Some []))) as Hget.
    { unfold new.get_recently_played_tracks. eff_unfold. cbv zeta.
      rewrite Hplayed. unfold mbind, res_bind. simpl. rewrite Hitems.
      by destruct rkvs. }
    split; [by eexists|].
    destruct (silent_exec _ _ _ (silent_new_credentials w) Hcred) as [W1 F1].
    destruct (silent_exec _ _ _ (silent_new_client w c _) Hclient) as [W2 F2].
    destruct (silent_exec _ _ _ (silent_new_get sp limit) Hget) as [W3 F3].
    unfold new.run_spotify_recently_played_analysis. eff_unfold. cbv zeta.
    rewrite Hlimit, F1, F2, F3.
    eexists. split; [reflexivity|]. no_write.
Qed.

(** ** Sink failures *)

(** C4.  A sink writer that reports failure on a non-empty batch is not
    taken for a success.  In [spotify_etl2.py], when [save_to_database]
    returns [False] the run raises.  In [new.py], whatever
    [save_tracks_to_csv] returns, the run either raises or returns a summary
    whose [output_path] is the path after a success and [None] after a
    failure, so the failure can be read off the result. *)
Theorem sink_failure_is_surfaced :
  (forall lib w ctx limit token data evs1 evs2 df evs3 valid evs4,
     py_int lib (Variable_get_default w "SPOTIFY_RECENT_LIMIT" "50") = Ok limit ->
     spotify_etl2.get_spotify_user_token w = Ok token ->
     exec (spotify_etl2.get_recently_played_tracks w token limit)
       = (evs1, Ok (Some data)) ->
     truthy data = true ->
     exec (spotify_etl2.process_tracks_data data) = (evs2, Ok df) ->
     df_empty df = false ->
     exec (spotify_etl2.check_if_valid_data w df) = (evs3, Ok valid) ->
     exec (spotify_etl2.save_to_database w df spotify_etl2.DATABASE_LOCATION)
       = (evs4, Ok false) ->
     exists evs,
       exec (spotify_etl2.run_spotify_recently_played_etl lib w ctx) =
         (evs, Raise (Exception "Failed to save data to database"))) /\
  (forall lib w ctx limit evs1 c evs2 sp evs3 track_data evs4 saved,
     py_int lib (Variable_get_default w "SPOTIFY_RECENT_LIMIT" "10") = Ok limit ->
     exec (new.get_spotify_user_credentials w) = (evs1, Ok c) ->
     exec (new.create_spotify_client w c "user-read-recently-played")
       = (evs2, Ok (Some sp)) ->
     exec (new.get_recently_played_tracks sp limit) = (evs3, Ok (Some track_data)) ->
     track_data <> [] ->
     exec (new.save_tracks_to_csv w track_data
             (Variable_get_default w "SPOTIFY_OUTPUT_PATH" "recently_played_tracks.csv"))
       = (evs4, Ok saved) ->
     exists evs r,
       exec (new.run_spotify_recently_played_analysis lib w ctx) = (evs, r) /\
       match r with
       | Raise _ => True
       | Ok s =>
           summary_get "output_path" s =
             Some (if saved
                   then SStr (Variable_get_default w "SPOTIFY_OUTPUT_PATH"
                                "recently_played_tracks.csv")
                   else SNone)
       end).
Proof.
  split.
  - intros lib w ctx limit token data evs1 evs2 df evs3 valid evs4
      Hlimit Htoken Hget Hdata Hproc Hrows Hcheck Hsave.
    destruct (silent_exec _ _ _ (silent_etl2_get w token limit) Hget) as [W1 F1].
    destruct (silent_exec _ _ _ (silent_etl2_process data) Hproc) as [W2 F2].
    destruct (silent_exec _ _ _ (silent_etl2_check w df) Hcheck) as [W3 F3].
    pose proof (fun t => framed_exec _ _ _ t (framed_etl2_save w df _) Hsave) as F4.
    unfold spotify_etl2.run_spotify_recently_played_etl. eff_unfold.
    rewrite Hlimit, Htoken, F1, Hdata. cbn [negb].
    rewrite F2, Hrows, F3.
    destruct valid; cbv beta iota; rewrite F4; cbn [negb]; by eexists.
  - intros lib w ctx limit evs1 c evs2 sp evs3 td evs4 saved
      Hlimit Hcred Hclient Hget Htd Hsave.
    set (path := Variable_get_default w "SPOTIFY_OUTPUT_PATH" _) in *.
    destruct (silent_exec _ _ _ (silent_new_credentials w) Hcred) as [W1 F1].
    destruct (silent_exec _ _ _ (silent_new_client w c _) Hclient) as [W2 F2].
    destruct (silent_exec _ _ _ (silent_new_get sp limit) Hget) as [W3 F3].
    pose proof (fun t => framed_exec _ _ _ t (framed_new_save w td path) Hsave) as F4.
    unfold new.run_spotify_recently_played_analysis. eff_unfold. cbv zeta.
    rewrite Hlimit, F1, F2, F3. fold path.
    destruct td as [|t0 td]; [done|]. cbv beta iota.
    match goal with
    | |- context [(if ?b then new.display_tracks ?l else _) ?t] =>
        destruct ((if b then new.display_tracks l else fun s => (s, Ok ())) t)
          as [t' [[]|x]]
    end; cbv beta iota; [|by eexists _, _].
    rewrite F4.
    destruct (new.unique_artists (t0 :: td)) as [n|x]; cbv beta iota;
      [|by eexists _, _].
    destruct (new.avg_popularity (t0 :: td)) as [q|x]; cbv beta iota;
      [|by eexists _, _].
    eexists _, _. split; [reflexivity|].
    by destruct saved.
Qed.

(** A sink that raises makes the writers return [False]. *)
Lemma failing_sink_is_reported w df track_data path e :
  (to_sql w "my_played_tracks.sqlite" "recently_played" df = Raise e ->
   exec (spotify_etl2.save_to_database w df spotify_etl2.DATABASE_LOCATION) =
     ([SqlAppend "my_played_tracks.sqlite" "recently_played" df;
       Log ERROR "Error saving to database: {e}" [AExn e]], Ok false)) /\
  (track_data <> [] ->
   import_pandas w = Ok tt ->
   to_csv w path (new.DataFrame_of_track_data track_data) = Raise e ->
   exists lvl text args,
     exec (new.save_tracks_to_csv w track_data path) =
       ([CsvWrite path (new.DataFrame_of_track_data track_data);
         Log lvl text args], Ok false) /\
     (e <> ImportError ->
      Log lvl text args = Log ERROR "Error saving tracks to CSV: {e}" [AExn e])).
Proof.
  split.
  - intros Hsql. unfold spotify_etl2.save_to_database. eff_unfold.
    change (str_replace spotify_etl2.DATABASE_LOCATION "sqlite:///" "")
      with "my_played_tracks.sqlite".
    by rewrite Hsql.
  - intros Htd Hpandas Hcsv. unfold new.save_tracks_to_csv. eff_unfold.
    rewrite Hpandas.
    destruct track_data as [|t0 td]; [done|]. cbv zeta. rewrite Hcsv.
    destruct e; do 3 eexists; split; reflexivity || done.
Qed.

(** ** Artist not found *)

(** C7.  When [search_for_artist] finds no artist for the configured name
    (["Ed Sheeran"] unless the store says otherwise), [run_spotify_etl]
    raises the artist-not-found exception and none of its events is a write
    to the sink. *)
Theorem artist_not_found_stops_the_run
    (lib : Lib) (w : World) (ctx : gmap string string)
    (evs1 evs2 evs3 : trace) (c : spotify_etl.credentials) (token : pyval) :
  let artist_name := Variable_get_default w "SPOTIFY_ARTIST_NAME" "Ed Sheeran" in
  exec (spotify_etl.get_spotify_credentials w) = (evs1, Ok c) ->
  exec (spotify_etl.get_spotify_token lib w (spotify_etl.client_id c)
          (spotify_etl.client_secret c)) = (evs2, Ok (Some token)) ->
  exec (spotify_etl.search_for_artist lib w token artist_name) = (evs3, Ok None) ->
  exists evs,
    exec (spotify_etl.run_spotify_etl lib w ctx) =
      (evs, Raise (Exception ("Artist '" +:+ artist_name +:+ "' not found"))) /\
    no_write evs.
Proof.
  intros artist_name Hcred Htoken Hsearch.
  destruct (silent_exec _ _ _ (silent_etl_credentials w) Hcred) as [W1 F1].
  destruct (silent_exec _ _ _ (silent_etl_token lib w _ _) Htoken) as [W2 F2].
  destruct (silent_exec _ _ _ (silent_etl_search lib w token artist_name) Hsearch)
    as [W3 F3].
  unfold spotify_etl.run_spotify_etl. eff_unfold. cbv zeta. fold artist_name.
  rewrite F1, F2, F3.
  eexists. split; [reflexivity|]. no_write.
Qed.

(** A search answer with no artist in it makes [search_for_artist] return
    [None]. *)
Lemma search_without_match lib w token name kvs akvs :
  http_get w ("https://api.spotify.com/v1/search?q=" +:+ url_quote lib name
              +:+ "&type=artist&limit=1")
    (spotify_etl.get_auth_header lib token) [] = Ok (PDict kvs) ->
  assoc "artists" kvs = Some (PDict akvs) ->
  assoc "items" akvs = Some (PList []) ->
  exists evs, exec (spotify_etl.search_for_artist lib w token name) = (evs, Ok None).
Proof.
  intros Hget Hartists Hitems.
  unfold spotify_etl.search_for_artist. eff_unfold. cbv zeta.
  rewrite Hget. unfold mbind, res_bind. simpl. rewrite Hartists. simpl.
  rewrite Hitems. simpl. by eexists.
Qed.

(** ** Division by zero *)


Lemma no_zde_ret {A} (a : A) : no_zde (mret a).
Proof. by intros t. Qed.

Lemma no_zde_lift {A} (r : res A) : pure_no_zde r -> no_zde (lift r).
Proof. by intros H t. Qed.

Lemma no_zde_raise {A} (e : exn) : e <> ZeroDivisionError -> no_zde (raise (A := A) e).
Proof. intros H t. simpl. congruence. Qed.

Lemma no_zde_pass : no_zde pass.
Proof. by intros t. Qed.

Lemma no_zde_emit e : no_zde (emit e).
Proof. by intros t. Qed.

Lemma no_zde_log lvl text args : no_zde (log lvl text args).
Proof. by intros t. Qed.

Lemma no_zde_bind {A B} (m : Eff trace A) (f : A -> Eff trace B) :
  no_zde m -> (forall a, no_zde (f a)) -> no_zde (m ≫= f).
Proof.
  intros Hm Hf t. unfold mbind, eff_bind. specialize (Hm t).
  destruct (m t) as [t' [a|e]]; simpl in *; [apply Hf | congruence].
Qed.

(** A handler that returns a value swallows whatever the block raised. *)
Lemma no_zde_try {A} (m : Eff trace A) (h : exn -> Eff trace A) :
  (forall e, no_zde (h e)) -> no_zde (try_except m h).
Proof.
  intros Hh t. unfold try_except.
  destruct (m t) as [t' [a|e]]; simpl; [done | apply Hh].
Qed.

(** A handler that logs and raises again passes on what the block raised. *)
Lemma no_zde_reraise {A} (m : Eff trace A) lvl text :
  no_zde m ->
  no_zde (try_except m (fun e => log lvl text [AExn e];; raise e)).
Proof.
  intros Hm t. unfold try_except. specialize (Hm t).
  destruct (m t) as [t' [a|e]]; simpl in *; [done | congruence].
Qed.

Lemma pure_no_zde_bind {A B} (r : res A) (f : A -> res B) :
  pure_no_zde r -> (forall a, pure_no_zde (f a)) -> pure_no_zde (r ≫= f).
Proof. intros Hr Hf. destruct r; simpl; [apply Hf |]. unfold pure_no_zde in *. congruence. Qed.

Lemma py_get_no_zde v k d : pure_no_zde (py_get v k d).
Proof. by destruct v. Qed.

Lemma py_getitem_no_zde v k : pure_no_zde (py_getitem v k).
Proof. destruct v; try done. simpl. by destruct (assoc k kvs). Qed.

Lemma py_iter_no_zde v : pure_no_zde (py_iter v).
Proof. by destruct v. Qed.

Lemma py_len_no_zde v : pure_no_zde (py_len v).
Proof. by destruct v. Qed.

Lemma py_number_no_zde v : pure_no_zde (py_number v).
Proof. by destruct v. Qed.

Lemma py_int_no_zde lib s : pure_no_zde (py_int lib s).
Proof. unfold py_int. by destruct (int_of_str lib s). Qed.

Lemma hash_keys_no_zde col : pure_no_zde (hash_keys col).
Proof.
  intros H. by destruct (hash_keys_raise _ _ H).
Qed.

Lemma py_sum_no_zde l : pure_no_zde (py_sum l).
Proof.
  induction l as [|v rest IH]; [done|]. simpl.
  apply pure_no_zde_bind; [apply py_number_no_zde|]. intros n.
  apply pure_no_zde_bind; [done|]. by intros total.
Qed.

Lemma df_getitem_no_zde df name : pure_no_zde (df_getitem df name).
Proof. unfold df_getitem. by destruct (df_column name df). Qed.

Lemma series_mean_no_zde col : pure_no_zde (spotify_etl.series_mean col).
Proof.
  unfold spotify_etl.series_mean.
  apply pure_no_zde_bind; [apply py_sum_no_zde|]. intros total. by case_match.
Qed.

Lemma unique_artists_no_zde td : pure_no_zde (new.unique_artists td).
Proof.
  unfold new.unique_artists.
  apply pure_no_zde_bind; [apply hash_keys_no_zde|]. by intros ks.
Qed.

(** The average divides by the number of tracks: it is the empty batch, and
    only the empty batch, that would divide by zero. *)
Lemma avg_popularity_zde track_data :
  new.avg_popularity track_data = Raise ZeroDivisionError <-> track_data = [].
Proof.
  unfold new.avg_popularity. split.
  - destruct track_data as [|t rest]; [done|]. intros H.
    pose proof (py_sum_no_zde (map new.popularity (t :: rest))) as Hs.
    unfold mbind, res_bind in H.
    destruct (py_sum _) as [total|e].
    + unfold py_truediv in H. simpl in H. by destruct (_ <=? _).
    + unfold pure_no_zde in Hs. congruence.
  - by intros ->.
Qed.

Lemma avg_popularity_no_zde t rest : pure_no_zde (new.avg_popularity (t :: rest)).
Proof. intros H. by apply avg_popularity_zde in H. Qed.

(** The evaluations that end in no [ZeroDivisionError]. *)
Ltac pure_no_zde :=
  first
    [ apply py_get_no_zde | apply py_getitem_no_zde | apply py_iter_no_zde
    | apply py_len_no_zde | apply py_number_no_zde | apply py_int_no_zde
    | apply hash_keys_no_zde | apply py_sum_no_zde | apply df_getitem_no_zde
    | apply series_mean_no_zde | apply unique_artists_no_zde
    | apply avg_popularity_no_zde ].

Ltac no_zde_with leaf :=
  repeat first
    [ leaf
    | apply no_zde_reraise | apply no_zde_try | apply no_zde_bind
    | apply no_zde_ret | apply no_zde_pass | apply no_zde_log | apply no_zde_emit
    | apply no_zde_raise; discriminate
    | apply no_zde_lift
    | pure_no_zde
    | apply pure_no_zde_bind
    | progress intros | progress cbv zeta
    | match goal with
      | |- no_zde (match ?x with _ => _ end) => destruct x
      | |- pure_no_zde (match ?x with _ => _ end) => destruct x
      | |- pure_no_zde (Ok _) => discriminate
      | |- pure_no_zde (Raise _) => discriminate
      end ].

Ltac no_zde := no_zde_with fail.

Lemma no_zde_new_credentials w : no_zde (new.get_spotify_user_credentials w).
Proof. unfold new.get_spotify_user_credentials. no_zde. Qed.

Lemma no_zde_new_client w c scope : no_zde (new.create_spotify_client w c scope).
Proof. unfold new.create_spotify_client. no_zde. Qed.

Lemma no_zde_new_get sp limit : no_zde (new.get_recently_played_tracks sp limit).
Proof. unfold new.get_recently_played_tracks. no_zde. Qed.

Lemma no_zde_new_display_each track_data : no_zde (new.display_each track_data).
Proof.
  induction track_data as [|t rest IH]; simpl; [apply no_zde_pass|].
  unfold new.display_track. no_zde_with ltac:(apply IH).
Qed.

Lemma no_zde_new_display track_data : no_zde (new.display_tracks track_data).
Proof.
  unfold new.display_tracks. no_zde_with ltac:(apply no_zde_new_display_each).
Qed.

Lemma no_zde_new_save w track_data path :
  no_zde (new.save_tracks_to_csv w track_data path).
Proof. unfold new.save_tracks_to_csv. no_zde. Qed.

Lemma no_zde_new_run lib w ctx :
  no_zde (new.run_spotify_recently_played_analysis lib w ctx).
Proof.
  unfold new.run_spotify_recently_played_analysis.
  no_zde_with ltac:(first [ apply no_zde_new_credentials | apply no_zde_new_client
                          | apply no_zde_new_get | apply no_zde_new_display
                          | apply no_zde_new_save ]).
Qed.

Lemma no_zde_etl_credentials w : no_zde (spotify_etl.get_spotify_credentials w).
Proof. unfold spotify_etl.get_spotify_credentials. no_zde. Qed.

Lemma no_zde_etl_token lib w id secret :
  no_zde (spotify_etl.get_spotify_token lib w id secret).
Proof. unfold spotify_etl.get_spotify_token. no_zde. Qed.

Lemma no_zde_etl_search lib w token name :
  no_zde (spotify_etl.search_for_artist lib w token name).
Proof. unfold spotify_etl.search_for_artist. no_zde. Qed.

Lemma no_zde_etl_songs lib w token artist_id market :
  no_zde (spotify_etl.get_songs_by_artist lib w token artist_id market).
Proof. unfold spotify_etl.get_songs_by_artist. no_zde. Qed.

Lemma no_zde_etl_process_tracks tracks :
  forall track_data, no_zde (spotify_etl.process_tracks tracks track_data).
Proof.
  induction tracks as [|t rest IH]; intros td; simpl; no_zde_with ltac:(apply IH).
Qed.

Lemma no_zde_etl_save w df path : no_zde (spotify_etl.save_to_csv w df path).
Proof. unfold spotify_etl.save_to_csv. no_zde. Qed.

Lemma no_zde_etl_run lib w ctx : no_zde (spotify_etl.run_spotify_etl lib w ctx).
Proof.
  unfold spotify_etl.run_spotify_etl.
  no_zde_with ltac:(first [ apply no_zde_etl_credentials | apply no_zde_etl_token
                          | apply no_zde_etl_search | apply no_zde_etl_songs
                          | apply no_zde_etl_process_tracks | apply no_zde_etl_save ]).
Qed.


Lemma returns_ret {A} (P : A -> Prop) a : P a -> returns P (mret a).
Proof. intros H t a' [= <-]. exact H. Qed.

Lemma returns_raise {A} (P : A -> Prop) e : returns P (raise e).
Proof. by intros t a. Qed.

Lemma returns_bind {A B} (P : B -> Prop) (m : Eff trace A) (f : A -> Eff trace B) :
  (forall a, returns P (f a)) -> returns P (m ≫= f).
Proof.
  intros Hf t b. unfold mbind, eff_bind.
  destruct (m t) as [t' [a|e]]; simpl; [apply Hf | done].
Qed.

Lemma returns_reraise {A} (P : A -> Prop) (m : Eff trace A) lvl text :
  returns P m ->
  returns P (try_except m (fun e => log lvl text [AExn e];; raise e)).
Proof.
  intros Hm t a. unfold try_except. specialize (Hm t).
  destruct (m t) as [t' [a'|e]]; simpl in *; [apply Hm | done].
Qed.

Ltac returns_step :=
  first
    [ apply returns_reraise | apply returns_bind | apply returns_raise
    | progress intros | progress cbv zeta
    | match goal with
      | |- returns _ (match ?x with _ => _ end) => destruct x
      end ].

Ltac returns := repeat returns_step.

(** C9.  The average of [new.py] divides by the number of tracks, which
    would divide by zero on the empty batch and only there; no run of
    [new.py] or [spotify_etl.py] ends in [ZeroDivisionError]; a summary
    that holds an average counts at least one track; and after an empty or
    failed retrieval [new.py] returns the [no_data] summary before any
    average is taken. *)
Theorem division_by_zero_is_unreachable :
  (forall track_data,
     new.avg_popularity track_data = Raise ZeroDivisionError <-> track_data = []) /\
  (forall lib w ctx,
     (exec (new.run_spotify_recently_played_analysis lib w ctx)).2
       <> Raise ZeroDivisionError) /\
  (forall lib w ctx,
     (exec (spotify_etl.run_spotify_etl lib w ctx)).2 <> Raise ZeroDivisionError) /\
  (forall lib w ctx evs s avg,
     exec (new.run_spotify_recently_played_analysis lib w ctx) = (evs, Ok s) ->
     summary_get "average_popularity" s = Some avg ->
     exists n, summary_get "tracks_processed" s = Some (SNat (S n))) /\
  (forall lib w ctx evs s,
     exec (spotify_etl.run_spotify_etl lib w ctx) = (evs, Ok s) ->
     exists n, summary_get "tracks_processed" s = Some (SNat (S n))) /\
  (forall lib w ctx limit evs1 c evs2 sp evs3 track_data,
     py_int lib (Variable_get_default w "SPOTIFY_RECENT_LIMIT" "10") = Ok limit ->
     exec (new.get_spotify_user_credentials w) = (evs1, Ok c) ->
     exec (new.create_spotify_client w c "user-read-recently-played")
       = (evs2, Ok (Some sp)) ->
     exec (new.get_recently_played_tracks sp limit) = (evs3, Ok track_data) ->
     track_data = None \/ track_data = Some [] ->
     exists evs,
       exec (new.run_spotify_recently_played_analysis lib w ctx) =
         (evs, Ok [("tracks_processed", SNat 0); ("status", SStr "no_data")])).
Proof.
  split; [exact avg_popularity_zde|].
  split; [intros; apply no_zde_new_run|].
  split; [intros; apply no_zde_etl_run|].
  split; [|split].
  - intros lib w ctx evs s avg Hrun.
    assert (returns (fun s =>
              forall avg, summary_get "average_popularity" s = Some avg ->
              exists n, summary_get "tracks_processed" s = Some (SNat (S n)))
              (new.run_spotify_recently_played_analysis lib w ctx)) as H.
    { unfold new.run_spotify_recently_played_analysis. returns.
      all: apply returns_ret; intros avg'; simpl; first [done | by eexists]. }
    apply (H [] s). unfold exec in Hrun. by rewrite Hrun.
  - intros lib w ctx evs s Hrun.
    assert (returns (fun s =>
              exists n, summary_get "tracks_processed" s = Some (SNat (S n)))
              (spotify_etl.run_spotify_etl lib w ctx)) as H.
    { unfold spotify_etl.run_spotify_etl. returns.
      apply returns_ret. simpl. by eexists. }
    apply (H [] s). unfold exec in Hrun. by rewrite Hrun.
  - intros lib w ctx limit evs1 c evs2 sp evs3 td Hlimit Hcred Hclient Hget Htd.
    destruct (silent_exec _ _ _ (silent_new_credentials w) Hcred) as [W1 F1].
    destruct (silent_exec _ _ _ (silent_new_client w c _) Hclient) as [W2 F2].
    destruct (silent_exec _ _ _ (silent_new_get sp limit) Hget) as [W3 F3].
    unfold new.run_spotify_recently_played_analysis. eff_unfold. cbv zeta.
    rewrite Hlimit, F1, F2, F3.
    destruct Htd as [-> | ->]; by eexists.
Qed.

(** ** The normalizers *)

Lemma py_get_dict kvs k d : py_get (PDict kvs) k d = Ok (field kvs k d).
Proof. reflexivity. Qed.

Lemma field_not_default kvs k d v : field kvs k d = v -> v <> d -> assoc k kvs = Some v.
Proof. unfold field. destruct (assoc k kvs); simpl; congruence. Qed.

Lemma new_make_track_info_complete idx item :
  new_shapes.complete_item item = true ->
  new.make_track_info idx item = Ok (new_shapes.info_of idx item).
Proof.
  intros H. destruct item as [| | | | |ikvs]; try done.
  unfold new_shapes.complete_item in H.
  destruct (assoc "track" ikvs) as [[| | | | |tkvs]|] eqn:Htrack; try done.
  apply andb_prop in H as [H Hurls]. apply andb_prop in H as [Hartists Halbum].
  assert (field ikvs "track" (PDict []) = PDict tkvs) as Hf.
  { unfold field. by rewrite Htrack. }
  unfold new.make_track_info, new.first_artist, new_shapes.info_of.
  cbn [members]. rewrite Hf. cbn [members].
  unfold mbind, res_bind, mret, res_ret. cbn [py_getitem]. rewrite Htrack.
  rewrite !py_get_dict.
  destruct (field tkvs "album" (PDict [])) as [| | | | |album]; try done.
  destruct (field tkvs "external_urls" (PDict [])) as [| | | | |urls]; try done.
  rewrite !py_get_dict. cbn [members].
  unfold new_shapes.artists_named, new_shapes.first_artist_field in *.
  destruct (field tkvs "artists" PNone) as [|[]|n|s|[|[| | | | |akvs] ?]|[|]] eqn:Ha;
    simpl in Hartists; try done.
  - simpl. destruct (n =? 0)%Z; [done | done].
  - simpl. destruct s; [done | done].
  - apply field_not_default in Ha; [|done].
    cbn [truthy py_getitem]. rewrite Ha. cbn [py_first py_getitem].
    apply andb_prop in Hartists as [Hn Hi].
    apply bool_decide_eq_true in Hn as [n Hn].
    apply bool_decide_eq_true in Hi as [i Hi].
    unfold field. by rewrite Hn, Hi.
Qed.

Lemma new_make_track_info_no_track idx item :
  new_shapes.no_track item = true ->
  exists e, new.make_track_info idx item = Raise e.
Proof.
  intros H. unfold new.make_track_info, mbind, res_bind.
  destruct item as [| | | | |ikvs]; simpl; try by eexists.
  simpl in H. apply bool_decide_eq_true in H. rewrite H. by eexists.
Qed.

(** A [try] whose handler returns a value raises nothing. *)
Lemma try_except_returns {A} (m : Eff trace A) (h : exn -> Eff trace A) :
  (forall e t, exists a, (h e t).2 = Ok a) ->
  forall t, exists a, (try_except m h t).2 = Ok a.
Proof.
  intros Hh t. unfold try_except.
  destruct (m t) as [t' [a|e]]; simpl; [by eexists | apply Hh].
Qed.

Lemma etl2_process_items_clean items : forall c t,
  Forall (fun item => complete_item item || unusable_item item = true) items ->
  exists logs,
    spotify_etl2.process_items items c t = (t ++ logs, Ok (cat c (rows_of items))) /\
    length logs = length (List.filter unusable_item items).
Proof.
  induction items as [|item rest IH]; intros c t Hall.
  - exists []. simpl. by rewrite app_nil_r, cat_no_columns_r.
  - apply Forall_cons in Hall as [Hitem Hrest]. simpl.
    destruct (complete_item item) eqn:Hc.
    + rewrite (process_item_complete item c Hc).
      destruct (IH (cat c (row_of item)) t Hrest) as (logs & -> & Hlen).
      exists logs. rewrite cat_assoc. split; [done|].
      assert (unusable_item item = false) as ->; [|done].
      destruct item as [| | | | |ikvs]; try done. simpl in *.
      by destruct (field ikvs "track" (PDict [])).
    + simpl in Hitem. rewrite (process_item_unusable item c Hitem).
      unfold mbind, eff_bind, log, emit, modify.
      destruct (IH c (t ++ [Log WARNING "Error processing track item: {e}"
                              [AExn AttributeError]]) Hrest) as (logs & -> & Hlen).
      eexists (_ :: logs). rewrite <- app_assoc. split; [done|].
      rewrite Hitem. simpl. by rewrite Hlen.
Qed.

Lemma rows_of_lengths items :
  let c := rows_of items in
  length (spotify_etl2.artist_names c) = length (spotify_etl2.song_names c) /\
  length (spotify_etl2.played_at_list c) = length (spotify_etl2.song_names c) /\
  length (spotify_etl2.timestamps c) = length (spotify_etl2.song_names c) /\
  length (spotify_etl2.track_ids c) = length (spotify_etl2.song_names c) /\
  length (spotify_etl2.album_names c) = length (spotify_etl2.song_names c) /\
  length (spotify_etl2.durations c) = length (spotify_etl2.song_names c) /\
  length (spotify_etl2.popularities c) = length (spotify_etl2.song_names c).
Proof.
  induction items as [|item rest IH]; simpl; [done|].
  destruct (complete_item item); [|done]. simpl in *. lia.
Qed.

(** C5, amended.  [new.py]'s normalizer never raises.  In both
    normalizers an item of the expected shape gets the documented defaults
    for the members it lacks (["Unknown"] names, 0 for [duration_ms] and
    [popularity], [False] for [explicit], the empty text for ids, urls and
    [played_at]) and the first artist of a non-empty [artists] list.
    [new.py] skips an item without [track], with a warning, and goes on;
    [spotify_etl2.py] skips an item that is no object or whose [track] is
    no object, with a warning, and goes on, but makes a row of defaults of
    an item with no [track] member; on a batch of such items it returns the
    frame of the complete ones. *)
Theorem normalizers_fill_defaults_and_skip :
  (forall sp limit,
     exists evs r, exec (new.get_recently_played_tracks sp limit) = (evs, Ok r)) /\
  (forall idx item,
     new_shapes.complete_item item = true ->
     new.make_track_info idx item = Ok (new_shapes.info_of idx item)) /\
  (forall idx,
     new.make_track_info idx (PDict [("track", PDict [])]) =
       Ok {| new.rank := idx + 1;
             new.track_name := PStr "Unknown";
             new.artist_name := PStr "Unknown";
             new.album_name := PStr "Unknown";
             new.spotify_url := PStr "";
             new.preview_url := PStr "";
             new.duration_ms := PInt 0;
             new.popularity := PInt 0;
             new.explicit := PBool false;
             new.played_at := PStr "";
             new.track_id := PStr "";
             new.artist_id := PStr "";
             new.album_id := PStr "" |}) /\
  (forall idx item rest track_data t,
     new_shapes.no_track item = true ->
     exists e,
       new.process_items idx (item :: rest) track_data t =
         new.process_items (S idx) rest track_data
           (t ++ [Log WARNING "Error processing track {idx + 1}: {e}"
                    [ANat (idx + 1); AExn e]])) /\
  (forall item c,
     complete_item item = true ->
     spotify_etl2.process_item item c = (cat c (row_of item), Ok tt)) /\
  spotify_etl2.process_item (PDict []) spotify_etl2.no_columns =
    ({| spotify_etl2.song_names := [PStr "Unknown"];
        spotify_etl2.artist_names := [PStr "Unknown"];
        spotify_etl2.played_at_list := [PStr ""];
        spotify_etl2.timestamps := [PStr ""];
        spotify_etl2.track_ids := [PStr ""];
        spotify_etl2.album_names := [PStr "Unknown"];
        spotify_etl2.durations := [PInt 0];
        spotify_etl2.popularities := [PInt 0] |}, Ok tt) /\
  (forall item rest c t,
     unusable_item item = true ->
     spotify_etl2.process_items (item :: rest) c t =
       spotify_etl2.process_items rest c
         (t ++ [Log WARNING "Error processing track item: {e}" [AExn AttributeError]])) /\
  (forall dkvs items,
     assoc "items" dkvs = Some (PList items) ->
     Forall (fun item => complete_item item || unusable_item item = true) items ->
     exists evs,
       exec (spotify_etl2.process_tracks_data (PDict dkvs)) =
         (evs, Ok (spotify_etl2.song_dict (rows_of items)))).
Proof.
  split; [|split; [|split; [|split; [|split; [|split; [|split]]]]]].
  - intros sp limit.
    destruct (try_except_returns
                (A := option (list new.track_info))
                (let limit := Z.min (Z.max limit 1) 50 in
                 emit (RecentlyPlayedCall limit);;
                 results ← lift (current_user_recently_played sp limit);
                 no_items ← lift (if negb (truthy results) then Ok true
                                  else items ← py_get results "items" PNone;
                                       Ok (negb (truthy items)));
                 if (no_items : bool) then
                   log WARNING "No recently played tracks found" [];;
                   mret (Some [])
                 else
                   items ← lift (items ← py_getitem results "items"; py_iter items);
                   track_data ← new.process_items 0 items [];
                   log INFO "Successfully processed {len(track_data)} recently played tracks"
                     [ANat (length track_data)];;
                   mret (Some track_data))
                (fun e =>
                   log ERROR "Error getting recently played tracks: {e}" [AExn e];;
                   mret None)
                ltac:(intros e t; by eexists) []) as [r Hr].
    exists (exec (new.get_recently_played_tracks sp limit)).1, r.
    unfold exec, new.get_recently_played_tracks.
    by rewrite <- Hr, <- surjective_pairing.
  - apply new_make_track_info_complete.
  - intros idx. reflexivity.
  - intros idx item rest td t H.
    destruct (new_make_track_info_no_track idx item H) as [e He].
    exists e. simpl. by rewrite He.
  - apply process_item_complete.
  - reflexivity.
  - intros item rest c t H. simpl.
    by rewrite (process_item_unusable item c H).
  - intros dkvs items Hitems Hall.
    destruct (etl2_process_items_clean items spotify_etl2.no_columns [] Hall)
      as (logs & Hrun & _).
    rewrite cat_no_columns_l in Hrun.
    unfold exec, spotify_etl2.process_tracks_data. eff_unfold.
    unfold mbind, res_bind. simpl. rewrite Hitems. simpl. rewrite Hrun.
    destruct (rows_of_lengths items) as (H1 & H2 & H3 & H4 & H5 & H6 & H7).
    unfold DataFrame_of_dict. simpl.
    rewrite H1, H2, H3, H4, H5, H6, H7, !Nat.eqb_refl. simpl. by eexists.
Qed.

(** C5, as stated, fails: an item with no [track] member is not skipped
    by [process_tracks_data]; it becomes a row of defaults and no warning is
    logged. *)
Lemma item_without_track_becomes_a_row :
  exec (spotify_etl2.process_tracks_data
          (sample_history [PDict [("played_at", PStr "2023-11-14T10:00:00Z")]])) =
    ([Log INFO "Processed {len(df)} tracks into DataFrame" [ANat 1]],
     Ok [("song_name", [PStr "Unknown"]);
         ("artist_name", [PStr "Unknown"]);
         ("played_at", [PStr "2023-11-14T10:00:00Z"]);
         ("timestamp", [PStr "2023-11-14"]);
         ("track_id", [PStr ""]);
         ("album_name", [PStr "Unknown"]);
         ("duration_ms", [PInt 0]);
         ("popularity", [PInt 0])]).
Proof. reflexivity. Qed.

(** An item whose row breaks off half way leaves the eight lists of unequal
    length, and building the frame raises. *)
Lemma partial_row_breaks_the_frame :
  exec (spotify_etl2.process_tracks_data
          (sample_history
             [PDict [("track", PDict [("name", PStr "Song"); ("album", PNone)]);
                     ("played_at", PStr "2023-11-14T10:00:00Z")]])) =
    ([Log WARNING "Error processing track item: {e}" [AExn AttributeError]],
     Raise (ValueError "All arrays must be of the same length")).
Proof. reflexivity. Qed.

(** ** The theorems at sample inputs *)

(** Two plays at the same time: the validator and the run raise the
    primary-key violation. *)
Lemma duplicate_played_at_is_fatal_witness :
  exists e,
    (forall t,
       spotify_etl2.check_if_valid_data (history_world (Ok repeated_history) (Ok tt))
         (frame_of repeated_history) t = (t, Raise e)) /\
    (exists evs,
       exec (spotify_etl2.run_spotify_recently_played_etl sample_lib
               (history_world (Ok repeated_history) (Ok tt)) ∅) = (evs, Raise e) /\
       no_write evs) /\
    (forallb scalar [PStr "2023-11-14T10:00:00Z"; PStr "2023-11-14T10:00:00Z"] = true ->
     e = spotify_etl2.primary_key_violation) /\
    (forallb scalar [PStr "2023-11-14T10:00:00Z"; PStr "2023-11-14T10:00:00Z"] = false ->
     e = TypeError).
Proof.
  eapply (duplicate_played_at_is_fatal sample_lib
            (history_world (Ok repeated_history) (Ok tt)) ∅ 50 "user-token"
            repeated_history _ _ (frame_of repeated_history) _ 0 1 "2023-11-14T10:00:00Z").
  - vm_compute. reflexivity.
  - vm_compute. reflexivity.
  - vm_compute. reflexivity.
  - reflexivity.
  - vm_compute. reflexivity.
  - vm_compute. reflexivity.
  - discriminate.
  - reflexivity.
  - reflexivity.
  - discriminate.
Defined.

(** Two plays at different times pass. *)
Lemma distinct_played_at_passes_validation_witness :
  exists logs,
    forall t,
      spotify_etl2.check_if_valid_data (history_world (Ok distinct_history) (Ok tt))
        (frame_of distinct_history) t = (t ++ logs, Ok true).
Proof.
  destruct (distinct_played_at_passes_validation
              (history_world (Ok distinct_history) (Ok tt))
              (frame_of distinct_history)
              [PStr "2023-11-14T10:00:00Z"; PStr "2023-11-14T11:30:00Z"]
              [KStr "2023-11-14T10:00:00Z"; KStr "2023-11-14T11:30:00Z"])
    as (logs & H & _).
  - reflexivity.
  - reflexivity.
  - reflexivity.
  - compute_done.
  - exists logs. exact H.
Defined.

(** Two plays with no time are refused. *)
Lemma missing_played_at_is_a_duplicate_witness :
  exists col i j e,
    df_column "played_at" (frame_of untimed_history) = Some col /\ i <> j /\
    col !! i = Some (PStr "") /\ col !! j = Some (PStr "") /\
    (forall t,
       spotify_etl2.check_if_valid_data (history_world (Ok untimed_history) (Ok tt))
         (frame_of untimed_history) t = (t, Raise e)) /\
    (forallb scalar col = true -> e = spotify_etl2.primary_key_violation) /\
    (forallb scalar col = false -> e = TypeError).
Proof.
  eapply (missing_played_at_is_a_duplicate
            (history_world (Ok untimed_history) (Ok tt))
            [("items", PList [untimed_item "One"; untimed_item "Two"])]
            [] [] [] [("track", PDict [("name", PStr "One")])]
            [("track", PDict [("name", PStr "Two")])]).
  - reflexivity.
  - reflexivity.
  - reflexivity.
  - reflexivity.
  - reflexivity.
  - vm_compute. reflexivity.
Defined.

(** No artist in the search answer, the default artist name. *)
Lemma artist_not_found_stops_the_run_witness :
  exists evs,
    exec (spotify_etl.run_spotify_etl sample_lib
            (history_world (Ok no_artist_answer) (Ok tt)) ∅) =
      (evs, Raise (Exception "Artist 'Ed Sheeran' not found")) /\
    no_write evs.
Proof.
  eapply (artist_not_found_stops_the_run sample_lib
            (history_world (Ok no_artist_answer) (Ok tt)) ∅ _ _ _
            {| spotify_etl.client_id := "env-id";
               spotify_etl.client_secret := "env-secret" |} (PStr "token")).
  - vm_compute. reflexivity.
  - vm_compute. reflexivity.
  - vm_compute. reflexivity.
Defined.

(** An answer with an empty [items] list, in both history tasks. *)
Lemma empty_items_give_no_data_witness :
  (exists evs,
     exec (spotify_etl2.run_spotify_recently_played_etl sample_lib
             (history_world (Ok empty_history) (Ok tt)) ∅) =
       (evs, Ok [("tracks_processed", SNat 0); ("status", SStr "no_data")]) /\
     no_write evs) /\
  (exists evs,
     exec (new.run_spotify_recently_played_analysis sample_lib
             (history_world (Ok empty_history) (Ok tt)) ∅) =
       (evs, Ok [("tracks_processed", SNat 0); ("status", SStr "no_data")]) /\
     no_write evs).
Proof.
  destruct empty_items_give_no_data as [Hetl2 Hnew]. split.
  - eapply (Hetl2 sample_lib (history_world (Ok empty_history) (Ok tt)) ∅ 50
              "user-token" [("items", PList [])]).
    + vm_compute. reflexivity.
    + vm_compute. reflexivity.
    + reflexivity.
    + reflexivity.
  - eapply (Hnew sample_lib (history_world (Ok empty_history) (Ok tt)) ∅ 10 _
              {| new.client_id := "env-id"; new.client_secret := "env-secret";
                 new.redirect_uri := "http://localhost:8080/callback" |}
              _ (sample_client (Ok empty_history)) [("items", PList [])]).
    + vm_compute. reflexivity.
    + vm_compute. reflexivity.
    + vm_compute. reflexivity.
    + reflexivity.
    + reflexivity.
Defined.

(** A sink that raises, in both history tasks. *)
Lemma sink_failure_is_surfaced_witness :
  (exists evs,
     exec (spotify_etl2.run_spotify_recently_played_etl sample_lib
             (history_world (Ok distinct_history) (Raise RequestException)) ∅) =
       (evs, Raise (Exception "Failed to save data to database"))) /\
  (exists evs r,
     exec (new.run_spotify_recently_played_analysis sample_lib
             (history_world (Ok distinct_history) (Raise RequestException)) ∅) =
       (evs, r) /\
     match r with
     | Raise _ => True
     | Ok s => summary_get "output_path" s = Some SNone
     end).
Proof.
  destruct sink_failure_is_surfaced as [Hetl2 Hnew]. split.
  - eapply (Hetl2 sample_lib
              (history_world (Ok distinct_history) (Raise RequestException)) ∅ 50
              "user-token" distinct_history _ _ (frame_of distinct_history) _ true).
    + vm_compute. reflexivity.
    + vm_compute. reflexivity.
    + vm_compute. reflexivity.
    + reflexivity.
    + vm_compute. reflexivity.
    + reflexivity.
    + vm_compute. reflexivity.
    + vm_compute. reflexivity.
  - eapply (Hnew sample_lib
              (history_world (Ok distinct_history) (Raise RequestException)) ∅ 10 _
              {| new.client_id := "env-id"; new.client_secret := "env-secret";
                 new.redirect_uri := "http://localhost:8080/callback" |}
              _ (sample_client (Ok distinct_history)) _
              [new_shapes.info_of 0 (sample_item "One" "2023-11-14T10:00:00Z");
               new_shapes.info_of 1 (sample_item "Two" "2023-11-14T11:30:00Z")]
              _ false).
    + vm_compute. reflexivity.
    + vm_compute. reflexivity.
    + vm_compute. reflexivity.
    + vm_compute. reflexivity.
    + discriminate.
    + vm_compute. reflexivity.
Defined.

(** A stored client id, a client secret from the environment. *)
Lemma credentials_fall_back_witness :
  exec (spotify_etl.get_spotify_credentials
          (sample_world {[ "SPOTIFY_CLIENT_ID" := "stored-id" ]} sample_env
             (Raise RequestException) (Ok tt))) =
    ([], Ok {| spotify_etl.client_id := "stored-id";
               spotify_etl.client_secret := "env-secret" |}).
Proof.
  destruct credentials_fall_back_when_absent_or_empty as [Hresolved _].
  apply (Hresolved
           (sample_world {[ "SPOTIFY_CLIENT_ID" := "stored-id" ]} sample_env
              (Raise RequestException) (Ok tt)) "stored-id" "env-secret").
  - split; [discriminate|]. left. reflexivity.
  - split; [discriminate|]. right. split; [left|]; reflexivity.
Defined.

(** A complete item, two unusable ones, and an item with no members. *)
Lemma normalizers_fill_defaults_and_skip_witness :
  exists evs,
    exec (spotify_etl2.process_tracks_data
            (sample_history [sample_item "One" "2023-11-14T10:00:00Z"; PNone;
                             PDict [("track", PStr "gone")]; PDict []])) =
      (evs,
       Ok [("song_name", [PStr "One"; PStr "Unknown"]);
           ("artist_name", [PStr "Artist"; PStr "Unknown"]);
           ("played_at", [PStr "2023-11-14T10:00:00Z"; PStr ""]);
           ("timestamp", [PStr "2023-11-14"; PStr ""]);
           ("track_id", [PStr ""; PStr ""]);
           ("album_name", [PStr "Album"; PStr "Unknown"]);
           ("duration_ms", [PInt 0; PInt 0]);
           ("popularity", [PInt 40; PInt 0])]).
Proof.
  destruct normalizers_fill_defaults_and_skip as (_ & _ & _ & _ & _ & _ & _ & Hbatch).
  apply (Hbatch
           [("items", PList [sample_item "One" "2023-11-14T10:00:00Z"; PNone;
                             PDict [("track", PStr "gone")]; PDict []])]
           [sample_item "One" "2023-11-14T10:00:00Z"; PNone;
            PDict [("track", PStr "gone")]; PDict []]).
  - reflexivity.
  - repeat (apply List.Forall_cons; [reflexivity|]). apply List.Forall_nil.
Defined.

(** The summary of two plays. *)
Lemma division_by_zero_is_unreachable_witness :
  exists n,
    summary_get "tracks_processed"
      [("tracks_processed", SNat 2); ("unique_artists", SNat 1);
       ("average_popularity", SRatio (Qmake 80 2)); ("explicit_tracks", SNat 0);
       ("output_path", SStr "recently_played_tracks.csv");
       ("execution_date", SStr "2023-11-15"); ("status", SStr "success")]
    = Some (SNat (S n)).
Proof.
  destruct division_by_zero_is_unreachable as (_ & _ & _ & Hnew & _).
  apply (Hnew sample_lib (history_world (Ok distinct_history) (Ok tt)) ∅
           (exec (new.run_spotify_recently_played_analysis sample_lib
                    (history_world (Ok distinct_history) (Ok tt)) ∅)).1
           _ (SRatio (Qmake 80 2))).
  - vm_compute. reflexivity.
  - reflexivity.
Defined.

(** ** Cells that cannot be hashed *)

(** Two plays at the same time beside a play whose [played_at] is a list:
    the validator and the run raise [TypeError], not the primary-key
    violation. *)
Lemma duplicate_beside_a_list_raises_type_error :
  df_column "played_at" (frame_of repeated_history_with_list)
    = Some [PStr "2023-11-14T10:00:00Z"; PStr "2023-11-14T10:00:00Z";
            PList [PStr "2023-11-14"]] /\
  (exec (spotify_etl2.check_if_valid_data
           (history_world (Ok repeated_history_with_list) (Ok tt))
           (frame_of repeated_history_with_list))).2 = Raise TypeError /\
  (exec (spotify_etl2.run_spotify_recently_played_etl sample_lib
           (history_world (Ok repeated_history_with_list) (Ok tt)) ∅)).2
    = Raise TypeError /\
  TypeError <> spotify_etl2.primary_key_violation.
Proof. vm_compute. by repeat split. Qed.

(** Two plays with different [played_at] values, one of them a list: the
    frame has rows, and the validator raises instead of passing. *)
Lemma distinct_beside_a_list_raises_type_error :
  df_column "played_at" (frame_of distinct_history_with_list)
    = Some [PStr "2023-11-14T10:00:00Z"; PList [PStr "2023-11-14"]] /\
  df_empty (frame_of distinct_history_with_list) = false /\
  (exec (spotify_etl2.check_if_valid_data
           (history_world (Ok distinct_history_with_list) (Ok tt))
           (frame_of distinct_history_with_list))).2 = Raise TypeError /\
  (exec (spotify_etl2.run_spotify_recently_played_etl sample_lib
           (history_world (Ok distinct_history_with_list) (Ok tt)) ∅)).2
    = Raise TypeError.
Proof. vm_compute. by repeat split. Qed.

(** Two plays with no time beside a play whose [played_at] is a list: the
    validator raises [TypeError], not the primary-key violation. *)
Lemma untimed_beside_a_list_raises_type_error :
  df_column "played_at" (frame_of untimed_history_with_list)
    = Some [PStr ""; PStr ""; PList [PStr "2023-11-14"]] /\
  (exec (spotify_etl2.check_if_valid_data
           (history_world (Ok untimed_history_with_list) (Ok tt))
           (frame_of untimed_history_with_list))).2 = Raise TypeError /\
  TypeError <> spotify_etl2.primary_key_violation.
Proof. vm_compute. by repeat split. Qed.

(** * Further properties *)

(** ** Writes in a trace *)

Lemma writes_app t1 t2 : writes (t1 ++ t2) = writes t1 ++ writes t2.
Proof. apply List.filter_app. Qed.

Lemma writes_no_write evs : no_write evs -> writes evs = [].
Proof.
  induction 1 as [|e evs He _ IH]; [done|]. unfold writes in *. simpl.
  by rewrite He.
Qed.

Lemma writes_cons e t :
  writes (e :: t) = (if is_sink_event e then [e] else []) ++ writes t.
Proof. unfold writes. simpl. by destruct (is_sink_event e). Qed.

Ltac writes_simpl :=
  cbn [fst snd]; repeat (rewrite writes_app || rewrite writes_cons);
  repeat match goal with W : writes _ = _ |- _ => rewrite W; clear W end;
  cbn [writes List.filter is_sink_event app].

(** An evaluation that returned went through each of its steps. *)
Lemma bind_Ok {A B} (r : res A) (f : A -> res B) b :
  r ≫= f = Ok b -> exists a, r = Ok a /\ f a = Ok b.
Proof. destruct r as [a|e]; [by exists a | done]. Qed.

(** ** Resolution of a key, decided *)

Lemma resolved_or_unresolved w key :
  (exists v, resolves_to w key v /\ Variable_or_getenv w key = Some v /\ v <> "") \/
  (unresolved w key /\ nonempty (Variable_or_getenv w key) = false).
Proof.
  unfold resolves_to, unresolved, Variable_or_getenv, Variable_get, getenv.
  destruct (variables w !! key) as [s|] eqn:Hs; simpl.
  - destruct (String.eqb_spec s "") as [->|Hne]; simpl.
    + destruct (environ w !! key) as [v|] eqn:Hv; simpl.
      * destruct (String.eqb_spec v "") as [->|Hv']; simpl; [right; auto|].
        left. exists v. auto 6.
      * right. auto.
    + left. exists s. auto.
  - destruct (environ w !! key) as [v|] eqn:Hv; simpl.
    + destruct (String.eqb_spec v "") as [->|Hv']; simpl; [right; auto|].
      left. exists v. auto 6.
    + right. auto.
Qed.

Lemma resolves_to_unique w key v v' :
  resolves_to w key v -> resolves_to w key v' -> v = v'.
Proof.
  intros H H'. apply resolves_to_spec in H as [H _], H' as [H' _]. congruence.
Qed.

Lemma unresolved_not_resolved w key v :
  unresolved w key -> resolves_to w key v -> False.
Proof.
  intros Hu Hr. apply unresolved_spec in Hu. apply resolves_to_spec in Hr as [Hr Hn].
  rewrite Hr in Hu. congruence.
Qed.

(** ** The user token of spotify_etl2.py *)

(** X1.  [get_spotify_user_token] returns exactly the value the key
    [SPOTIFY_USER_TOKEN] resolves to (the stored value when it is not empty,
    else the environment's when that is not empty), so a returned token is
    never empty; it raises exactly when the key has no non-empty value in
    either place, and what it raises is always the token-not-found
    [ValueError]. *)
Theorem user_token_is_resolved_or_refused (w : World) :
  (forall token,
     spotify_etl2.get_spotify_user_token w = Ok token <->
     resolves_to w "SPOTIFY_USER_TOKEN" token) /\
  (forall e,
     spotify_etl2.get_spotify_user_token w = Raise e <->
     unresolved w "SPOTIFY_USER_TOKEN" /\
     e = ValueError spotify_etl2.token_not_found).
Proof.
  unfold spotify_etl2.get_spotify_user_token. cbv zeta.
  destruct (resolved_or_unresolved w "SPOTIFY_USER_TOKEN")
    as [(v & Hr & -> & Hne)|[Hu Hn]].
  - destruct (String.eqb_spec v ""); [done|]. split.
    + intros token. split; [by intros [= <-]|].
      intros Hr'. f_equal. by apply (resolves_to_unique w "SPOTIFY_USER_TOKEN").
    + intros e. split; [done|]. intros [Hu _].
      destruct (unresolved_not_resolved _ _ _ Hu Hr).
  - assert (match Variable_or_getenv w "SPOTIFY_USER_TOKEN" with
            | Some t => if String.eqb t "" then Raise (ValueError spotify_etl2.token_not_found)
                        else Ok t
            | None => Raise (ValueError spotify_etl2.token_not_found)
            end = Raise (ValueError spotify_etl2.token_not_found)) as ->.
    { destruct (Variable_or_getenv w "SPOTIFY_USER_TOKEN") as [t|]; [|done].
      simpl in Hn. by destruct (String.eqb t ""). }
    split.
    + intros token. split; [done|]. intros Hr.
      destruct (unresolved_not_resolved _ _ _ Hu Hr).
    + intros e. split; [by intros [= <-] | by intros [_ ->]].
Qed.

(** ** The stages of spotify_etl.py, each on its own *)

Lemma silent_etl_songs lib w token artist_id market :
  silent (spotify_etl.get_songs_by_artist lib w token artist_id market).
Proof. unfold spotify_etl.get_songs_by_artist. silent. Qed.

Lemma silent_etl_process_tracks tracks :
  forall acc, silent (spotify_etl.process_tracks tracks acc).
Proof.
  induction tracks as [|track rest IH]; intros acc; simpl; silent_with ltac:(apply IH).
Qed.

Lemma framed_etl_save w df path : framed (spotify_etl.save_to_csv w df path).
Proof. unfold spotify_etl.save_to_csv. framed. Qed.

(** X2.  [get_spotify_token] never raises.  It makes exactly one request, a
    POST to the token URL with the Basic header of [id:secret] and the
    client-credentials grant, and logs one record.  It returns a token
    exactly when the request was answered by an object whose
    [access_token] is truthy, and the token is that member. *)
Theorem client_token_is_the_answered_access_token lib w id secret :
  let headers :=
    [("Authorization", "Basic " +:+ b64encode lib (id +:+ ":" +:+ secret));
     ("Content-Type", "application/x-www-form-urlencoded")] in
  let data := [("grant_type", "client_credentials")] in
  exists lvl text args o,
    exec (spotify_etl.get_spotify_token lib w id secret)
      = ([HttpPost spotify_etl.token_url headers data; Log lvl text args], Ok o) /\
    forall token,
      o = Some token <->
      truthy token = true /\
      exists kvs, http_post w spotify_etl.token_url headers data = Ok (PDict kvs) /\
                  assoc "access_token" kvs = Some token.
Proof.
  cbv zeta. unfold spotify_etl.get_spotify_token. eff_unfold. cbv zeta.
  destruct (http_post w _ _ _) as [json|e] eqn:Hpost; cbn.
  - destruct json as [| | | | |kvs]; cbn;
      try (destruct e; do 4 eexists; (split; [reflexivity|]);
           intros token; split; [done | by intros (_ & ? & [= ] & _)]);
      try (do 4 eexists; (split; [reflexivity|]);
           intros token; split; [done | by intros (_ & ? & [= ] & _)]).
    destruct (assoc "access_token" kvs) as [tok|] eqn:Htok; cbn.
    + destruct (truthy tok) eqn:Htruthy; cbn.
      * do 4 eexists. split; [reflexivity|]. intros token. split.
        -- intros [= <-]. eauto.
        -- intros (_ & kvs' & [= <-] & Hk). congruence.
      * do 4 eexists. split; [reflexivity|]. intros token. split; [done|].
        intros (Ht & kvs' & [= <-] & Hk). congruence.
    + do 4 eexists. split; [reflexivity|]. intros token. split; [done|].
      intros (Ht & kvs' & [= <-] & Hk). congruence.
  - destruct e; cbn; do 4 eexists; (split; [reflexivity|]);
      intros token; (split; [done | by intros (_ & ? & [= ] & _)]).
Qed.

(** X3.  [search_for_artist] never raises.  It makes exactly one GET, to the
    search URL built from the quoted name with [type=artist&limit=1], under
    the Bearer header, and logs one record.  It returns an artist exactly
    when the answer is an object whose [artists] is an object whose [items]
    is a list that starts with an object, and the artist is that first
    element. *)
Theorem found_artist_is_the_first_item lib w token artist_name :
  let url := "https://api.spotify.com/v1/search?q=" +:+ url_quote lib artist_name
             +:+ "&type=artist&limit=1" in
  let headers := [("Authorization", "Bearer " +:+ py_str lib token)] in
  exists lvl text args o,
    exec (spotify_etl.search_for_artist lib w token artist_name)
      = ([HttpGet url headers []; Log lvl text args], Ok o) /\
    forall artist,
      o = Some artist <->
      is_dict artist = true /\
      exists kvs akvs rest,
        http_get w url headers [] = Ok (PDict kvs) /\
        assoc "artists" kvs = Some (PDict akvs) /\
        assoc "items" akvs = Some (PList (artist :: rest)).
Proof.
  cbv zeta. unfold spotify_etl.search_for_artist, spotify_etl.get_auth_header.
  eff_unfold. cbv zeta.
  destruct (http_get w _ _ _) as [json|e] eqn:Hget; cbn.
  2:{ destruct e; cbn; do 4 eexists; (split; [reflexivity|]);
      intros artist; (split; [done | by intros (_ & ? & ? & ? & [= ] & _)]). }
  assert (forall (o : option pyval) (P : pyval -> Prop),
            o = None -> (forall a, P a -> False) ->
            forall a, o = Some a <-> P a) as Hnone.
  { intros o P -> HP a. split; [done | intros Ha; by destruct (HP a Ha)]. }
  destruct json as [| | | | |kvs]; cbn;
    try (do 4 eexists; (split; [reflexivity|]); apply Hnone; [done|];
         by intros a (_ & ? & ? & ? & [= ] & _)).
  unfold default. destruct (assoc "artists" kvs) as [artists|] eqn:Hartists; cbn.
  2:{ do 4 eexists. split; [reflexivity|]. apply Hnone; [done|].
      intros a (_ & ? & ? & ? & [= <-] & ? & _). congruence. }
  destruct artists as [| | | | |akvs]; cbn;
    try (do 4 eexists; (split; [reflexivity|]); apply Hnone; [done|];
         intros a (_ & ? & ? & ? & [= <-] & ? & _); congruence).
  destruct (assoc "items" akvs) as [items|] eqn:Hitems; cbn.
  2:{ do 4 eexists. split; [reflexivity|]. apply Hnone; [done|].
      intros a (_ & ? & ? & ? & [= <-] & ? & ?). congruence. }
  assert (forall a kvs' akvs' rest,
            Ok (PDict kvs) = Ok (PDict kvs') /\
            assoc "artists" kvs' = Some (PDict akvs') /\
            assoc "items" akvs' = Some (PList (a :: rest)) ->
            items = PList (a :: rest)) as Hshape.
  { intros a kvs' akvs' rest ([= <-] & Ha & Hi). congruence. }
  destruct (truthy items) eqn:Htruthy; cbn.
  2:{ do 4 eexists. split; [reflexivity|]. apply Hnone; [done|].
      intros a (_ & ? & ? & ? & H). apply Hshape in H. by subst items. }
  destruct items as [| | |s|l|ikvs]; cbn in *; try discriminate;
    try (do 4 eexists; (split; [reflexivity|]); apply Hnone; [done|];
         intros a (_ & ? & ? & ? & H); by apply Hshape in H).
  - destruct s as [|c s]; cbn in *; [discriminate|].
    do 4 eexists. split; [reflexivity|]. apply Hnone; [done|].
    intros a (_ & ? & ? & ? & H). by apply Hshape in H.
  - destruct l as [|first_item rest]; cbn in *; [discriminate|].
    destruct first_item as [| | | | |fkvs]; cbn;
      try (do 4 eexists; (split; [reflexivity|]); apply Hnone; [done|];
           intros a (Hd & ? & ? & ? & H); apply Hshape in H;
           injection H as <- _; discriminate).
    do 4 eexists. split; [reflexivity|]. intros artist. split.
    + intros [= <-]. split; [done|]. eauto 10.
    + intros (_ & ? & ? & ? & H). apply Hshape in H. congruence.
Qed.

(** X4.  [get_songs_by_artist] never raises.  It makes exactly one GET, to
    the top-tracks URL of the artist and market, and logs one record.  What
    it returns can always be iterated: either the empty list, or the truthy
    [tracks] member of the answered object, which has a length. *)
Theorem top_tracks_are_iterable lib w token artist_id market :
  let url := "https://api.spotify.com/v1/artists/" +:+ py_str lib artist_id
             +:+ "/top-tracks?market=" +:+ market in
  let headers := [("Authorization", "Bearer " +:+ py_str lib token)] in
  exists lvl text args tracks,
    exec (spotify_etl.get_songs_by_artist lib w token artist_id market)
      = ([HttpGet url headers []; Log lvl text args], Ok tracks) /\
    (exists l, py_iter tracks = Ok l) /\
    (tracks = PList [] \/
     truthy tracks = true /\
     exists kvs, http_get w url headers [] = Ok (PDict kvs) /\
                 assoc "tracks" kvs = Some tracks).
Proof.
  cbv zeta. unfold spotify_etl.get_songs_by_artist, spotify_etl.get_auth_header.
  eff_unfold. cbv zeta.
  destruct (http_get w _ _ _) as [json|e] eqn:Hget; cbn.
  2:{ destruct e; cbn; do 4 eexists; (split; [reflexivity|]); eauto. }
  destruct json as [| | | | |kvs]; cbn;
    try (do 4 eexists; (split; [reflexivity|]); by eauto).
  unfold default. destruct (assoc "tracks" kvs) as [tracks|] eqn:Htracks; cbn.
  2:{ do 4 eexists. split; [reflexivity|]. eauto. }
  destruct (truthy tracks) eqn:Htruthy; cbn.
  2:{ do 4 eexists. split; [reflexivity|]. eauto. }
  destruct tracks; cbn in *; try discriminate;
    try (do 4 eexists; (split; [reflexivity|]); by eauto);
    do 4 eexists; (split; [reflexivity|]); eauto 10.
Qed.

(** ** Computations that emit no event of a kind *)

Lemma quiet_ret {A} p (a : A) : quiet p (mret a).
Proof. split; [apply framed_ret | done]. Qed.

Lemma quiet_lift {A} p (r : res A) : quiet p (lift r).
Proof. split; [apply framed_lift | done]. Qed.

Lemma quiet_raise {A} p (e : exn) : quiet p (raise (A := A) e).
Proof. split; [apply framed_raise | done]. Qed.

Lemma quiet_pass p : quiet p pass.
Proof. split; [apply framed_pass | done]. Qed.

Lemma quiet_emit p (e : event) : p e = false -> quiet p (emit e).
Proof. intros H. split; [apply framed_emit|]. cbn. by rewrite H. Qed.

Lemma quiet_bind {A B} p (m : Eff trace A) (f : A -> Eff trace B) :
  quiet p m -> (forall a, quiet p (f a)) -> quiet p (m ≫= f).
Proof.
  intros [Hm Wm] Hf. split.
  - apply framed_bind; [done | intros a; apply Hf].
  - unfold mbind, eff_bind. destruct (m []) as [evs [a|e]]; simpl in *; [|done].
    destruct (Hf a) as [Ha Wa]. rewrite (Ha evs). simpl.
    by rewrite List.filter_app, Wm, Wa.
Qed.

Lemma quiet_try {A} p (m : Eff trace A) (h : exn -> Eff trace A) :
  quiet p m -> (forall e, quiet p (h e)) -> quiet p (try_except m h).
Proof.
  intros [Hm Wm] Hh. split.
  - apply framed_try; [done | intros e; apply Hh].
  - unfold try_except. destruct (m []) as [evs [a|e]]; simpl in *; [done|].
    destruct (Hh e) as [He We]. rewrite (He evs). simpl.
    by rewrite List.filter_app, Wm, We.
Qed.

Ltac quiet_with leaf :=
  repeat first
    [ leaf
    | apply quiet_bind | apply quiet_try | apply quiet_ret | apply quiet_lift
    | apply quiet_raise | apply quiet_pass
    | apply quiet_emit; reflexivity
    | progress intros | progress cbv zeta | progress unfold log | case_match ].

Ltac quiet := quiet_with fail.

Lemma silent_quiet {A} (m : Eff trace A) : silent m -> quiet is_sink_event m.
Proof. intros [Hm Wm]. split; [done|]. by apply writes_no_write. Qed.

(** Runs a call met in the goal that is quiet for [p]: names what it adds
    and returns, and keeps that it adds no event of the kind. *)
Ltac stage m lem :=
  match goal with
  | |- context [m ?t] =>
      let evs := fresh "evs" in
      let r := fresh "r" in
      let E := fresh "E" in
      let W := fresh "W" in
      rewrite (proj1 lem t);
      pose proof (proj2 lem) as W;
      destruct (m []) as [evs r] eqn:E; cbn [fst snd] in W |- *;
      try change (writes evs = []) in W;
      try change (calls evs = []) in W
  end.

(** ** The three writers *)

Lemma save_to_database_result w df loc :
  let db_path := str_replace loc "sqlite:///" "" in
  exists lvl text args b,
    exec (spotify_etl2.save_to_database w df loc)
      = ([SqlAppend db_path "recently_played" df; Log lvl text args], Ok b) /\
    (b = true <-> to_sql w db_path "recently_played" df = Ok tt).
Proof.
  cbv zeta. unfold spotify_etl2.save_to_database. eff_unfold. cbv zeta.
  destruct (to_sql w _ _ df) as [[]|e]; cbn; do 4 eexists; (split; [reflexivity|]);
    split; done.
Qed.

Lemma save_to_csv_result w df path :
  exists lvl text args b,
    exec (spotify_etl.save_to_csv w df path)
      = ([CsvWrite path df; Log lvl text args], Ok b) /\
    (b = true <-> to_csv w path df = Ok tt).
Proof.
  unfold spotify_etl.save_to_csv. eff_unfold.
  destruct (to_csv w path df) as [[]|e]; cbn; do 4 eexists; (split; [reflexivity|]);
    split; done.
Qed.

Lemma save_tracks_to_csv_result w track_data path :
  exists evs b,
    exec (new.save_tracks_to_csv w track_data path) = (evs, Ok b) /\
    (import_pandas w = Ok tt -> track_data <> [] ->
     writes evs = [CsvWrite path (new.DataFrame_of_track_data track_data)] /\
     (b = true <-> to_csv w path (new.DataFrame_of_track_data track_data) = Ok tt)) /\
    (import_pandas w <> Ok tt \/ track_data = [] -> b = false /\ writes evs = []).
Proof.
  unfold new.save_tracks_to_csv. eff_unfold.
  destruct (import_pandas w) as [[]|e]; cbn.
  - destruct track_data as [|t rest]; cbn.
    + do 2 eexists. split; [reflexivity|]. split; [done|]. by intros _.
    + destruct (to_csv w path _) as [[]|e]; cbn;
        [|destruct e; cbn];
        do 2 eexists; (split; [reflexivity|]);
        (split; [by intros _ _ | by intros [?|?]]).
  - destruct e; cbn; do 2 eexists; (split; [reflexivity|]);
      (split; [by intros ? | by intros _]).
Qed.


(** ** The loops over the answered items *)

Lemma etl_process_tracks_entries tracks :
  forall acc t,
    exists evs,
      spotify_etl.process_tracks tracks acc t
        = (t ++ evs, Ok (acc ++ etl_entries tracks)) /\
      (length evs + length (etl_entries tracks) = length tracks)%nat /\
      Forall (fun e => is_log WARNING e = true) evs.
Proof.
  induction tracks as [|track rest IH]; intros acc t; simpl.
  - exists []. by rewrite !app_nil_r.
  - unfold etl_entries. simpl.
    destruct (spotify_etl.make_track_info track) as [info|e]; simpl.
    + destruct (IH (acc ++ [info]) t) as (evs & -> & Hlen & Hw).
      exists evs. rewrite <- app_assoc. split; [done|]. split; [|done].
      fold (etl_entries rest). lia.
    + eff_unfold.
      destruct (IH acc (t ++ [Log WARNING "Error processing track: {e}" [AExn e]]))
        as (evs & -> & Hlen & Hw).
      eexists (_ :: evs). rewrite <- app_assoc. split; [done|]. split.
      * fold (etl_entries rest). simpl. lia.
      * by constructor.
Qed.

Lemma new_process_items_entries items :
  forall idx acc t,
    exists evs,
      new.process_items idx items acc t
        = (t ++ evs, Ok (acc ++ new_entries idx items)) /\
      (length evs + length (new_entries idx items) = length items)%nat /\
      Forall (fun e => is_log WARNING e = true) evs.
Proof.
  induction items as [|item rest IH]; intros idx acc t; simpl.
  - exists []. by rewrite !app_nil_r.
  - destruct (new.make_track_info idx item) as [info|e]; simpl.
    + destruct (IH (S idx) (acc ++ [info]) t) as (evs & -> & Hlen & Hw).
      exists evs. rewrite <- app_assoc. split; [done|]. split; [lia|done].
    + eff_unfold.
      destruct (IH (S idx) acc
                  (t ++ [Log WARNING "Error processing track {idx + 1}: {e}"
                           [ANat (idx + 1); AExn e]]))
        as (evs & -> & Hlen & Hw).
      eexists (_ :: evs). rewrite <- app_assoc. split; [done|]. split.
      * simpl. lia.
      * by constructor.
Qed.

Lemma new_make_track_info_rank idx item info :
  new.make_track_info idx item = Ok info -> new.rank info = (idx + 1)%nat.
Proof.
  unfold new.make_track_info. intros H.
  repeat match type of H with
         | (_ ≫= _) = Ok _ => apply bind_Ok in H as (? & _ & H)
         end.
  by injection H as <-.
Qed.

Lemma new_entries_bound items :
  forall idx,
    Forall (fun info => (idx < new.rank info <= idx + length items)%nat)
      (new_entries idx items).
Proof.
  induction items as [|item rest IH]; intros idx; simpl; [constructor|].
  assert (Forall (fun info => (idx < new.rank info <= idx + S (length rest))%nat)
            (new_entries (S idx) rest)) as Hrest.
  { eapply Forall_impl; [apply IH|]. simpl. intros; lia. }
  destruct (new.make_track_info idx item) as [info|e] eqn:Hinfo; [|done].
  apply List.Forall_cons; [|done].
  apply new_make_track_info_rank in Hinfo. lia.
Qed.

Lemma new_entries_increasing items :
  forall idx i j a b,
    (i < j)%nat ->
    map new.rank (new_entries idx items) !! i = Some a ->
    map new.rank (new_entries idx items) !! j = Some b ->
    (a < b)%nat.
Proof.
  induction items as [|item rest IH]; intros idx i j a b Hij Ha Hb; simpl in *;
    [done|].
  destruct (new.make_track_info idx item) as [info|e] eqn:Hinfo;
    [|by apply (IH (S idx) i j)].
  destruct j as [|j]; [lia|]. simpl in Hb.
  destruct i as [|i]; simpl in Ha.
  - injection Ha as <-. apply new_make_track_info_rank in Hinfo.
    change (map new.rank ?l) with (new.rank <$> l) in Hb.
    apply list_lookup_fmap_Some in Hb as (info' & -> & Hlook).
    pose proof (new_entries_bound rest (S idx)) as Hbound.
    rewrite Forall_lookup in Hbound. specialize (Hbound _ _ Hlook). simpl in Hbound. lia.
  - apply (IH (S idx) i j); [lia|done..].
Qed.

(** X6.  The loop of [new.get_recently_played_tracks] never raises.  It
    keeps the entries of the items that can be read, in the order of the
    answer, after the entries it was given, and logs one warning for each
    item it drops.  The rank of an entry is the position of its item in the
    answer, counted from one, not its position among the kept entries: ranks
    are strictly increasing and bounded by the number of items. *)
Theorem ranks_are_positions_in_the_answer idx items acc :
  exists evs,
    exec (new.process_items idx items acc)
      = (evs, Ok (acc ++ new_entries idx items)) /\
    (length evs + length (new_entries idx items) = length items)%nat /\
    Forall (fun e => is_log WARNING e = true) evs /\
    Forall (fun info => (idx < new.rank info <= idx + length items)%nat)
      (new_entries idx items) /\
    forall i j a b,
      (i < j)%nat ->
      map new.rank (new_entries idx items) !! i = Some a ->
      map new.rank (new_entries idx items) !! j = Some b ->
      (a < b)%nat.
Proof.
  destruct (new_process_items_entries items idx acc []) as (evs & E & Hlen & Hw).
  exists evs. split; [exact E|]. split; [done|]. split; [done|].
  split; [apply new_entries_bound | apply new_entries_increasing].
Qed.

(** X7.  The loop of [run_spotify_etl] never raises: it keeps the entries of
    the tracks that can be read, in the order of the answer, and logs one
    warning for each track it drops, so entries and warnings add up to the
    number of tracks. *)
Theorem unreadable_tracks_are_dropped_with_a_warning tracks acc :
  exists evs,
    exec (spotify_etl.process_tracks tracks acc)
      = (evs, Ok (acc ++ etl_entries tracks)) /\
    (length evs + length (etl_entries tracks) = length tracks)%nat /\
    Forall (fun e => is_log WARNING e = true) evs.
Proof. apply (etl_process_tracks_entries tracks acc []). Qed.

(** ** Runs of spotify_etl.py *)

Ltac ends_without_write :=
  do 2 eexists; (split; [reflexivity|]); left; writes_simpl; reflexivity.

(** X8.  A run of [run_spotify_etl] writes to the sink at most once, always
    to [s3://<bucket>/<path>] of the configured bucket and path.  It returns
    a summary exactly when that write succeeded: the summary then counts the
    rows of the written frame, which are at least one, and names the path.
    When it raises, either nothing was written, or the one write failed and
    the exception is the failed-to-save one. *)
Theorem etl_summary_iff_csv_written lib w ctx :
  let path := "s3://" +:+ Variable_get_default w "SPOTIFY_OUTPUT_BUCKET" "default-bucket"
              +:+ "/" +:+ Variable_get_default w "SPOTIFY_OUTPUT_PATH" "songs.csv" in
  exists evs r,
    exec (spotify_etl.run_spotify_etl lib w ctx) = (evs, r) /\
    match r with
    | Ok s =>
        exists df,
          writes evs = [CsvWrite path df] /\
          to_csv w path df = Ok tt /\
          (0 < df_len df)%nat /\
          summary_get "tracks_processed" s = Some (SNat (df_len df)) /\
          summary_get "output_path" s = Some (SStr path)
    | Raise e =>
        writes evs = [] \/
        exists df e',
          writes evs = [CsvWrite path df] /\
          to_csv w path df = Raise e' /\
          e = Exception "Failed to save data to CSV"
    end.
Proof.
  cbv zeta. unfold spotify_etl.run_spotify_etl. eff_unfold. cbv zeta. cbn [app].
  stage (spotify_etl.get_spotify_credentials w)
        (silent_quiet _ (silent_etl_credentials w)).
  destruct r as [c|e]; [|ends_without_write].
  stage (spotify_etl.get_spotify_token lib w (spotify_etl.client_id c)
           (spotify_etl.client_secret c))
        (silent_quiet _ (silent_etl_token lib w (spotify_etl.client_id c)
                           (spotify_etl.client_secret c))).
  destruct r as [[token|]|e]; [|ends_without_write..].
  stage (spotify_etl.search_for_artist lib w token
           (Variable_get_default w "SPOTIFY_ARTIST_NAME" "Ed Sheeran"))
        (silent_quiet _ (silent_etl_search lib w token
           (Variable_get_default w "SPOTIFY_ARTIST_NAME" "Ed Sheeran"))).
  destruct r as [[artist|]|e]; [|ends_without_write..].
  destruct (truthy artist); cbn [negb]; [|ends_without_write].
  destruct (py_getitem artist "id") as [artist_id|e]; [|ends_without_write].
  stage (spotify_etl.get_songs_by_artist lib w token artist_id
           (Variable_get_default w "SPOTIFY_MARKET" "US"))
        (silent_quiet _ (silent_etl_songs lib w token artist_id
           (Variable_get_default w "SPOTIFY_MARKET" "US"))).
  destruct r as [tracks|e]; [|ends_without_write].
  destruct (truthy tracks); cbn [negb]; [|ends_without_write].
  destruct (py_iter tracks) as [l|e]; [|ends_without_write].
  stage (spotify_etl.process_tracks l [])
        (silent_quiet _ (silent_etl_process_tracks l [])).
  destruct r as [[|info rest]|e]; [ends_without_write| |ends_without_write].
  match goal with
  | |- context [res_bind ?A ?B ?f ?x] => destruct (res_bind A B f x) as [mean|e]
  end; [|ends_without_write].
  match goal with
  | |- context [spotify_etl.save_to_csv w ?df ?path ?t] =>
      rewrite (framed_etl_save w df path t);
      destruct (save_to_csv_result w df path) as (lvl & text & args & b & Esave & Hb);
      unfold exec in Esave; rewrite Esave; clear Esave; cbn [fst snd negb]
  end.
  destruct b; cbn [negb].
  - do 2 eexists. split; [reflexivity|]. eexists. split; [|split; [|split]].
    + writes_simpl. reflexivity.
    + by apply Hb.
    + cbn. lia.
    + split; reflexivity.
  - do 2 eexists. split; [reflexivity|].
    right. destruct (to_csv w _ _) as [[]|e'] eqn:Hcsv; [by destruct Hb as [_ Hb]; specialize (Hb eq_refl)|].
    do 2 eexists. split; [|split; [exact Hcsv|reflexivity]].
    writes_simpl. reflexivity.
Qed.

(** ** Runs of spotify_etl.py that stop early *)

Lemma etl_credentials_make_no_call w :
  quiet is_api_call (spotify_etl.get_spotify_credentials w).
Proof. unfold spotify_etl.get_spotify_credentials. quiet. Qed.

Lemma etl_token_calls lib w id secret :
  calls (exec (spotify_etl.get_spotify_token lib w id secret)).1
    = [HttpPost spotify_etl.token_url
         [("Authorization", "Basic " +:+ b64encode lib (id +:+ ":" +:+ secret));
          ("Content-Type", "application/x-www-form-urlencoded")]
         [("grant_type", "client_credentials")]].
Proof.
  unfold spotify_etl.get_spotify_token. eff_unfold. cbv zeta.
  repeat case_inner; reflexivity.
Qed.

Lemma calls_app t1 t2 : calls (t1 ++ t2) = calls t1 ++ calls t2.
Proof. apply List.filter_app. Qed.

Lemma calls_cons e t :
  calls (e :: t) = (if is_api_call e then [e] else []) ++ calls t.
Proof. unfold calls. simpl. by destruct (is_api_call e). Qed.

Ltac calls_simpl :=
  cbn [fst snd]; repeat (rewrite calls_app || rewrite calls_cons);
  repeat match goal with W : calls _ = _ |- _ => rewrite W; clear W end;
  cbn [calls List.filter is_api_call app].

(** X9.  When the credentials resolve but [get_spotify_token] returns no
    token, [run_spotify_etl] raises "Failed to obtain Spotify access token".
    The token request is the only request of the run: no search is made,
    and nothing is written. *)
Theorem no_token_stops_before_the_search lib w ctx evs1 c :
  exec (spotify_etl.get_spotify_credentials w) = (evs1, Ok c) ->
  (exec (spotify_etl.get_spotify_token lib w (spotify_etl.client_id c)
           (spotify_etl.client_secret c))).2 = Ok None ->
  exists evs,
    exec (spotify_etl.run_spotify_etl lib w ctx)
      = (evs, Raise (Exception "Failed to obtain Spotify access token")) /\
    calls evs
      = [HttpPost spotify_etl.token_url
           [("Authorization",
             "Basic " +:+ b64encode lib (spotify_etl.client_id c +:+ ":"
                                         +:+ spotify_etl.client_secret c));
            ("Content-Type", "application/x-www-form-urlencoded")]
           [("grant_type", "client_credentials")]] /\
    writes evs = [] /\
    last evs = Some (Log ERROR "Spotify ETL failed: {e}"
                       [AExn (Exception "Failed to obtain Spotify access token")]).
Proof.
  intros Hcred Htoken.
  pose proof (etl_token_calls lib w (spotify_etl.client_id c)
                (spotify_etl.client_secret c)) as Hcalls.
  pose proof (proj2 (silent_quiet _ (silent_etl_token lib w (spotify_etl.client_id c)
                (spotify_etl.client_secret c)))) as Hw.
  pose proof (proj2 (etl_credentials_make_no_call w)) as Hc1.
  pose proof (proj2 (silent_quiet _ (silent_etl_credentials w))) as Hw1.
  unfold spotify_etl.run_spotify_etl. eff_unfold. cbv zeta. cbn [app].
  unfold exec in *.
  rewrite (silent_framed _ (silent_etl_credentials w) _), Hcred in *.
  cbn [fst snd] in *.
  rewrite (silent_framed _ (silent_etl_token lib w (spotify_etl.client_id c)
                              (spotify_etl.client_secret c)) _).
  destruct (spotify_etl.get_spotify_token lib w _ _ []) as [evs2 r2].
  cbn [fst snd] in *. subst r2.
  eexists. split; [reflexivity|].
  change (List.filter is_api_call evs1 = []) with (calls evs1 = []) in Hc1.
  change (List.filter is_sink_event evs1 = []) with (writes evs1 = []) in Hw1.
  change (List.filter is_sink_event evs2 = []) with (writes evs2 = []) in Hw.
  split; [|split].
  - calls_simpl. reflexivity.
  - writes_simpl. reflexivity.
  - by rewrite last_snoc.
Qed.

(** Runs a stage whose result is given by [H]. *)
Ltac stage_known m lem H :=
  stage m lem; unfold exec in H;
  match goal with E : m [] = _ |- _ => rewrite E in H; clear E end;
  cbn [fst snd] in H; subst.

(** X10.  When the top-tracks stage gives nothing to work on,
    [run_spotify_etl] raises before it writes: "No tracks found for artist
    '<name>'" when what [get_songs_by_artist] returned is empty, and "No
    valid track data processed" when every track of a non-empty answer was
    dropped as unreadable. *)
Theorem no_usable_track_stops_before_the_write
    lib w ctx c token artist artist_id tracks :
  let name := Variable_get_default w "SPOTIFY_ARTIST_NAME" "Ed Sheeran" in
  let market := Variable_get_default w "SPOTIFY_MARKET" "US" in
  (exec (spotify_etl.get_spotify_credentials w)).2 = Ok c ->
  (exec (spotify_etl.get_spotify_token lib w (spotify_etl.client_id c)
           (spotify_etl.client_secret c))).2 = Ok (Some token) ->
  (exec (spotify_etl.search_for_artist lib w token name)).2 = Ok (Some artist) ->
  truthy artist = true ->
  py_getitem artist "id" = Ok artist_id ->
  (exec (spotify_etl.get_songs_by_artist lib w token artist_id market)).2 = Ok tracks ->
  (truthy tracks = false \/
   exists l, py_iter tracks = Ok l /\ etl_entries l = []) ->
  exists evs,
    exec (spotify_etl.run_spotify_etl lib w ctx)
      = (evs, Raise (Exception
                       (if truthy tracks then "No valid track data processed"
                        else "No tracks found for artist '" +:+ name +:+ "'"))) /\
    writes evs = [].
Proof.
  cbv zeta. intros Hcred Htoken Hsearch Hartist Hid Hsongs Hnone.
  unfold spotify_etl.run_spotify_etl. eff_unfold. cbv zeta. cbn [app].
  stage_known (spotify_etl.get_spotify_credentials w)
    (silent_quiet _ (silent_etl_credentials w)) Hcred.
  stage_known (spotify_etl.get_spotify_token lib w (spotify_etl.client_id c)
                 (spotify_etl.client_secret c))
    (silent_quiet _ (silent_etl_token lib w (spotify_etl.client_id c)
                       (spotify_etl.client_secret c))) Htoken.
  stage_known (spotify_etl.search_for_artist lib w token
                 (Variable_get_default w "SPOTIFY_ARTIST_NAME" "Ed Sheeran"))
    (silent_quiet _ (silent_etl_search lib w token
                       (Variable_get_default w "SPOTIFY_ARTIST_NAME" "Ed Sheeran")))
    Hsearch.
  rewrite Hartist, Hid. cbn [negb].
  stage_known (spotify_etl.get_songs_by_artist lib w token artist_id
                 (Variable_get_default w "SPOTIFY_MARKET" "US"))
    (silent_quiet _ (silent_etl_songs lib w token artist_id
                       (Variable_get_default w "SPOTIFY_MARKET" "US"))) Hsongs.
  destruct (truthy tracks) eqn:Htruthy; cbn [negb].
  - destruct Hnone as [|(l & Hl & Hentries)]; [done|]. rewrite Hl.
    match goal with
    | |- context [spotify_etl.process_tracks l [] ?t] =>
        destruct (etl_process_tracks_entries l [] t) as (warnings & -> & _ & Hw)
    end.
    rewrite Hentries. cbn [app].
    assert (writes warnings = []) as W3.
    { clear -Hw. induction Hw as [|e l' He _ IH]; [done|].
      destruct e; try done. }
    eexists. split; [reflexivity|]. writes_simpl. reflexivity.
  - eexists. split; [reflexivity|]. writes_simpl. reflexivity.
Qed.

(** ** What a failed run leaves in the log *)

Lemma reraise_logs_last {A} (m : Eff trace A) text t evs e :
  try_except m (fun e => log ERROR text [AExn e];; raise e) t = (evs, Raise e) ->
  last evs = Some (Log ERROR text [AExn e]).
Proof.
  eff_unfold. destruct (m t) as [t' [a|e']]; [done|].
  intros [= <- <-]. by rewrite last_snoc.
Qed.

(** X11.  Each of the three runs that raises has logged the exception it
    raises, as the last record of its log, under the failure message of its
    own task. *)
Theorem failed_run_ends_with_its_error_record lib w ctx evs e :
  (exec (spotify_etl.run_spotify_etl lib w ctx) = (evs, Raise e) ->
   last evs = Some (Log ERROR "Spotify ETL failed: {e}" [AExn e])) /\
  (exec (spotify_etl2.run_spotify_recently_played_etl lib w ctx) = (evs, Raise e) ->
   last evs = Some (Log ERROR "Spotify recently played ETL failed: {e}" [AExn e])) /\
  (exec (new.run_spotify_recently_played_analysis lib w ctx) = (evs, Raise e) ->
   last evs = Some (Log ERROR "Spotify recently played analysis failed: {e}"
                      [AExn e])).
Proof.
  split; [|split]; intros H; by apply reraise_logs_last in H.
Qed.

(** ** The stages of spotify_etl2.py, each on its own *)

(** X12.  [spotify_etl2.get_recently_played_tracks] never raises.  It makes
    exactly one GET to the recently-played URL, asking for the plays after
    yesterday's time in milliseconds, and logs one record.  It returns the
    answer, unchanged, exactly when the request was answered by an object
    whose [items] (the empty list when absent) has a length; otherwise it
    returns [None]. *)
Theorem recently_played_answer_is_passed_on w token limit :
  let headers := spotify_etl2.request_headers token in
  let params := [("after", yesterday_timestamp w * 1000);
                 ("limit", Z.min limit 50)] in
  exists lvl text args o,
    exec (spotify_etl2.get_recently_played_tracks w token limit)
      = ([HttpGet spotify_etl2.recently_played_url headers params;
          Log lvl text args], Ok o) /\
    forall data,
      o = Some data <->
      http_get w spotify_etl2.recently_played_url headers params = Ok data /\
      exists kvs n, data = PDict kvs /\
                    py_len (field kvs "items" (PList [])) = Ok n.
Proof.
  cbv zeta. unfold spotify_etl2.get_recently_played_tracks. eff_unfold. cbv zeta.
  destruct (http_get w _ _ _) as [json|e] eqn:Hget; cbn.
  2:{ destruct e; cbn; do 4 eexists; (split; [reflexivity|]);
      intros data; (split; [done | by intros [[= ] _]]). }
  destruct json as [| | | | |kvs]; cbn;
    try (do 4 eexists; (split; [reflexivity|]);
         intros data; split; [done | by intros [[= <-] (? & ? & [= ] & _)]]).
  fold (field kvs "items" (PList [])).
  destruct (py_len (field kvs "items" (PList []))) as [n|e] eqn:Hlen; cbn.
  - do 4 eexists. split; [reflexivity|]. intros data. split.
    + intros [= <-]. eauto.
    + by intros [[= <-] _].
  - destruct e; cbn; do 4 eexists; (split; [reflexivity|]); intros data;
      (split; [done | intros [[= <-] (? & ? & [= <-] & ?)]; congruence]).
Qed.

(** The frame [process_tracks_data] returns has the eight columns of the
    source, in its order, all as long as the frame. *)
Lemma etl2_frame_columns data evs df :
  exec (spotify_etl2.process_tracks_data data) = (evs, Ok df) ->
  exists c,
    df = spotify_etl2.song_dict c /\
    Forall (fun kc => length kc.2 = df_len df) df.
Proof.
  unfold exec, spotify_etl2.process_tracks_data, DataFrame_of_dict.
  intros H. run_eff.
  destruct (match py_get data "items" _ with Ok _ => _ | Raise _ => _ end)
    as [items|]; [|done].
  destruct (spotify_etl2.process_items _ _ _) as [t [c|]]; [|done].
  destruct (_ && _) eqn:Hlen; simplify_eq/=.
  exists c. split; [done|].
  repeat (apply andb_prop in Hlen as [?%Nat.eqb_eq Hlen]).
  repeat constructor; simpl; done.
Qed.

(** X13.  A frame [process_tracks_data] returns has exactly the eight
    columns [song_name], [artist_name], [played_at], [timestamp],
    [track_id], [album_name], [duration_ms], [popularity], in this order,
    each with as many cells as the frame has rows; so the columns the run
    reads afterwards are always there. *)
Theorem built_frame_has_eight_full_columns data evs df :
  exec (spotify_etl2.process_tracks_data data) = (evs, Ok df) ->
  map fst df = ["song_name"; "artist_name"; "played_at"; "timestamp";
                "track_id"; "album_name"; "duration_ms"; "popularity"] /\
  Forall (fun kc => length kc.2 = df_len df) df /\
  (exists col, df_getitem df "artist_name" = Ok col /\ length col = df_len df) /\
  (exists col, df_getitem df "timestamp" = Ok col /\ length col = df_len df).
Proof.
  intros H. destruct (etl2_frame_columns _ _ _ H) as (c & -> & Hall).
  split; [done|]. split; [done|].
  repeat (apply Forall_cons in Hall as [? Hall]). simpl in *.
  split; eexists; (split; [reflexivity|]); done.
Qed.

(** ** Rows that break off half way *)

(** An item of which [process_item] makes a whole row is a complete one. *)
Lemma process_item_returns item c :
  (spotify_etl2.process_item item c).2 = Ok tt -> complete_item item = true.
Proof.
  rewrite process_item_cat. cbn [snd].
  destruct item as [| | | | |ikvs]; try done.
  unfold complete_item, spotify_etl2.process_item. run_eff.
  fold (field ikvs "track" (PDict [])).
  destruct (field ikvs "track" (PDict [])) as [| | | | |tkvs] eqn:Htrack; try done.
  simpl.
  fold (field tkvs "artists" (PList [])) (field ikvs "played_at" (PStr ""))
       (field tkvs "album" (PDict [])) (field tkvs "name" (PStr "Unknown"))
       (field tkvs "id" (PStr "")) (field tkvs "duration_ms" (PInt 0))
       (field tkvs "popularity" (PInt 0)).
  unfold artists_ok, played_at_ok, is_dict.
  destruct (field tkvs "artists" (PList [])) as [|[]|n|s|[|[] ?]|[|]];
    destruct (field ikvs "played_at" (PStr "")) as [|[]|m|s'|[|]|[|]];
    destruct (field tkvs "album" (PDict [])) as [| | | | |akvs];
    simpl; try done;
    repeat match goal with
           | |- context [(?n =? 0)%Z] => destruct (n =? 0)%Z; simpl
           | |- context [String.eqb ?s ""] => destruct s; simpl
           end; done.
Qed.

(** An item that is neither complete nor unusable appends a song name and
    no popularity. *)
Lemma process_item_partial item :
  complete_item item = false -> unusable_item item = false ->
  exists d e,
    spotify_etl2.process_item item spotify_etl2.no_columns = (d, Raise e) /\
    length (spotify_etl2.song_names d) = 1%nat /\
    spotify_etl2.popularities d = [].
Proof.
  intros Hc Hu.
  pose proof (process_item_returns item spotify_etl2.no_columns) as Hret.
  destruct item as [| | | | |ikvs]; try done.
  unfold unusable_item in Hu.
  unfold spotify_etl2.process_item in *. run_eff.
  fold (field ikvs "track" (PDict [])) in *.
  destruct (field ikvs "track" (PDict [])) as [| | | | |tkvs] eqn:Htrack; try done.
  simpl in *.
  repeat case_inner; simpl in *;
    try (by do 2 eexists);
    by (rewrite Hret in Hc).
Qed.

Lemma cells_of_counts items :
  length (spotify_etl2.song_names (cells_of items))
    = length (List.filter (fun i => negb (unusable_item i)) items) /\
  length (spotify_etl2.popularities (cells_of items))
    = length (List.filter complete_item items).
Proof.
  induction items as [|item rest [IHs IHp]]; [done|].
  cbn [cells_of List.filter].
  destruct (complete_item item) eqn:Hc.
  - rewrite (process_item_complete item _ Hc). cbn [fst].
    assert (unusable_item item = false) as ->.
    { destruct item as [| | | | |ikvs]; try done. simpl in *.
      by destruct (field ikvs "track" (PDict [])). }
    simpl. rewrite ?length_app, IHs, IHp. simpl. lia.
  - destruct (unusable_item item) eqn:Hu.
    + rewrite (process_item_unusable item _ Hu). cbn [fst negb].
      by rewrite cat_no_columns_l.
    + destruct (process_item_partial item Hc Hu) as (d & e & -> & Hs & Hp).
      cbn [fst negb]. simpl. rewrite ?length_app, ?Hs, ?Hp, IHs, IHp. simpl. lia.
Qed.

Lemma filter_length_le {A} (p q : A -> bool) l :
  (forall x, p x = true -> q x = true) ->
  (length (List.filter p l) <= length (List.filter q l))%nat.
Proof.
  intros Hpq. induction l as [|x l IH]; simpl; [lia|].
  destruct (p x) eqn:Hp.
  - rewrite (Hpq x Hp). simpl. lia.
  - destruct (q x); simpl; lia.
Qed.

Lemma filter_length_lt {A} (p q : A -> bool) l :
  (forall x, p x = true -> q x = true) ->
  Exists (fun x => p x = false /\ q x = true) l ->
  (length (List.filter p l) < length (List.filter q l))%nat.
Proof.
  intros Hpq. induction 1 as [x l [Hp Hq]|x l _ IH]; simpl.
  - rewrite Hp, Hq. simpl. pose proof (filter_length_le p q l Hpq). lia.
  - destruct (p x) eqn:Hp.
    + rewrite (Hpq x Hp). simpl. lia.
    + destruct (q x); simpl; lia.
Qed.

Lemma complete_not_unusable item :
  complete_item item = true -> negb (unusable_item item) = true.
Proof.
  destruct item as [| | | | |ikvs]; try done. simpl.
  by destruct (field ikvs "track" (PDict [])).
Qed.

(** What [process_tracks_data] does with an answer whose items can be
    iterated. *)
Lemma process_tracks_data_result dkvs items :
  py_iter (field dkvs "items" (PList [])) = Ok items ->
  let r := (exec (spotify_etl2.process_tracks_data (PDict dkvs))).2 in
  let whole := Forall (fun i => complete_item i || unusable_item i = true) items in
  (whole -> r = Ok (spotify_etl2.song_dict (rows_of items))) /\
  (~ whole -> r = Raise (ValueError "All arrays must be of the same length")).
Proof.
  intros Hitems. cbv zeta.
  unfold exec, spotify_etl2.process_tracks_data. eff_unfold. cbn [py_get].
  fold (field dkvs "items" (PList [])). unfold res_bind at 1 2. rewrite Hitems.
  split.
  - intros Hall.
    destruct (etl2_process_items_clean items spotify_etl2.no_columns [] Hall)
      as (logs & -> & _).
    rewrite cat_no_columns_l. unfold DataFrame_of_dict, spotify_etl2.song_dict.
    pose proof (rows_of_lengths items) as Hlen. cbv zeta in Hlen.
    destruct Hlen as (H1 & H2 & H3 & H4 & H5 & H6 & H7).
    cbn [forallb snd]. rewrite H1, H2, H3, H4, H5, H6, H7, !Nat.eqb_refl. done.
  - intros Hnot.
    pose proof (process_items_cells items spotify_etl2.no_columns []) as Hc.
    rewrite cat_no_columns_l in Hc.
    destruct (spotify_etl2.process_items items spotify_etl2.no_columns [])
      as [t [c|e]]; [|done]. cbn [snd] in Hc. injection Hc as ->.
    pose proof (cells_of_counts items) as [Hs Hp].
    assert (length (spotify_etl2.popularities (cells_of items))
            < length (spotify_etl2.song_names (cells_of items)))%nat as Hlt.
    { rewrite Hs, Hp. apply filter_length_lt; [apply complete_not_unusable|].
      apply not_Forall_Exists in Hnot; [|intros x; apply _].
      eapply Exists_impl; [exact Hnot|]. simpl. intros x Hx.
      destruct (complete_item x), (unusable_item x); simpl in *; done. }
    unfold DataFrame_of_dict, spotify_etl2.song_dict. cbn [forallb snd].
    assert ((length (spotify_etl2.popularities (cells_of items))
             =? length (spotify_etl2.song_names (cells_of items)))%nat = false) as ->.
    { apply Nat.eqb_neq. lia. }
    rewrite !andb_false_r. done.
Qed.

(** X14.  For an answer whose [items] can be iterated,
    [process_tracks_data] returns a frame exactly when every item is either
    complete or unusable (no object, or a [track] that is no object), and
    the frame is then that of the complete items.  An item that fails after
    its song name was appended, such as one whose [album] is null, leaves
    the lists of unequal length: the frame cannot be built and the function
    raises the [ValueError] of [pd.DataFrame], its only exception on such an
    answer. *)
Theorem frame_is_built_iff_no_row_breaks_off dkvs items :
  py_iter (field dkvs "items" (PList [])) = Ok items ->
  let r := (exec (spotify_etl2.process_tracks_data (PDict dkvs))).2 in
  let whole := Forall (fun i => complete_item i || unusable_item i = true) items in
  (whole -> r = Ok (spotify_etl2.song_dict (rows_of items))) /\
  (~ whole -> r = Raise (ValueError "All arrays must be of the same length")).
Proof. apply process_tracks_data_result. Qed.

Lemma rows_of_timestamps items :
  spotify_etl2.timestamps (rows_of items)
    = map date_part (spotify_etl2.played_at_list (rows_of items)).
Proof.
  induction items as [|item rest IH]; [done|]. simpl.
  destruct (complete_item item); [|done]. simpl. by rewrite IH.
Qed.

(** X26.  In every frame [process_tracks_data] returns, the [timestamp]
    column is, cell by cell, the date part of the [played_at] column: its
    first ten characters (or elements), and the empty text where
    [played_at] is falsy. *)
Theorem timestamp_is_the_date_part_of_played_at data evs df :
  exec (spotify_etl2.process_tracks_data data) = (evs, Ok df) ->
  exists played,
    df_column "played_at" df = Some played /\
    df_column "timestamp" df = Some (map date_part played).
Proof.
  intros H.
  assert (exists dkvs, data = PDict dkvs) as [dkvs ->].
  { destruct data; eauto; by vm_compute in H. }
  destruct (py_iter (field dkvs "items" (PList []))) as [items|e] eqn:Hitems.
  2:{ exfalso. revert H. unfold exec, spotify_etl2.process_tracks_data.
      eff_unfold. cbn [py_get]. fold (field dkvs "items" (PList [])).
      unfold res_bind. by rewrite Hitems. }
  destruct (process_tracks_data_result dkvs items Hitems) as [Hwhole Hbroken].
  apply (f_equal snd) in H. cbn [snd] in H.
  destruct (decide (Forall (fun i => complete_item i || unusable_item i = true) items))
    as [Hall|Hnot].
  - rewrite (Hwhole Hall) in H. injection H as <-.
    eexists. split; [reflexivity|]. simpl. by rewrite rows_of_timestamps.
  - rewrite (Hbroken Hnot) in H. done.
Qed.

(** ** Runs of spotify_etl2.py *)

Lemma check_if_valid_data_result w df :
  exists evs r,
    exec (spotify_etl2.check_if_valid_data w df) = (evs, r) /\
    match r with
    | Ok b => b = negb (df_empty df)
    | Raise e =>
        df_empty df = false /\ evs = [] /\
        (e = spotify_etl2.primary_key_violation \/ e = TypeError)
    end.
Proof.
  unfold spotify_etl2.check_if_valid_data.
  destruct (df_empty df); [do 2 eexists; split; [reflexivity|done]|].
  eff_unfold.
  destruct (df_column "played_at" df) as [col|].
  - unfold is_unique, mbind, res_bind, mret, res_ret.
    destruct (hash_keys col) as [ks|e] eqn:Hks.
    + destruct (bool_decide (NoDup ks)); cbn;
        [|do 2 eexists; split; [reflexivity|cbn; by eauto 6]].
      repeat case_inner; do 2 eexists; (split; [reflexivity|done]).
    + apply hash_keys_raise in Hks as [-> _].
      do 2 eexists. split; [reflexivity|cbn; by eauto 6].
  - repeat case_inner; do 2 eexists; (split; [reflexivity|done]).
Qed.

Lemma etl2_get_quiet p w token limit :
  (forall url headers params, p (HttpGet url headers params) = false) ->
  (forall lvl text a, p (Log lvl text [a]) = false) ->
  quiet p (spotify_etl2.get_recently_played_tracks w token limit).
Proof.
  intros Hget Hlog. unfold spotify_etl2.get_recently_played_tracks.
  quiet_with ltac:(first [apply quiet_emit; first [apply Hget | apply Hlog]]).
Qed.

Lemma etl2_process_items_quiet p items :
  (forall lvl text a, p (Log lvl text [a]) = false) ->
  forall c, quiet p (spotify_etl2.process_items items c).
Proof.
  intros Hlog. induction items as [|item rest IH]; intros c; simpl;
    quiet_with ltac:(first [apply IH | apply quiet_emit; apply Hlog]).
Qed.

Lemma etl2_process_quiet p data :
  (forall lvl text a, p (Log lvl text [a]) = false) ->
  quiet p (spotify_etl2.process_tracks_data data).
Proof.
  intros Hlog. unfold spotify_etl2.process_tracks_data.
  quiet_with ltac:(first [apply etl2_process_items_quiet; exact Hlog
                         | apply quiet_emit; apply Hlog]).
Qed.

Lemma etl2_check_quiet p w df :
  (forall lvl text a, p (Log lvl text [a]) = false) ->
  p (Log WARNING "No songs downloaded. Finishing execution" []) = false ->
  p (Log WARNING "Null values found in data" []) = false ->
  quiet p (spotify_etl2.check_if_valid_data w df).
Proof.
  intros Hlog H1 H2. unfold spotify_etl2.check_if_valid_data.
  quiet_with ltac:(first [apply quiet_emit; first [apply Hlog | exact H1 | exact H2]]).
Qed.

Lemma etl2_save_quiet p w df loc :
  (forall db table df, p (SqlAppend db table df) = false) ->
  (forall lvl text a, p (Log lvl text [a]) = false) ->
  quiet p (spotify_etl2.save_to_database w df loc).
Proof.
  intros Hsql Hlog. unfold spotify_etl2.save_to_database.
  quiet_with ltac:(first [apply quiet_emit; first [apply Hsql | apply Hlog]]).
Qed.

Lemma filter_nil_not_elem {A} (p : A -> bool) l x :
  List.filter p l = [] -> p x = true -> x ∉ l.
Proof.
  intros Hnil Hp Hin. apply list_elem_of_In in Hin.
  assert (In x (List.filter p l)) as H by (apply List.filter_In; done).
  by rewrite Hnil in H.
Qed.

Ltac filter_simpl :=
  cbn [fst snd]; rewrite ?List.filter_app;
  repeat match goal with W : List.filter _ _ = [] |- _ => rewrite W; clear W end;
  reflexivity.

Lemma etl2_run_never_warns_of_validation lib w ctx :
  List.filter is_validation_warning
    (exec (spotify_etl2.run_spotify_recently_played_etl lib w ctx)).1 = [].
Proof.
  assert (forall lvl text a, is_validation_warning (Log lvl text [a]) = false)
    as Hlog by (by intros [] ? ?).
  unfold spotify_etl2.run_spotify_recently_played_etl. eff_unfold. cbv zeta.
  destruct (py_int lib _) as [limit|e]; [|reflexivity].
  destruct (spotify_etl2.get_spotify_user_token w) as [token|e]; [|reflexivity].
  stage (spotify_etl2.get_recently_played_tracks w token limit)
        (etl2_get_quiet is_validation_warning w token limit
           ltac:(done) Hlog).
  destruct r as [[data|]|e]; [|filter_simpl..].
  destruct (truthy data); cbn [negb]; [|filter_simpl].
  stage (spotify_etl2.process_tracks_data data)
        (etl2_process_quiet is_validation_warning data Hlog).
  destruct r as [df|e]; [|filter_simpl].
  destruct (df_empty df) eqn:Hempty; [filter_simpl|].
  destruct (check_if_valid_data_result w df) as (evs' & r' & Hcheck & Hres).
  stage (spotify_etl2.check_if_valid_data w df)
        (etl2_check_quiet is_validation_warning w df Hlog
           ltac:(reflexivity) ltac:(reflexivity)).
  unfold exec in Hcheck.
  match goal with
  | Hc : spotify_etl2.check_if_valid_data w df [] = _ |- _ => rewrite Hc in Hcheck
  end.
  injection Hcheck as <- <-.
  destruct r as [valid|e]; [|filter_simpl].
  rewrite Hempty in Hres. subst valid. cbn [negb]. cbv beta iota.
  stage (spotify_etl2.save_to_database w df spotify_etl2.DATABASE_LOCATION)
        (etl2_save_quiet is_validation_warning w df spotify_etl2.DATABASE_LOCATION
           ltac:(done) Hlog).
  destruct r as [[]|e]; cbn [negb]; [|filter_simpl..].
  repeat case_inner; filter_simpl.
Qed.

(** X15.  [check_if_valid_data] returns [False] for an empty frame only:
    for a frame with rows it returns [True] or raises, and what it raises,
    before it logs anything, is the primary-key violation or the
    [TypeError] of a [played_at] cell that cannot be hashed.  As
    [run_spotify_recently_played_etl] validates only frames with rows, its
    warning "Data validation failed, but continuing" is never logged. *)
Theorem validation_fails_only_by_raising :
  (forall w df,
     exists evs r,
       exec (spotify_etl2.check_if_valid_data w df) = (evs, r) /\
       match r with
       | Ok b => b = negb (df_empty df)
       | Raise e =>
           df_empty df = false /\ evs = [] /\
           (e = spotify_etl2.primary_key_violation \/ e = TypeError)
       end) /\
  (forall lib w ctx,
     Log WARNING "Data validation failed, but continuing" []
       ∉ (exec (spotify_etl2.run_spotify_recently_played_etl lib w ctx)).1).
Proof.
  split.
  - apply check_if_valid_data_result.
  - intros lib w ctx.
    apply (filter_nil_not_elem is_validation_warning);
      [apply etl2_run_never_warns_of_validation | reflexivity].
Qed.

Lemma nunique_raises col e : nunique col = Raise e -> e = TypeError.
Proof.
  unfold nunique, mbind, res_bind. destruct (hash_keys col) eqn:Hk; [done|].
  intros [= <-]. by apply hash_keys_raise in Hk as [-> _].
Qed.

(** X16.  A run of [run_spotify_recently_played_etl] appends to the
    database at most once, to table [recently_played] of
    [my_played_tracks.sqlite], and only a frame with rows.  A returned
    summary is either the no-data one, with nothing written, or a success
    one, after an append that succeeded, counting the rows of the appended
    frame.  When the run raises, either nothing was written, or the append
    failed and the exception is the failed-to-save one, or the append
    succeeded and building the summary raised [TypeError] on cells that
    cannot be hashed or ordered: the rows of such a failed run are in the
    database. *)
Theorem etl2_run_appends_at_most_once lib w ctx :
  let db := "my_played_tracks.sqlite" in
  exists evs r,
    exec (spotify_etl2.run_spotify_recently_played_etl lib w ctx) = (evs, r) /\
    match r with
    | Ok s =>
        (s = spotify_etl2.no_data_summary /\ writes evs = []) \/
        (exists df,
           writes evs = [SqlAppend db "recently_played" df] /\
           to_sql w db "recently_played" df = Ok tt /\
           (0 < df_len df)%nat /\
           summary_get "tracks_processed" s = Some (SNat (df_len df)) /\
           summary_get "status" s = Some (SStr "success"))
    | Raise e =>
        writes evs = [] \/
        (exists df,
           writes evs = [SqlAppend db "recently_played" df] /\
           df_empty df = false /\
           ((exists e', to_sql w db "recently_played" df = Raise e' /\
                        e = Exception "Failed to save data to database") \/
            (to_sql w db "recently_played" df = Ok tt /\ e = TypeError)))
    end.
Proof.
  cbv zeta. unfold spotify_etl2.run_spotify_recently_played_etl. eff_unfold.
  cbv zeta. cbn [app].
  destruct (py_int lib _) as [limit|e]; [|ends_without_write].
  destruct (spotify_etl2.get_spotify_user_token w) as [token|e];
    [|ends_without_write].
  stage (spotify_etl2.get_recently_played_tracks w token limit)
        (silent_quiet _ (silent_etl2_get w token limit)).
  destruct r as [[data|]|e]; [|ends_without_write..].
  destruct (truthy data); cbn [negb]; [|ends_without_write].
  stage (spotify_etl2.process_tracks_data data)
        (silent_quiet _ (silent_etl2_process data)).
  destruct r as [df|e]; [|ends_without_write].
  destruct (etl2_frame_columns data _ _ E0) as (c & -> & _).
  destruct (df_empty (spotify_etl2.song_dict c)) eqn:Hempty.
  { do 2 eexists. split; [reflexivity|]. left.
    split; [reflexivity|]. writes_simpl. reflexivity. }
  destruct (check_if_valid_data_result w (spotify_etl2.song_dict c))
    as (evs' & r' & Hcheck & Hres).
  stage (spotify_etl2.check_if_valid_data w (spotify_etl2.song_dict c))
        (silent_quiet _ (silent_etl2_check w (spotify_etl2.song_dict c))).
  unfold exec in Hcheck.
  match goal with
  | Hc : spotify_etl2.check_if_valid_data w _ [] = _ |- _ => rewrite Hc in Hcheck
  end.
  injection Hcheck as <- <-.
  destruct r as [valid|e]; [|ends_without_write].
  rewrite Hempty in Hres. subst valid. cbn [negb]. cbv beta iota.
  assert (0 < df_len (spotify_etl2.song_dict c))%nat as Hrows.
  { apply song_dict_empty in Hempty. simpl.
    destruct (spotify_etl2.song_names c); simpl; [done|lia]. }
  match goal with
  | |- context [spotify_etl2.save_to_database w ?df ?loc ?t] =>
      rewrite (framed_etl2_save w df loc t);
      destruct (save_to_database_result w df loc)
        as (lvl & text & args & b & Esave & Hb);
      unfold exec in Esave; rewrite Esave; clear Esave; cbn [fst snd negb]
  end.
  change (str_replace spotify_etl2.DATABASE_LOCATION "sqlite:///" "")
    with "my_played_tracks.sqlite" in *.
  destruct b; cbn [negb].
  - assert (to_sql w "my_played_tracks.sqlite" "recently_played"
              (spotify_etl2.song_dict c) = Ok tt) as Hsql by (by apply Hb).
    change (df_getitem (spotify_etl2.song_dict c) "artist_name")
      with (Ok (spotify_etl2.artist_names c)).
    change (df_getitem (spotify_etl2.song_dict c) "timestamp")
      with (Ok (spotify_etl2.timestamps c)).
    unfold res_bind. cbv beta iota.
    destruct (nunique (spotify_etl2.artist_names c)) as [n|e] eqn:Hn.
    2:{ apply nunique_raises in Hn as ->.
        do 2 eexists; (split; [reflexivity|]); right;
          eexists; (split; [writes_simpl; reflexivity|]); auto. }
    unfold spotify_etl2.series_extreme.
    destruct (series_min lib _) as [lo|];
      [|do 2 eexists; (split; [reflexivity|]); right;
        eexists; (split; [writes_simpl; reflexivity|]); auto].
    destruct (series_max lib _) as [hi|];
      [|do 2 eexists; (split; [reflexivity|]); right;
        eexists; (split; [writes_simpl; reflexivity|]); auto].
    do 2 eexists; (split; [reflexivity|]); right;
      eexists; (split; [writes_simpl; reflexivity|]); auto.
  - destruct (to_sql w _ _ _) as [[]|e'] eqn:Hsql;
      [by destruct Hb as [_ Hb]; specialize (Hb eq_refl)|].
    do 2 eexists; (split; [reflexivity|]); right;
      eexists; (split; [writes_simpl; reflexivity|]); eauto 6.
Qed.

(** X17.  When the limit parses and the token resolves, but the request is
    not answered by a non-empty object whose [items] has a length (it
    failed, or the answer is [{}], or no object, or its [items] is a
    number), [run_spotify_recently_played_etl] raises "Failed to retrieve
    recently played tracks".  The one GET is its only request, and nothing
    is written. *)
Theorem unusable_answer_fails_the_run lib w ctx limit token :
  let headers := spotify_etl2.request_headers token in
  let params := [("after", yesterday_timestamp w * 1000);
                 ("limit", Z.min limit 50)] in
  py_int lib (Variable_get_default w "SPOTIFY_RECENT_LIMIT" "50") = Ok limit ->
  spotify_etl2.get_spotify_user_token w = Ok token ->
  usable_answer (http_get w spotify_etl2.recently_played_url headers params) = false ->
  exists evs,
    exec (spotify_etl2.run_spotify_recently_played_etl lib w ctx)
      = (evs, Raise (Exception "Failed to retrieve recently played tracks")) /\
    calls evs = [HttpGet spotify_etl2.recently_played_url headers params] /\
    writes evs = [].
Proof.
  cbv zeta. intros Hlimit Htoken Hanswer.
  unfold spotify_etl2.run_spotify_recently_played_etl,
    spotify_etl2.get_recently_played_tracks.
  eff_unfold. cbv zeta. rewrite Hlimit, Htoken. cbn [app].
  destruct (http_get w _ _ _) as [json|e]; cbn.
  2:{ destruct e; cbn; eexists; (split; [reflexivity|]); split; reflexivity. }
  destruct json as [| | | | |[|kv kvs]]; cbn;
    try (eexists; (split; [reflexivity|]); split; reflexivity).
  cbn in Hanswer. unfold field in Hanswer.
  destruct (py_len _) as [n|e]; [done|].
  destruct e; cbn; eexists; (split; [reflexivity|]); split; reflexivity.
Qed.

(** X18.  A configuration that cannot be read stops a history run before
    any request and any write: a [SPOTIFY_RECENT_LIMIT] that is no integer
    makes both [run_spotify_recently_played_etl] and
    [run_spotify_recently_played_analysis] raise the [ValueError] of
    [int], and a [SPOTIFY_USER_TOKEN] with no non-empty value makes
    [run_spotify_recently_played_etl] raise the token-not-found
    [ValueError]. *)
Theorem unreadable_configuration_stops_before_any_request lib w ctx :
  (int_of_str lib (Variable_get_default w "SPOTIFY_RECENT_LIMIT" "50") = None ->
   exists evs msg,
     exec (spotify_etl2.run_spotify_recently_played_etl lib w ctx)
       = (evs, Raise (ValueError msg)) /\
     calls evs = [] /\ writes evs = []) /\
  (int_of_str lib (Variable_get_default w "SPOTIFY_RECENT_LIMIT" "10") = None ->
   exists evs msg,
     exec (new.run_spotify_recently_played_analysis lib w ctx)
       = (evs, Raise (ValueError msg)) /\
     calls evs = [] /\ writes evs = []) /\
  (forall limit,
     int_of_str lib (Variable_get_default w "SPOTIFY_RECENT_LIMIT" "50") = Some limit ->
     unresolved w "SPOTIFY_USER_TOKEN" ->
     exists evs,
       exec (spotify_etl2.run_spotify_recently_played_etl lib w ctx)
         = (evs, Raise (ValueError spotify_etl2.token_not_found)) /\
       calls evs = [] /\ writes evs = []).
Proof.
  split; [|split].
  - intros Hlimit. unfold spotify_etl2.run_spotify_recently_played_etl, py_int.
    eff_unfold. rewrite Hlimit. by do 2 eexists.
  - intros Hlimit. unfold new.run_spotify_recently_played_analysis, py_int.
    eff_unfold. rewrite Hlimit. by do 2 eexists.
  - intros limit Hlimit Hu.
    unfold spotify_etl2.run_spotify_recently_played_etl, py_int,
      spotify_etl2.get_spotify_user_token.
    eff_unfold. rewrite Hlimit. cbv zeta.
    apply unresolved_spec in Hu.
    destruct (Variable_or_getenv w "SPOTIFY_USER_TOKEN") as [t|]; [|by eexists].
    simpl in Hu. destruct (String.eqb t ""); [by eexists | done].
Qed.

(** ** The stages of new.py, each on its own *)

(** X19.  [create_spotify_client] never raises and logs exactly one record.
    It returns a client exactly when the OAuth client could be built from
    the three credentials and the scope and its test call [current_user]
    was answered by an object; the client is the one that was built. *)
Theorem client_is_returned_after_the_test_call w c scope :
  exists lvl text args o,
    exec (new.create_spotify_client w c scope) = ([Log lvl text args], Ok o) /\
    forall sp,
      o = Some sp <->
      spotify_oauth w (new.client_id c) (new.client_secret c) (new.redirect_uri c)
        scope = Ok sp /\
      exists kvs, current_user sp = Ok (PDict kvs).
Proof.
  unfold new.create_spotify_client. eff_unfold.
  destruct (spotify_oauth w _ _ _ _) as [sp|e] eqn:Hsp; cbn.
  2:{ do 4 eexists. split; [reflexivity|]. intros sp.
      split; [done | by intros [[= ] _]]. }
  destruct (current_user sp) as [info|e] eqn:Hinfo; cbn.
  2:{ do 4 eexists. split; [reflexivity|]. intros sp'.
      split; [done | intros [[= <-] (? & ?)]; congruence]. }
  destruct info as [| | | | |kvs]; cbn;
    try (do 4 eexists; (split; [reflexivity|]); intros sp';
         split; [done | intros [[= <-] (? & ?)]; congruence]).
  do 4 eexists. split; [reflexivity|]. intros sp'. split.
  - intros [= <-]. eauto.
  - by intros [[= <-] _].
Qed.

Lemma new_credentials_make_no_call w :
  quiet is_api_call (new.get_spotify_user_credentials w).
Proof. unfold new.get_spotify_user_credentials. quiet. Qed.

Lemma new_client_makes_no_call w c scope :
  quiet is_api_call (new.create_spotify_client w c scope).
Proof. unfold new.create_spotify_client. quiet. Qed.

(** X20.  When the limit parses and the credentials resolve but
    [create_spotify_client] returns no client,
    [run_spotify_recently_played_analysis] raises "Failed to create Spotify
    client": the history is not asked for and nothing is written. *)
Theorem no_client_stops_before_the_history_call lib w ctx limit c :
  py_int lib (Variable_get_default w "SPOTIFY_RECENT_LIMIT" "10") = Ok limit ->
  (exec (new.get_spotify_user_credentials w)).2 = Ok c ->
  (exec (new.create_spotify_client w c "user-read-recently-played")).2 = Ok None ->
  exists evs,
    exec (new.run_spotify_recently_played_analysis lib w ctx)
      = (evs, Raise (Exception "Failed to create Spotify client")) /\
    calls evs = [] /\ writes evs = [].
Proof.
  intros Hlimit Hcred Hclient.
  unfold new.run_spotify_recently_played_analysis. eff_unfold. cbv zeta.
  rewrite Hlimit. cbn [app].
  pose proof (proj2 (silent_quiet _ (silent_new_credentials w))) as Hw1.
  pose proof (proj2 (silent_quiet _ (silent_new_client w c
                                       "user-read-recently-played"))) as Hw2.
  stage_known (new.get_spotify_user_credentials w)
    (new_credentials_make_no_call w) Hcred.
  stage_known (new.create_spotify_client w c "user-read-recently-played")
    (new_client_makes_no_call w c "user-read-recently-played") Hclient.
  cbn [fst snd] in Hw1, Hw2.
  change (writes evs = []) in Hw1. change (writes evs0 = []) in Hw2.
  eexists. split; [reflexivity|]. split.
  - calls_simpl. reflexivity.
  - writes_simpl. reflexivity.
Qed.

(** X21.  A history call that fails does not fail the run of [new.py]:
    when the limit parses, the credentials resolve and the client is
    created, but [current_user_recently_played] raises,
    [get_recently_played_tracks] logs the error and returns [None], and
    [run_spotify_recently_played_analysis] returns the no-data summary,
    with nothing written. *)
Theorem failed_history_call_is_reported_as_no_data lib w ctx limit c sp e :
  py_int lib (Variable_get_default w "SPOTIFY_RECENT_LIMIT" "10") = Ok limit ->
  (exec (new.get_spotify_user_credentials w)).2 = Ok c ->
  (exec (new.create_spotify_client w c "user-read-recently-played")).2
    = Ok (Some sp) ->
  current_user_recently_played sp (Z.min (Z.max limit 1) 50) = Raise e ->
  exec (new.get_recently_played_tracks sp limit)
    = ([RecentlyPlayedCall (Z.min (Z.max limit 1) 50);
        Log ERROR "Error getting recently played tracks: {e}" [AExn e]], Ok None) /\
  exists evs,
    exec (new.run_spotify_recently_played_analysis lib w ctx)
      = (evs, Ok new.no_data_summary) /\
    Log ERROR "Error getting recently played tracks: {e}" [AExn e] ∈ evs /\
    writes evs = [].
Proof.
  intros Hlimit Hcred Hclient Hcall.
  assert (exec (new.get_recently_played_tracks sp limit)
          = ([RecentlyPlayedCall (Z.min (Z.max limit 1) 50);
              Log ERROR "Error getting recently played tracks: {e}" [AExn e]],
             Ok None)) as Hget.
  { unfold new.get_recently_played_tracks. eff_unfold. cbv zeta.
    by rewrite Hcall. }
  split; [exact Hget|].
  unfold new.run_spotify_recently_played_analysis. eff_unfold. cbv zeta.
  rewrite Hlimit. cbn [app].
  stage_known (new.get_spotify_user_credentials w)
    (silent_quiet _ (silent_new_credentials w)) Hcred.
  stage_known (new.create_spotify_client w c "user-read-recently-played")
    (silent_quiet _ (silent_new_client w c "user-read-recently-played")) Hclient.
  rewrite (silent_framed _ (silent_new_get sp limit) _).
  unfold exec in Hget. rewrite Hget. cbn [fst snd].
  eexists. split; [reflexivity|]. split.
  - rewrite !elem_of_app, !elem_of_cons. auto 10.
  - writes_simpl. reflexivity.
Qed.

(** ** What new.py prints *)

Lemma silent_new_display_each track_data : silent (new.display_each track_data).
Proof.
  induction track_data as [|t rest IH]; simpl; [apply silent_pass|].
  unfold new.display_track. silent_with ltac:(apply IH).
Qed.

Lemma silent_new_display track_data : silent (new.display_tracks track_data).
Proof.
  unfold new.display_tracks. silent_with ltac:(apply silent_new_display_each).
Qed.




(** ** The statistics of new.py *)

Lemma hash_keys_length col ks : hash_keys col = Ok ks -> length ks = length col.
Proof.
  revert ks. induction col as [|v rest IH]; intros ks; simpl.
  - by intros [= <-].
  - unfold mbind, res_bind. destruct (py_hash_key v); [|done].
    destruct (hash_keys rest) as [ks'|]; [|done].
    intros [= <-]. simpl. by rewrite (IH ks').
Qed.

Lemma remove_dups_length_le (ks : list hkey) :
  (length (remove_dups ks) <= length ks)%nat.
Proof.
  apply submseteq_length, NoDup_submseteq; [apply NoDup_remove_dups|].
  intros k. by rewrite elem_of_remove_dups.
Qed.

Lemma remove_dups_length_pos (ks : list hkey) :
  ks <> [] -> (0 < length (remove_dups ks))%nat.
Proof.
  destruct ks as [|k ks]; [done|]. intros _.
  assert (k ∈ remove_dups (k :: ks)) as Hk by (apply elem_of_remove_dups; left).
  destruct (remove_dups (k :: ks)); [by apply elem_of_nil in Hk | simpl; lia].
Qed.

Lemma unique_artists_result track_data :
  track_data <> [] ->
  match new.unique_artists track_data with
  | Ok n => (1 <= n <= length track_data)%nat
  | Raise e => e = TypeError
  end.
Proof.
  intros Hne. unfold new.unique_artists, mbind, res_bind, mret, res_ret.
  destruct (hash_keys (map new.artist_name track_data)) as [ks|e] eqn:Hks.
  - pose proof (hash_keys_length _ _ Hks) as Hlen. rewrite length_map in Hlen.
    pose proof (remove_dups_length_le ks).
    pose proof (remove_dups_length_pos ks) as Hpos.
    assert (ks <> []) by (intros ->; by destruct track_data).
    specialize (Hpos ltac:(done)). lia.
  - by apply hash_keys_raise in Hks as [-> _].
Qed.

Lemma py_sum_raises l e : py_sum l = Raise e -> e = TypeError.
Proof.
  induction l as [|v rest IH]; [done|]. simpl. unfold mbind, res_bind.
  destruct (py_number v) as [n|e'] eqn:Hn.
  - destruct (py_sum rest) as [total|e'']; [done|]. intros [= <-]. by apply IH.
  - intros [= <-]. destruct v; simpl in Hn; congruence.
Qed.

Lemma avg_popularity_result track_data :
  track_data <> [] ->
  match new.avg_popularity track_data with
  | Ok _ => True
  | Raise e => e = TypeError \/ e = OverflowError
  end.
Proof.
  intros Hne. unfold new.avg_popularity, mbind, res_bind.
  destruct (py_sum _) as [total|e] eqn:Hsum.
  - destruct track_data as [|t rest]; [done|]. unfold py_truediv. cbn [length].
    destruct (_ <=? _); [by right | done].
  - left. by apply py_sum_raises in Hsum.
Qed.

Lemma explicit_count_le track_data :
  (new.explicit_count track_data <= length track_data)%nat.
Proof. unfold new.explicit_count. apply length_filter. Qed.

(** X23.  A run of [run_spotify_recently_played_analysis] makes at most one
    CSV write, to the configured path (default
    [recently_played_tracks.csv]), of the frame of the entries it counted;
    it makes none when pandas cannot be imported.  A returned summary is
    either the no-data one, with nothing written, or a success one whose
    [tracks_processed] is the number of the entries, at least one, whose
    [unique_artists] lies between one and that number and whose
    [explicit_tracks] does not exceed it.  When the run raises, either
    nothing was written, or the write was made and a statistic raised
    afterwards: [TypeError], or the [OverflowError] of an average too large
    for a double. *)
Theorem new_summary_counts_the_written_entries lib w ctx :
  let path :=
    Variable_get_default w "SPOTIFY_OUTPUT_PATH" "recently_played_tracks.csv" in
  exists evs r,
    exec (new.run_spotify_recently_played_analysis lib w ctx) = (evs, r) /\
    match r with
    | Ok s =>
        (s = new.no_data_summary /\ writes evs = []) \/
        (exists track_data artists,
           track_data <> [] /\
           (import_pandas w = Ok tt ->
            writes evs = [CsvWrite path (new.DataFrame_of_track_data track_data)]) /\
           (import_pandas w <> Ok tt -> writes evs = []) /\
           summary_get "tracks_processed" s = Some (SNat (length track_data)) /\
           summary_get "unique_artists" s = Some (SNat artists) /\
           (1 <= artists <= length track_data)%nat /\
           summary_get "explicit_tracks" s
             = Some (SNat (new.explicit_count track_data)) /\
           (new.explicit_count track_data <= length track_data)%nat /\
           summary_get "status" s = Some (SStr "success"))
    | Raise e =>
        writes evs = [] \/
        (exists track_data,
           import_pandas w = Ok tt /\
           writes evs = [CsvWrite path (new.DataFrame_of_track_data track_data)] /\
           (e = TypeError \/ e = OverflowError))
    end.
Proof.
  cbv zeta. unfold new.run_spotify_recently_played_analysis. eff_unfold.
  cbv zeta. cbn [app].
  destruct (py_int lib _) as [limit|e]; [|ends_without_write].
  stage (new.get_spotify_user_credentials w)
        (silent_quiet _ (silent_new_credentials w)).
  destruct r as [c|e]; [|ends_without_write].
  stage (new.create_spotify_client w c "user-read-recently-played")
        (silent_quiet _ (silent_new_client w c "user-read-recently-played")).
  destruct r as [[sp|]|e]; [|ends_without_write..].
  stage (new.get_recently_played_tracks sp limit)
        (silent_quiet _ (silent_new_get sp limit)).
  destruct r as [[[|t rest]|]|e];
    [do 2 eexists; (split; [reflexivity|]); left;
     (split; [reflexivity|]); writes_simpl; reflexivity
    | |do 2 eexists; (split; [reflexivity|]); left;
     (split; [reflexivity|]); writes_simpl; reflexivity
    |ends_without_write].
  assert (exists evsd rd,
            forall tr,
              (if String.eqb
                    (str_lower lib
                       (Variable_get_default w "SPOTIFY_DISPLAY_RESULTS" "true"))
                    "true"
               then new.display_tracks (t :: rest)
               else fun s => (s, Ok tt)) tr = (tr ++ evsd, rd) /\
              writes evsd = []) as (evsd & rd & Hdisplay).
  { destruct (String.eqb _ _).
    - destruct (silent_quiet _ (silent_new_display (t :: rest))) as [Hfr Hw].
      do 2 eexists. intros tr. split; [apply Hfr | exact Hw].
    - exists [], (Ok tt). intros tr. by rewrite app_nil_r. }
  match goal with
  | |- context [(if ?b then new.display_tracks ?l else ?f) ?tr] =>
      destruct (Hdisplay tr) as [-> Wd]
  end.
  destruct rd as [[]|e]; [|ends_without_write].
  match goal with
  | |- context [new.save_tracks_to_csv w ?td ?path ?tr] =>
      rewrite (framed_new_save w td path tr);
      destruct (save_tracks_to_csv_result w td path)
        as (evss & saved & Esave & Hwritten & Hnone);
      unfold exec in Esave; rewrite Esave; clear Esave; cbn [fst snd]
  end.
  pose proof (unique_artists_result (t :: rest) ltac:(done)) as Hartists.
  pose proof (avg_popularity_result (t :: rest) ltac:(done)) as Havg.
  pose proof (explicit_count_le (t :: rest)) as Hexplicit.
  assert (import_pandas w = Ok tt /\
          writes evss = [CsvWrite (Variable_get_default w "SPOTIFY_OUTPUT_PATH"
                                     "recently_played_tracks.csv")
                           (new.DataFrame_of_track_data (t :: rest))] \/
          import_pandas w <> Ok tt /\ writes evss = []) as Hsave.
  { destruct (import_pandas w) as [[]|e] eqn:Hpandas.
    - left. split; [done|]. by apply Hwritten.
    - right. split; [done|]. by apply Hnone; left. }
  clear Hwritten Hnone.
  assert (forall (tail : trace) (e : exn),
            writes tail = [] -> e = TypeError \/ e = OverflowError ->
            writes (((((([Log INFO "Starting Spotify recently played tracks analysis"
                             []] ++ evs) ++ evs0) ++ evs1) ++ evsd) ++ evss) ++ tail)
              = [] \/
            exists track_data,
              import_pandas w = Ok tt /\
              writes (((((([Log INFO
                              "Starting Spotify recently played tracks analysis" []]
                           ++ evs) ++ evs0) ++ evs1) ++ evsd) ++ evss) ++ tail)
                = [CsvWrite (Variable_get_default w "SPOTIFY_OUTPUT_PATH"
                               "recently_played_tracks.csv")
                     (new.DataFrame_of_track_data track_data)] /\
              (e = TypeError \/ e = OverflowError)) as Hraise.
  { intros tail e Htail He. destruct Hsave as [[Hp Hs]|[Hp Hs]].
    - right. exists (t :: rest). split; [done|]. split; [|done].
      writes_simpl. reflexivity.
    - left. writes_simpl. reflexivity. }
  destruct (new.unique_artists (t :: rest)) as [artists|e].
  2:{ do 2 eexists. split; [reflexivity|]. rewrite <- !(app_assoc _ [_] [_]).
      apply Hraise; [reflexivity | by left]. }
  destruct (new.avg_popularity (t :: rest)) as [avg|e].
  2:{ do 2 eexists. split; [reflexivity|]. rewrite <- !(app_assoc _ [_] [_]).
      apply Hraise; [reflexivity | done]. }
  do 2 eexists. split; [reflexivity|]. right.
  exists (t :: rest), artists. split; [done|].
  split; [|split].
  - intros Hp. destruct Hsave as [[_ Hs]|[Hn _]]; [|done]. writes_simpl. reflexivity.
  - intros Hp. destruct Hsave as [[Hn _]|[_ Hs]]; [done|]. writes_simpl. reflexivity.
  - repeat split; done || lia.
Qed.



(** X25.  The credentials [get_spotify_user_credentials] returns carry a
    non-empty client id and secret, and it logs nothing when it returns.
    The redirect URI is the stored value when that is not empty; it is the
    default [http://localhost:8080/callback] when nothing is stored,
    whatever the environment holds; the environment variable is consulted
    only when the stored value is the empty text. *)
Theorem redirect_uri_ignores_the_environment_unless_stored_empty w evs c :
  exec (new.get_spotify_user_credentials w) = (evs, Ok c) ->
  evs = [] /\
  new.client_id c <> "" /\ new.client_secret c <> "" /\
  (forall s, variables w !! "SPOTIFY_REDIRECT_URI" = Some s -> s <> "" ->
             new.redirect_uri c = s) /\
  (variables w !! "SPOTIFY_REDIRECT_URI" = None ->
   new.redirect_uri c = new.default_redirect_uri) /\
  (variables w !! "SPOTIFY_REDIRECT_URI" = Some "" ->
   new.redirect_uri c
     = default new.default_redirect_uri (environ w !! "SPOTIFY_REDIRECT_URI")).
Proof.
  unfold new.get_spotify_user_credentials, Variable_get_default, getenv.
  eff_unfold. cbv zeta.
  destruct (Variable_or_getenv w "SPOTIFY_CLIENT_ID") as [id|]; [|done].
  destruct (Variable_or_getenv w "SPOTIFY_CLIENT_SECRET") as [secret|]; [|done].
  destruct (nonempty (Some id)) eqn:Hid; [|done].
  destruct (nonempty (Some secret)) eqn:Hsecret; [|done].
  cbn [andb]. intros [= <- <-]. cbn [new.client_id new.client_secret new.redirect_uri].
  apply nonempty_Some in Hid, Hsecret.
  split; [done|]. split; [done|]. split; [done|].
  destruct (variables w !! "SPOTIFY_REDIRECT_URI") as [s|]; simpl.
  - destruct (String.eqb_spec s "") as [->|Hs].
    + split; [by intros ? [= <-] | by split].
    + split; [by intros ? [= <-] | split; [done | by intros [= ->]]].
  - split; [done|]. by split.
Qed.

(** ** The entries of spotify_etl.py *)

(** X27.  [run_spotify_etl] makes an entry of a track exactly when the
    track is an object whose [artists] is absent, falsy, or a list that
    starts with an object holding [name], and whose [external_urls] and
    [album] are absent or objects.  The entry then holds the members that
    are there and the defaults of the source for the others (["Unknown"]
    names, 0 for [popularity] and [duration_ms], [False] for [explicit], the
    empty text for urls, release date and id).  Any other track raises and
    is dropped. *)
Theorem etl_entry_has_defaults_or_track_is_dropped track :
  if etl_shapes.readable_track track
  then spotify_etl.make_track_info track = Ok (etl_shapes.entry_of track)
  else exists e, spotify_etl.make_track_info track = Raise e.
Proof.
  destruct track as [| | | | |tkvs]; try (simpl; by eexists).
  assert (forall artist,
            (artists ← py_get (PDict tkvs) "artists" PNone;
             if truthy artists
             then artists ← py_getitem (PDict tkvs) "artists";
                  artist ← py_first artists;
                  py_getitem artist "name"
             else Ok (PStr "Unknown")) = Ok artist /\
            new_shapes.first_artist_field (field tkvs "artists" PNone) "name"
              (PStr "Unknown") = artist ->
            if is_dict (field tkvs "external_urls" (PDict []))
               && is_dict (field tkvs "album" (PDict []))
            then
              spotify_etl.make_track_info (PDict tkvs)
              = Ok (etl_shapes.entry_of (PDict tkvs))
            else exists e, spotify_etl.make_track_info (PDict tkvs) = Raise e)
    as Hrest.
  { intros artist [Hartist Hfield].
    unfold spotify_etl.make_track_info, etl_shapes.entry_of.
    cbn [members]. rewrite Hartist, Hfield.
    unfold mbind, res_bind, mret, res_ret. rewrite !py_get_dict.
    destruct (field tkvs "external_urls" (PDict [])) as [| | | | |urls];
      cbn [is_dict andb]; try (by eexists);
      destruct (field tkvs "album" (PDict [])) as [| | | | |album];
      cbn [is_dict andb]; try (by eexists); reflexivity. }
  assert (forall e,
            (artists ← py_get (PDict tkvs) "artists" PNone;
             if truthy artists
             then artists ← py_getitem (PDict tkvs) "artists";
                  artist ← py_first artists;
                  py_getitem artist "name"
             else Ok (PStr "Unknown")) = Raise e ->
            exists e', spotify_etl.make_track_info (PDict tkvs) = Raise e')
    as Hraise.
  { intros e He. unfold spotify_etl.make_track_info. rewrite He. by eexists. }
  unfold etl_shapes.readable_track, etl_shapes.artists_named.
  rewrite py_get_dict in Hrest, Hraise. unfold mbind, res_bind in Hrest, Hraise.
  cbn [py_getitem] in Hrest, Hraise.
  unfold new_shapes.first_artist_field in Hrest.
  destruct (field tkvs "artists" PNone)
    as [|[]|n|s|[|[| | | | |akvs] ?]|[|]] eqn:Ha;
    try (apply field_not_default in Ha; [|done]; rewrite Ha in Hrest, Hraise);
    cbn [truthy negb orb andb py_first py_getitem] in *;
    try (by eapply Hraise);
    try (by eapply Hrest).
  - destruct (n =? 0)%Z; cbn [negb orb andb] in *;
      [by eapply Hrest | by eapply Hraise].
  - destruct s as [|ch s]; cbn [String.eqb negb orb andb] in *;
      [by eapply Hrest | by eapply Hraise].
  - destruct (assoc "name" akvs) as [name|] eqn:Hname.
    + rewrite bool_decide_eq_true_2 by eauto. cbn [andb].
      eapply Hrest. split; [reflexivity|]. unfold field. by rewrite Hname.
    + rewrite bool_decide_eq_false_2 by (by intros [? ?]). by eapply Hraise.
Qed.

(** ** The requests of a run *)

Lemma etl_search_calls lib w token artist_name :
  exists get,
    calls (exec (spotify_etl.search_for_artist lib w token artist_name)).1 = [get] /\
    is_search_request get.
Proof.
  unfold spotify_etl.search_for_artist. eff_unfold. cbv zeta.
  repeat case_inner; eexists; (split; [reflexivity|]); by do 2 eexists.
Qed.

Lemma etl_songs_calls lib w token artist_id market :
  exists get,
    calls (exec (spotify_etl.get_songs_by_artist lib w token artist_id market)).1
      = [get] /\
    is_top_tracks_request get.
Proof.
  unfold spotify_etl.get_songs_by_artist. eff_unfold. cbv zeta.
  repeat case_inner; eexists; (split; [reflexivity|]); by do 2 eexists.
Qed.

Lemma etl_process_tracks_makes_no_call tracks :
  forall acc, quiet is_api_call (spotify_etl.process_tracks tracks acc).
Proof.
  induction tracks as [|track rest IH]; intros acc; simpl; quiet_with ltac:(apply IH).
Qed.

Lemma etl2_get_calls w token limit :
  exists get,
    calls (exec (spotify_etl2.get_recently_played_tracks w token limit)).1 = [get] /\
    is_history_get get.
Proof.
  unfold spotify_etl2.get_recently_played_tracks. eff_unfold. cbv zeta.
  assert (Z.min limit 50 <= 50) as Hmin by lia.
  repeat case_inner; eexists; (split; [reflexivity|]); do 3 eexists;
    (split; [reflexivity|exact Hmin]).
Qed.

Lemma new_process_items_makes_no_call items :
  forall idx acc, quiet is_api_call (new.process_items idx items acc).
Proof.
  induction items as [|item rest IH]; intros idx acc; simpl;
    quiet_with ltac:(apply IH).
Qed.

Lemma new_get_calls sp limit :
  exists call,
    calls (exec (new.get_recently_played_tracks sp limit)).1 = [call] /\
    is_history_call call.
Proof.
  assert (is_history_call (RecentlyPlayedCall (Z.min (Z.max limit 1) 50))) as Hclamp.
  { eexists. split; [reflexivity|lia]. }
  unfold new.get_recently_played_tracks. eff_unfold. cbv zeta.
  destruct (current_user_recently_played sp _) as [results|e];
    [|eexists; split; [reflexivity|exact Hclamp]].
  cbv beta iota.
  destruct (if negb (truthy results) then _ else _) as [[]|e];
    [eexists; split; [reflexivity|exact Hclamp]
    | |eexists; split; [reflexivity|exact Hclamp]].
  cbv beta iota.
  destruct (res_bind _ _ _ (py_getitem results "items")) as [items|e];
    [|eexists; split; [reflexivity|exact Hclamp]].
  match goal with
  | |- context [new.process_items 0 items [] ?t] =>
      destruct (new_process_items_makes_no_call items 0 []) as [Hfr Hq];
      rewrite (Hfr t);
      destruct (new.process_items 0 items [] []) as [evs [track_data|e]];
      cbn [fst snd] in Hq |- *; change (calls evs = []) in Hq
  end.
  - eexists. split; [|exact Hclamp]. calls_simpl. reflexivity.
  - eexists. split; [|exact Hclamp]. calls_simpl. reflexivity.
Qed.

(** Runs a stage that makes exactly one request. *)
Ltac calling_stage m framed_lem calls_lem :=
  match goal with
  | |- context [m ?t] =>
      let evs := fresh "evs" in
      let r := fresh "r" in
      let call := fresh "call" in
      let W := fresh "W" in
      let K := fresh "K" in
      rewrite (framed_lem t);
      destruct calls_lem as (call & W & K);
      unfold exec in W;
      destruct (m []) as [evs r]; cbn [fst snd] in W |- *
  end.

Lemma new_display_makes_no_call track_data :
  quiet is_api_call (new.display_tracks track_data).
Proof.
  assert (forall l, quiet is_api_call (new.display_each l)) as Heach.
  { induction l as [|x l IH]; simpl; [apply quiet_pass|].
    unfold new.display_track. quiet_with ltac:(apply IH). }
  unfold new.display_tracks. quiet_with ltac:(apply Heach).
Qed.

Lemma new_save_makes_no_call w track_data path :
  quiet is_api_call (new.save_tracks_to_csv w track_data path).
Proof. unfold new.save_tracks_to_csv. quiet. Qed.

(** Closes a branch of a run after [n] requests. *)
Ltac requests_so_far n :=
  do 2 eexists; (split; [reflexivity|]);
  first
    [ eexists _, _, _, n; (split; [|split; [|split; [|split]]]);
      [> | | | calls_simpl; reflexivity | done ]
    | eexists _, n; (split; [|split]);
      [> | calls_simpl; reflexivity | done ] ];
  first [ eassumption | by do 2 eexists ].

(** X28.  Each run makes its requests once and in a fixed order, with no
    retry.  [run_spotify_etl] asks for a token, then searches, then asks for
    the top tracks, stopping at the first stage that fails, and has made
    all three requests when it returns a summary.
    [run_spotify_recently_played_etl] and
    [run_spotify_recently_played_analysis] ask for the history at most
    once, for at most 50 plays (and at least one, in [new.py]), and have
    asked when they return a summary. *)
Theorem requests_are_made_once_and_in_order lib w ctx :
  (exists evs r,
     exec (spotify_etl.run_spotify_etl lib w ctx) = (evs, r) /\
     exists post search top n,
       is_token_request post /\
       is_search_request search /\
       is_top_tracks_request top /\
       calls evs = take n [post; search; top] /\
       forall s, r = Ok s -> n = 3%nat) /\
  (exists evs r,
     exec (spotify_etl2.run_spotify_recently_played_etl lib w ctx) = (evs, r) /\
     exists get n,
       is_history_get get /\
       calls evs = take n [get] /\
       forall s, r = Ok s -> n = 1%nat) /\
  (exists evs r,
     exec (new.run_spotify_recently_played_analysis lib w ctx) = (evs, r) /\
     exists call n,
       is_history_call call /\
       calls evs = take n [call] /\
       forall s, r = Ok s -> n = 1%nat).
Proof.
  assert (is_token_request (HttpPost spotify_etl.token_url [] [])) as Hpost
    by (by do 2 eexists).
  assert (is_search_request (HttpGet ("https://api.spotify.com/v1/search?q=" +:+ "")
                               [] [])) as Hsearch by (by do 2 eexists).
  assert (is_top_tracks_request
            (HttpGet ("https://api.spotify.com/v1/artists/" +:+ "") [] []))
    as Htop by (by do 2 eexists).
  assert (is_history_get (HttpGet spotify_etl2.recently_played_url []
                            [("after", 0); ("limit", 0)])) as Hget
    by (do 3 eexists; split; [reflexivity|lia]).
  assert (is_history_call (RecentlyPlayedCall 1)) as Hcall
    by (eexists; split; [reflexivity|lia]).
  split; [|split].
  - clear Hget Hcall.
    unfold spotify_etl.run_spotify_etl. eff_unfold. cbv zeta. cbn [app].
    stage (spotify_etl.get_spotify_credentials w) (etl_credentials_make_no_call w).
    destruct r as [c|e]; [|requests_so_far 0%nat].
    pose proof (etl_token_calls lib w (spotify_etl.client_id c)
                  (spotify_etl.client_secret c)) as Wpost.
    match goal with
    | |- context [spotify_etl.get_spotify_token lib w ?id ?secret ?t] =>
        rewrite (silent_framed _ (silent_etl_token lib w id secret) t)
    end.
    unfold exec in Wpost.
    destruct (spotify_etl.get_spotify_token lib w _ _ []) as [evs1 r1].
    cbn [fst snd] in Wpost |- *. clear Hpost.
    destruct r1 as [[token|]|e]; [|requests_so_far 1%nat..].
    calling_stage
      (spotify_etl.search_for_artist lib w token
         (Variable_get_default w "SPOTIFY_ARTIST_NAME" "Ed Sheeran"))
      (silent_framed _ (silent_etl_search lib w token
         (Variable_get_default w "SPOTIFY_ARTIST_NAME" "Ed Sheeran")))
      (etl_search_calls lib w token
         (Variable_get_default w "SPOTIFY_ARTIST_NAME" "Ed Sheeran")).
    clear Hsearch.
    destruct r as [[artist|]|e]; [|requests_so_far 2%nat..].
    destruct (truthy artist); cbn [negb]; [|requests_so_far 2%nat].
    destruct (py_getitem artist "id") as [artist_id|e]; [|requests_so_far 2%nat].
    calling_stage
      (spotify_etl.get_songs_by_artist lib w token artist_id
         (Variable_get_default w "SPOTIFY_MARKET" "US"))
      (silent_framed _ (silent_etl_songs lib w token artist_id
         (Variable_get_default w "SPOTIFY_MARKET" "US")))
      (etl_songs_calls lib w token artist_id
         (Variable_get_default w "SPOTIFY_MARKET" "US")).
    clear Htop.
    destruct r as [tracks|e]; [|requests_so_far 3%nat].
    destruct (truthy tracks); cbn [negb]; [|requests_so_far 3%nat].
    destruct (py_iter tracks) as [l|e]; [|requests_so_far 3%nat].
    stage (spotify_etl.process_tracks l []) (etl_process_tracks_makes_no_call l []).
    destruct r as [[|info rest]|e]; [requests_so_far 3%nat| |requests_so_far 3%nat].
    match goal with
    | |- context [res_bind ?A ?B ?f ?x] => destruct (res_bind A B f x) as [mean|e]
    end; [|requests_so_far 3%nat].
    match goal with
    | |- context [spotify_etl.save_to_csv w ?df ?path ?t] =>
        rewrite (framed_etl_save w df path t);
        destruct (save_to_csv_result w df path)
          as (lvl & text & args & b & Esave & _);
        unfold exec in Esave; rewrite Esave; clear Esave; cbn [fst snd negb]
    end.
    destruct b; cbn [negb]; requests_so_far 3%nat.
  - clear Hpost Hsearch Htop Hcall.
    unfold spotify_etl2.run_spotify_recently_played_etl. eff_unfold. cbv zeta.
    cbn [app].
    destruct (py_int lib _) as [limit|e]; [|requests_so_far 0%nat].
    destruct (spotify_etl2.get_spotify_user_token w) as [token|e];
      [|requests_so_far 0%nat].
    calling_stage (spotify_etl2.get_recently_played_tracks w token limit)
      (silent_framed _ (silent_etl2_get w token limit))
      (etl2_get_calls w token limit).
    clear Hget.
    destruct r as [[data|]|e]; [|requests_so_far 1%nat..].
    destruct (truthy data); cbn [negb]; [|requests_so_far 1%nat].
    stage (spotify_etl2.process_tracks_data data)
          (etl2_process_quiet is_api_call data ltac:(done)).
    destruct r as [df|e]; [|requests_so_far 1%nat].
    destruct (df_empty df); [requests_so_far 1%nat|].
    stage (spotify_etl2.check_if_valid_data w df)
          (etl2_check_quiet is_api_call w df ltac:(done) ltac:(done) ltac:(done)).
    destruct r as [valid|e]; [|requests_so_far 1%nat].
    destruct valid; cbv beta iota;
      (match goal with
       | |- context [spotify_etl2.save_to_database w ?df ?loc ?t] =>
           rewrite (framed_etl2_save w df loc t);
           destruct (save_to_database_result w df loc)
             as (lvl & text & args & b & Esave & _);
           unfold exec in Esave; rewrite Esave; clear Esave; cbn [fst snd negb]
       end;
       destruct b; cbn [negb]; repeat case_inner; requests_so_far 1%nat).
  - clear Hpost Hsearch Htop Hget.
    unfold new.run_spotify_recently_played_analysis. eff_unfold. cbv zeta.
    cbn [app].
    destruct (py_int lib _) as [limit|e]; [|requests_so_far 0%nat].
    stage (new.get_spotify_user_credentials w) (new_credentials_make_no_call w).
    destruct r as [c|e]; [|requests_so_far 0%nat].
    stage (new.create_spotify_client w c "user-read-recently-played")
          (new_client_makes_no_call w c "user-read-recently-played").
    destruct r as [[sp|]|e]; [|requests_so_far 0%nat..].
    calling_stage (new.get_recently_played_tracks sp limit)
      (silent_framed _ (silent_new_get sp limit))
      (new_get_calls sp limit).
    clear Hcall.
    destruct r as [[[|t rest]|]|e];
      [requests_so_far 1%nat| |requests_so_far 1%nat..].
    assert (exists evsd rd,
              forall tr,
                (if String.eqb
                      (str_lower lib
                         (Variable_get_default w "SPOTIFY_DISPLAY_RESULTS" "true"))
                      "true"
                 then new.display_tracks (t :: rest)
                 else fun s => (s, Ok tt)) tr = (tr ++ evsd, rd) /\
                calls evsd = []) as (evsd & rd & Hdisplay).
    { destruct (String.eqb _ _).
      - destruct (new_display_makes_no_call (t :: rest)) as [Hfr Hq].
        do 2 eexists. intros tr. split; [apply Hfr | exact Hq].
      - exists [], (Ok tt). intros tr. by rewrite app_nil_r. }
    match goal with
    | |- context [(if ?b then new.display_tracks ?l else ?f) ?tr] =>
        destruct (Hdisplay tr) as [-> Wd]
    end.
    destruct rd as [[]|e]; [|requests_so_far 1%nat].
    match goal with
    | |- context [new.save_tracks_to_csv w ?td ?path] =>
        stage (new.save_tracks_to_csv w td path)
              (new_save_makes_no_call w td path)
    end.
    destruct r as [saved|e]; [|requests_so_far 1%nat].
    repeat case_inner; requests_so_far 1%nat.
Qed.

(** ** The further theorems at sample inputs *)

(** The token endpoint fails: the run stops after its one POST. *)
Lemma no_token_stops_before_the_search_witness :
  exists evs,
    exec (spotify_etl.run_spotify_etl sample_lib offline_world ∅)
      = (evs, Raise (Exception "Failed to obtain Spotify access token")) /\
    calls evs
      = [HttpPost spotify_etl.token_url
           [("Authorization", "Basic env-id:env-secret");
            ("Content-Type", "application/x-www-form-urlencoded")]
           [("grant_type", "client_credentials")]] /\
    writes evs = [] /\
    last evs = Some (Log ERROR "Spotify ETL failed: {e}"
                       [AExn (Exception "Failed to obtain Spotify access token")]).
Proof.
  apply (no_token_stops_before_the_search sample_lib offline_world ∅ []
           {| spotify_etl.client_id := "env-id";
              spotify_etl.client_secret := "env-secret" |}).
  - vm_compute. reflexivity.
  - vm_compute. reflexivity.
Defined.

(** An artist with no top track, and an artist whose one track is a
    number. *)
Lemma no_usable_track_stops_before_the_write_witness :
  (exists evs,
     exec (spotify_etl.run_spotify_etl sample_lib
             (history_world (Ok (artist_answer [])) (Ok tt)) ∅)
       = (evs, Raise (Exception "No tracks found for artist 'Ed Sheeran'")) /\
     writes evs = []) /\
  (exists evs,
     exec (spotify_etl.run_spotify_etl sample_lib
             (history_world (Ok (artist_answer [PInt 7])) (Ok tt)) ∅)
       = (evs, Raise (Exception "No valid track data processed")) /\
     writes evs = []).
Proof.
  split.
  - apply (no_usable_track_stops_before_the_write sample_lib
             (history_world (Ok (artist_answer [])) (Ok tt)) ∅
             {| spotify_etl.client_id := "env-id";
                spotify_etl.client_secret := "env-secret" |}
             (PStr "token")
             (PDict [("name", PStr "Ed Sheeran"); ("id", PStr "artist-1")])
             (PStr "artist-1") (PList [])).
    + vm_compute. reflexivity.
    + vm_compute. reflexivity.
    + vm_compute. reflexivity.
    + reflexivity.
    + reflexivity.
    + vm_compute. reflexivity.
    + left. reflexivity.
  - apply (no_usable_track_stops_before_the_write sample_lib
             (history_world (Ok (artist_answer [PInt 7])) (Ok tt)) ∅
             {| spotify_etl.client_id := "env-id";
                spotify_etl.client_secret := "env-secret" |}
             (PStr "token")
             (PDict [("name", PStr "Ed Sheeran"); ("id", PStr "artist-1")])
             (PStr "artist-1") (PList [PInt 7])).
    + vm_compute. reflexivity.
    + vm_compute. reflexivity.
    + vm_compute. reflexivity.
    + reflexivity.
    + reflexivity.
    + vm_compute. reflexivity.
    + right. exists [PInt 7]. split; reflexivity.
Defined.

(** A run without credentials, whatever else it would have done. *)
Lemma failed_run_ends_with_its_error_record_witness :
  exists evs,
    exec (spotify_etl.run_spotify_etl sample_lib
            (sample_world ∅ ∅ (Ok empty_history) (Ok tt)) ∅)
      = (evs, Raise (ValueError spotify_etl.credentials_not_found)) /\
    last evs = Some (Log ERROR "Spotify ETL failed: {e}"
                       [AExn (ValueError spotify_etl.credentials_not_found)]).
Proof.
  eexists. split; [vm_compute; reflexivity|].
  apply (failed_run_ends_with_its_error_record sample_lib
           (sample_world ∅ ∅ (Ok empty_history) (Ok tt)) ∅).
  vm_compute. reflexivity.
Defined.

(** The frame of two plays. *)
Lemma built_frame_has_eight_full_columns_witness :
  map fst (frame_of distinct_history)
    = ["song_name"; "artist_name"; "played_at"; "timestamp";
       "track_id"; "album_name"; "duration_ms"; "popularity"] /\
  Forall (fun kc => length kc.2 = df_len (frame_of distinct_history))
    (frame_of distinct_history) /\
  (exists col, df_getitem (frame_of distinct_history) "artist_name" = Ok col /\
               length col = df_len (frame_of distinct_history)) /\
  (exists col, df_getitem (frame_of distinct_history) "timestamp" = Ok col /\
               length col = df_len (frame_of distinct_history)).
Proof.
  apply (built_frame_has_eight_full_columns distinct_history
           (exec (spotify_etl2.process_tracks_data distinct_history)).1).
  vm_compute. reflexivity.
Defined.

(** One play whose album is null: no frame. *)
Lemma frame_is_built_iff_no_row_breaks_off_witness :
  (exec (spotify_etl2.process_tracks_data (sample_history [broken_item]))).2
    = Raise (ValueError "All arrays must be of the same length") /\
  (exec (spotify_etl2.process_tracks_data distinct_history)).2
    = Ok (spotify_etl2.song_dict (rows_of [sample_item "One" "2023-11-14T10:00:00Z";
                                           sample_item "Two" "2023-11-14T11:30:00Z"])).
Proof.
  split.
  - apply (frame_is_built_iff_no_row_breaks_off [("items", PList [broken_item])]
             [broken_item]); [reflexivity|].
    intros H. apply Forall_cons in H as [H _]. vm_compute in H. discriminate.
  - apply (frame_is_built_iff_no_row_breaks_off
             [("items", PList [sample_item "One" "2023-11-14T10:00:00Z";
                               sample_item "Two" "2023-11-14T11:30:00Z"])]
             [sample_item "One" "2023-11-14T10:00:00Z";
              sample_item "Two" "2023-11-14T11:30:00Z"]); [reflexivity|].
    repeat (apply List.Forall_cons; [reflexivity|]). apply List.Forall_nil.
Defined.

(** Two plays: the dates of the two times. *)
Lemma timestamp_is_the_date_part_of_played_at_witness :
  exists played,
    df_column "played_at" (frame_of distinct_history) = Some played /\
    df_column "timestamp" (frame_of distinct_history) = Some (map date_part played).
Proof.
  apply (timestamp_is_the_date_part_of_played_at distinct_history
           (exec (spotify_etl2.process_tracks_data distinct_history)).1).
  vm_compute. reflexivity.
Defined.

(** The request fails. *)
Lemma unusable_answer_fails_the_run_witness :
  exists evs,
    exec (spotify_etl2.run_spotify_recently_played_etl sample_lib
            (history_world (Raise RequestException) (Ok tt)) ∅)
      = (evs, Raise (Exception "Failed to retrieve recently played tracks")) /\
    calls evs
      = [HttpGet spotify_etl2.recently_played_url
           (spotify_etl2.request_headers "user-token")
           [("after", 1700000000000); ("limit", 50)]] /\
    writes evs = [].
Proof.
  apply (unusable_answer_fails_the_run sample_lib
           (history_world (Raise RequestException) (Ok tt)) ∅ 50 "user-token").
  - vm_compute. reflexivity.
  - vm_compute. reflexivity.
  - reflexivity.
Defined.

(** A stored limit that is no integer, and a world without a token. *)
Lemma unreadable_configuration_stops_before_any_request_witness :
  (exists evs msg,
     exec (spotify_etl2.run_spotify_recently_played_etl sample_lib
             misconfigured_world ∅) = (evs, Raise (ValueError msg)) /\
     calls evs = [] /\ writes evs = []) /\
  (exists evs msg,
     exec (new.run_spotify_recently_played_analysis sample_lib
             misconfigured_world ∅) = (evs, Raise (ValueError msg)) /\
     calls evs = [] /\ writes evs = []) /\
  (exists evs,
     exec (spotify_etl2.run_spotify_recently_played_etl sample_lib
             (sample_world ∅ ∅ (Ok empty_history) (Ok tt)) ∅)
       = (evs, Raise (ValueError spotify_etl2.token_not_found)) /\
     calls evs = [] /\ writes evs = []).
Proof.
  split; [|split].
  - apply (unreadable_configuration_stops_before_any_request sample_lib
             misconfigured_world ∅). vm_compute. reflexivity.
  - apply (unreadable_configuration_stops_before_any_request sample_lib
             misconfigured_world ∅). vm_compute. reflexivity.
  - apply (proj2 (proj2 (unreadable_configuration_stops_before_any_request
                           sample_lib (sample_world ∅ ∅ (Ok empty_history) (Ok tt))
                           ∅)) 50).
    + vm_compute. reflexivity.
    + split; left; reflexivity.
Defined.

(** No OAuth client can be built. *)
Lemma no_client_stops_before_the_history_call_witness :
  exists evs,
    exec (new.run_spotify_recently_played_analysis sample_lib offline_world ∅)
      = (evs, Raise (Exception "Failed to create Spotify client")) /\
    calls evs = [] /\ writes evs = [].
Proof.
  apply (no_client_stops_before_the_history_call sample_lib offline_world ∅ 10
           {| new.client_id := "env-id"; new.client_secret := "env-secret";
              new.redirect_uri := "http://localhost:8080/callback" |}).
  - vm_compute. reflexivity.
  - vm_compute. reflexivity.
  - vm_compute. reflexivity.
Defined.

(** The history call fails. *)
Lemma failed_history_call_is_reported_as_no_data_witness :
  exec (new.get_recently_played_tracks (sample_client (Raise RequestException)) 10)
    = ([RecentlyPlayedCall 10;
        Log ERROR "Error getting recently played tracks: {e}"
          [AExn RequestException]], Ok None) /\
  exists evs,
    exec (new.run_spotify_recently_played_analysis sample_lib
            (history_world (Raise RequestException) (Ok tt)) ∅)
      = (evs, Ok new.no_data_summary) /\
    Log ERROR "Error getting recently played tracks: {e}" [AExn RequestException]
      ∈ evs /\
    writes evs = [].
Proof.
  apply (failed_history_call_is_reported_as_no_data sample_lib
           (history_world (Raise RequestException) (Ok tt)) ∅ 10
           {| new.client_id := "env-id"; new.client_secret := "env-secret";
              new.redirect_uri := "http://localhost:8080/callback" |}
           (sample_client (Raise RequestException)) RequestException).
  - vm_compute. reflexivity.
  - vm_compute. reflexivity.
  - vm_compute. reflexivity.
  - reflexivity.
Defined.


(** Nothing stored, a redirect URI in the environment: the default is
    used. *)
Lemma redirect_uri_ignores_the_environment_witness :
  exists c,
    exec (new.get_spotify_user_credentials
            (sample_world ∅ (<["SPOTIFY_REDIRECT_URI" := "http://example.org/cb"]>
                               sample_env)
               (Ok empty_history) (Ok tt))) = ([], Ok c) /\
    new.redirect_uri c = new.default_redirect_uri.
Proof.
  eexists. split; [vm_compute; reflexivity|].
  eapply (redirect_uri_ignores_the_environment_unless_stored_empty
            (sample_world ∅ (<["SPOTIFY_REDIRECT_URI" := "http://example.org/cb"]>
                               sample_env)
               (Ok empty_history) (Ok tt)) []).
  - vm_compute. reflexivity.
  - reflexivity.
Defined.
